(** * CCXTInstrumentProvider: a shallow embedding of
      nautilus_trader/adapters/ccxt/providers.pyx

    The provider turns the market and currency dictionaries of a CCXT
    exchange client into [Instrument] and [Currency] objects and keeps
    them in two dictionaries.  The embedding follows the source method by
    method and keeps the source's names.

    - Python values read from the client are a small JSON-like type
      [PyObject] ([None], [int], [float], [str] and [dict] with string
      keys); [d[k]] and [d.get(k)] are modelled with the exceptions they
      raise on a missing key or a receiver without the method.
    - A C [double] is a binary64 number ([spec_float] of the standard
      library, precision 53, emax 1024); [str(float)], float division, the
      conversion of an [int] to a float and the [f"{x:.{p}f}"] format are
      computed exactly on it.
    - Exceptions are values of [exn]; a method that can raise returns a
      [result].  The two load loops thread the provider's dictionaries
      explicitly, so that the state left behind by a raising load is
      visible.
    - Dictionaries handed to callers live in a heap of dictionary objects,
      so that a caller mutating what [get_all] returned is a write to a
      heap location.

    Outside the model: values of other Python types ([bool], [list]),
    letters beyond ASCII in [str.upper], what the constructors of the
    trading model validate, and the network behind [load_markets], whose
    outcome is an argument of [load_all].

    The logger of nautilus_trader/common/logging.pyx is embedded in the
    module [Logging], after the provider. *)

From Stdlib Require Import ZArith QArith Qround String Ascii List Lia.
From Stdlib Require Import Floats.SpecFloat.
From stdpp Require Import base option gmap strings.

Local Open Scope string_scope.
Local Open Scope Z_scope.

(** ** Python strings *)

Module PyStr.

(** [s.partition(sep)] for a one-character separator: the text before
    the first occurrence, the separator (empty when absent) and the text
    after it. *)
Fixpoint partition (sep : ascii) (s : string) : string * string * string :=
  match s with
  | EmptyString => (EmptyString, EmptyString, EmptyString)
  | String c rest =>
      if Ascii.eqb c sep then (EmptyString, String sep EmptyString, rest)
      else let '(before, mid, after) := partition sep rest in
           (String c before, mid, after)
  end.

(** [s.rstrip(c)] for a one-character set. *)
Fixpoint rstrip (c : ascii) (s : string) : string :=
  match s with
  | EmptyString => EmptyString
  | String a rest =>
      match rstrip c rest with
      | EmptyString => if Ascii.eqb a c then EmptyString else String a EmptyString
      | r => String a r
      end
  end.

(** [len(s)] *)
Definition len (s : string) : Z := Z.of_nat (String.length s).

(** [c * n] for a one-character string [c]. *)
Definition repeat (c : ascii) (n : nat) : string :=
  Nat.iter n (String c) EmptyString.

Definition digit_char (d : Z) : ascii := ascii_of_nat (48 + Z.to_nat d).

Fixpoint digits_acc (fuel : nat) (n : Z) (acc : string) : string :=
  match fuel with
  | O => acc
  | S fuel' =>
      let acc' := String (digit_char (n mod 10)) acc in
      if n / 10 =? 0 then acc' else digits_acc fuel' (n / 10) acc'
  end.

(** [str(n)] for a non-negative [int]. *)
Definition of_nonneg (n : Z) : string :=
  digits_acc (S (Z.to_nat (Z.log2 n))) n EmptyString.

(** [s.upper()] on ASCII letters. *)
Definition upper_char (c : ascii) : ascii :=
  let n := nat_of_ascii c in
  if ((97 <=? n)%nat && (n <=? 122)%nat)%bool then ascii_of_nat (n - 32) else c.

Fixpoint upper (s : string) : string :=
  match s with
  | EmptyString => EmptyString
  | String c rest => String (upper_char c) (upper rest)
  end.

End PyStr.

(** ** Python floats: binary64 *)

Module PyFloat.

Definition prec : Z := 53.
Definition emax : Z := 1024.

Abbreviation float := spec_float.

(** The double nearest to the positive rational [n / d] (ties to even):
    how a decimal literal or a decimal string is read. *)
Definition nearest (sign : bool) (n d : Z) : float :=
  if n =? 0 then S754_zero sign
  else let '(q, e, l) := SFdiv_core_binary prec emax n 0 d 0 in
       binary_round_aux prec emax sign q e l.

(** The double nearest to [n * 10^k]. *)
Definition of_decimal (sign : bool) (n k : Z) : float :=
  if 0 <=? k then nearest sign (n * 10 ^ k) 1 else nearest sign n (10 ^ (- k)).

(** [float(n)] for an [int]: [None] stands for the OverflowError of an
    [int] too large to convert. *)
Definition of_int (n : Z) : option float :=
  match binary_normalize prec emax n 0 false with
  | S754_finite s m e => Some (S754_finite s m e)
  | S754_zero s => Some (S754_zero s)
  | _ => None
  end.

(** [x / y] on doubles; [None] stands for ZeroDivisionError. *)
Definition truediv (x y : float) : option float :=
  match y with
  | S754_zero _ => None
  | _ => Some (SFdiv prec emax x y)
  end.

(** The exact value of a finite positive double [m * 2^e]. *)
Definition value_of (m : positive) (e : Z) : Q :=
  (inject_Z (Zpos m) * Qpower 2 e)%Q.

Definition pow10 (k : Z) : Q := Qpower 10%Q k.

(** *** Shortest decimal that reads back as the same double

    [repr] prints the shortest digit string that rounds to the double,
    and among those the one closest to it. *)

(** Half the distance to the next double below: the gap halves just
    above a power of two. *)
Definition half_gap_below (m : positive) (e : Z) : Q :=
  if (Pos.eqb m (2 ^ 52) && (-1074 <? e))%bool then Qpower 2%Q (e - 2) else Qpower 2%Q (e - 1).

Definition half_gap_above (e : Z) : Q := Qpower 2%Q (e - 1).

(** Does the decimal [c] read back as [m * 2^e]?  The end points of the
    rounding interval read back to it when [m] is even. *)
Definition reads_back (m : positive) (e : Z) (c : Q) : bool :=
  let x := value_of m e in
  let lo := (x - half_gap_below m e)%Q in
  let hi := (x + half_gap_above e)%Q in
  match Z.even (Zpos m) with
  | true => (Qle_bool lo c && Qle_bool c hi)%bool
  | false => (negb (Qle_bool c lo) && negb (Qle_bool hi c))%bool
  end.

(** The decimal exponent [E] with [10^E <= x < 10^(E+1)], searched
    upwards from [E0]. *)
Fixpoint floor_log10_from (fuel : nat) (E0 : Z) (x : Q) : Z :=
  match fuel with
  | O => E0
  | S fuel' =>
      if negb (Qle_bool (pow10 (E0 + 1)) x) then E0
      else floor_log10_from fuel' (E0 + 1) x
  end.

Definition floor_log10 (x : Q) : Z := floor_log10_from 640 (-324) x.

(** Try [n], [n+1], ... significant digits; the result [(d, k)] stands
    for [d * 10^k]. *)
Fixpoint shortest_from (fuel : nat) (n : Z) (m : positive) (e : Z) (E : Z) : Z * Z :=
  let x := value_of m e in
  let k := E - (n - 1) in
  let dl := Qfloor (x / pow10 k)%Q in
  let dh := dl + 1 in
  let cl := (inject_Z dl * pow10 k)%Q in
  let ch := (inject_Z dh * pow10 k)%Q in
  match fuel with
  | O => (dl, k)
  | S fuel' =>
      match reads_back m e cl, reads_back m e ch with
      | true, true =>
          match Qcompare (x - cl)%Q (ch - x)%Q with
          | Lt => (dl, k)
          | Gt => (dh, k)
          | Eq => if Z.even dl then (dl, k) else (dh, k)
          end
      | true, false => (dl, k)
      | false, true => (dh, k)
      | false, false => shortest_from fuel' (n + 1) m e E
      end
  end.

Fixpoint strip_zeros (fuel : nat) (d k : Z) : Z * Z :=
  match fuel with
  | O => (d, k)
  | S fuel' => if (d mod 10 =? 0) && negb (d =? 0) then strip_zeros fuel' (d / 10) (k + 1) else (d, k)
  end.

(** The digits of the shortest decimal and the position of the decimal
    point relative to their start: the value is [0.DIGITS * 10^decpt]. *)
Definition shortest_digits (m : positive) (e : Z) : string * Z :=
  let '(d, k) := shortest_from 17 1 m e (floor_log10 (value_of m e)) in
  let '(d, k) := strip_zeros 20 d k in
  let ds := PyStr.of_nonneg d in
  (ds, k + PyStr.len ds).

(** *** [repr(float)] from the digits

    Fixed notation when [-4 < decpt <= 16], scientific otherwise. *)

Definition fixed_notation (ds : string) (decpt : Z) : string :=
  let n := PyStr.len ds in
  if decpt <=? 0 then
    "0." +:+ PyStr.repeat "0" (Z.to_nat (- decpt)) +:+ ds
  else if n <=? decpt then
    ds +:+ PyStr.repeat "0" (Z.to_nat (decpt - n)) +:+ ".0"
  else
    substring 0 (Z.to_nat decpt) ds +:+ "." +:+
    substring (Z.to_nat decpt) (Z.to_nat (n - decpt)) ds.

Definition exponent_text (x : Z) : string :=
  let a := Z.abs x in
  (if x <? 0 then "-" else "+") +:+
  (if a <? 10 then "0" else "") +:+ PyStr.of_nonneg a.

Definition scientific_notation (ds : string) (decpt : Z) : string :=
  match ds with
  | EmptyString => EmptyString
  | String d EmptyString => String d ("e" +:+ exponent_text (decpt - 1))
  | String d rest => String d ("." +:+ rest +:+ "e" +:+ exponent_text (decpt - 1))
  end.

Definition repr_digits (ds : string) (decpt : Z) : string :=
  if (decpt <=? -4) || (16 <? decpt) then scientific_notation ds decpt
  else fixed_notation ds decpt.

Definition sign_text (s : bool) : string := if s then "-" else "".

(** [str(x)] = [repr(x)] for a float. *)
Definition str (x : float) : string :=
  match x with
  | S754_zero s => sign_text s +:+ "0.0"
  | S754_infinity s => sign_text s +:+ "inf"
  | S754_nan => "nan"
  | S754_finite s m e =>
      let '(ds, decpt) := shortest_digits m e in
      sign_text s +:+ repr_digits ds decpt
  end.

(** *** [format(x, ".{p}f")]: [p] digits after the point, correctly
    rounded (ties to even) from the exact binary value. *)

Definition round_half_even (q : Q) : Z :=
  let f := Qfloor q in
  match Qcompare (q - inject_Z f)%Q (1 # 2)%Q with
  | Lt => f
  | Gt => f + 1
  | Eq => if Z.even f then f else f + 1
  end.

Definition fixed_text (N : Z) (p : Z) : string :=
  let ip := N / 10 ^ p in
  let fp := N mod 10 ^ p in
  if p =? 0 then PyStr.of_nonneg ip
  else
    let fs := PyStr.of_nonneg fp in
    PyStr.of_nonneg ip +:+ "." +:+
    PyStr.repeat "0" (Z.to_nat (p - PyStr.len fs)) +:+ fs.

Definition format_f (x : float) (p : Z) : string :=
  match x with
  | S754_zero s => sign_text s +:+ fixed_text 0 p
  | S754_infinity s => sign_text s +:+ "inf"
  | S754_nan => "nan"
  | S754_finite s m e =>
      sign_text s +:+ fixed_text (round_half_even (value_of m e * pow10 p)%Q) p
  end.

(** [int(x)]: truncation towards zero of a finite double. *)
Definition trunc (x : float) : option Z :=
  match x with
  | S754_zero _ => Some 0
  | S754_finite s m e =>
      let a := if 0 <=? e then Zpos m * 2 ^ e else Zpos m / 2 ^ (- e) in
      Some (if s then - a else a)
  | _ => None
  end.

End PyFloat.

(** ** Python values, exceptions and results *)

#[local] Set Warnings "-register-all".

(** What the exchange client hands over: JSON-like data. *)
Inductive PyObject :=
| VNone
| VInt (n : Z)
| VFloat (x : PyFloat.float)
| VStr (s : string)
| VDict (items : list (string * PyObject)).

(** The exceptions the provider's code can end in. *)
Inductive exn :=
| KeyError (key : PyObject)
| AttributeError (attr : string)
| TypeError
| ValueError
| OverflowError
| ZeroDivisionError
| InvalidOperation
| RuntimeError (msg : string).

(** The class name of an exception, as [type(e).__name__] gives it. *)
Definition exn_name (e : exn) : string :=
  match e with
  | KeyError _ => "KeyError"
  | AttributeError _ => "AttributeError"
  | TypeError => "TypeError"
  | ValueError => "ValueError"
  | OverflowError => "OverflowError"
  | ZeroDivisionError => "ZeroDivisionError"
  | InvalidOperation => "InvalidOperation"
  | RuntimeError _ => "RuntimeError"
  end.

Inductive result (A : Type) :=
| Ok (a : A)
| Raise (e : exn).
Arguments Ok {A} a.
Arguments Raise {A} e.

#[global] Instance result_ret : MRet result := fun A a => Ok a.
#[global] Instance result_bind : MBind result := fun A B f m =>
  match m with
  | Ok a => f a
  | Raise e => Raise e
  end.
#[global] Instance result_fmap : FMap result := fun A B f m =>
  match m with
  | Ok a => Ok (f a)
  | Raise e => Raise e
  end.

Definition is_Ok {A} (r : result A) : Prop := exists a, r = Ok a.
Definition raises {A} (r : result A) : Prop := exists e, r = Raise e.

Definition of_option {A} (e : exn) (o : option A) : result A :=
  match o with
  | Some a => Ok a
  | None => Raise e
  end.

(** *** Dictionaries *)

Module PyDict.

(** The value stored under [k], if any. *)
Fixpoint lookup (items : list (string * PyObject)) (k : string) : option PyObject :=
  match items with
  | nil => None
  | (k', v) :: rest => if String.eqb k' k then Some v else lookup rest k
  end.

(** [d[k]]: KeyError on a missing key; TypeError when [d] is [None] or
    any other value that is not a dictionary. *)
Definition getitem (d : PyObject) (k : string) : result PyObject :=
  match d with
  | VDict items => of_option (KeyError (VStr k)) (lookup items k)
  | _ => Raise TypeError
  end.

(** [d.get(k, default)]: AttributeError when [d] has no [get]. *)
Definition get_default (d : PyObject) (k : string) (dflt : PyObject) : result PyObject :=
  match d with
  | VDict items => Ok (default dflt (lookup items k))
  | _ => Raise (AttributeError "get")
  end.

(** [d.get(k)] *)
Definition get (d : PyObject) (k : string) : result PyObject :=
  get_default d k VNone.

(** Assignment to a variable declared [cdef dict]: a dictionary or
    [None] passes, anything else is a TypeError. *)
Definition typed (v : PyObject) : result PyObject :=
  match v with
  | VDict _ | VNone => Ok v
  | _ => Raise TypeError
  end.

End PyDict.

Definition is_None (v : PyObject) : bool :=
  match v with
  | VNone => true
  | _ => false
  end.

(** Conversion of a Python object to a C [double] argument. *)
Definition as_double (v : PyObject) : result PyFloat.float :=
  match v with
  | VInt n => of_option OverflowError (PyFloat.of_int n)
  | VFloat x => Ok x
  | _ => Raise TypeError
  end.

(** ** [decimal.Decimal] *)

Module PyDecimal.

(** A decimal is [(-1)^sign * coeff * 10^exp], an infinity or a NaN. *)
Inductive Decimal :=
| Finite (sign : bool) (coeff : Z) (exp : Z)
| Infinity (sign : bool)
| NaN (sign signalling : bool) (payload : Z).

(** [Decimal()] *)
Definition zero : Decimal := Finite false 0 0.

(** [Decimal(n)] for an [int]. *)
Definition of_int (n : Z) : Decimal := Finite (n <? 0) (Z.abs n) 0.

Fixpoint trailing_zero_bits (m : positive) : Z :=
  match m with
  | xO m' => 1 + trailing_zero_bits m'
  | _ => 0
  end.

(** [Decimal(x)] for a float: the exact value of the double, from its
    reduced ratio [n / 2^k] as [n * 5^k * 10^(-k)]. *)
Definition of_float (x : PyFloat.float) : Decimal :=
  match x with
  | S754_zero s => Finite s 0 0
  | S754_infinity s => Infinity s
  | S754_nan => NaN false false 0
  | S754_finite s m e =>
      if 0 <=? e then Finite s (Zpos m * 2 ^ e) 0
      else
        let t := Z.min (trailing_zero_bits m) (- e) in
        let k := - e - t in
        Finite s (Zpos m / 2 ^ t * 5 ^ k) (- k)
  end.

(** *** [Decimal(s)] for a string *)

Definition is_space (c : ascii) : bool :=
  let n := nat_of_ascii c in
  ((n =? 32)%nat || ((9 <=? n)%nat && (n <=? 13)%nat) || ((28 <=? n)%nat && (n <=? 31)%nat))%bool.

Definition is_digit (c : ascii) : bool :=
  let n := nat_of_ascii c in ((48 <=? n)%nat && (n <=? 57)%nat)%bool.

Definition digit_value (c : ascii) : Z := Z.of_nat (nat_of_ascii c) - 48.

Fixpoint lstrip (s : list ascii) : list ascii :=
  match s with
  | c :: rest => if is_space c then lstrip rest else s
  | nil => nil
  end.

Definition strip (s : list ascii) : list ascii :=
  rev (lstrip (rev (lstrip s))).

Definition drop_underscores (s : list ascii) : list ascii :=
  List.filter (fun c => negb (Ascii.eqb c "_")) s.

(** The leading digits of [s] and what follows them. *)
Fixpoint take_digits (s : list ascii) : list ascii * list ascii :=
  match s with
  | c :: rest =>
      if is_digit c then let '(ds, tl) := take_digits rest in (c :: ds, tl)
      else (nil, s)
  | nil => (nil, nil)
  end.

Definition digits_value (ds : list ascii) : Z :=
  fold_left (fun acc c => 10 * acc + digit_value c) ds 0.

Definition take_sign (s : list ascii) : bool * list ascii :=
  match s with
  | "-"%char :: rest => (true, rest)
  | "+"%char :: rest => (false, rest)
  | _ => (false, s)
  end.

Definition lower_char (c : ascii) : ascii :=
  let n := nat_of_ascii c in
  if ((65 <=? n)%nat && (n <=? 90)%nat)%bool then ascii_of_nat (n + 32) else c.

Definition lower (s : list ascii) : string :=
  string_of_list_ascii (map lower_char s).

(** The exponent part: nothing, or [e], an optional sign and at least
    one digit, up to the end of the text. *)
Definition parse_exponent (s : list ascii) : option Z :=
  match s with
  | nil => Some 0
  | c :: rest =>
      if Ascii.eqb (lower_char c) "e" then
        let '(neg, rest) := take_sign rest in
        match take_digits rest with
        | (d :: ds, nil) =>
            let x := digits_value (d :: ds) in Some (if neg then - x else x)
        | _ => None
        end
      else None
  end.

Definition parse_number (sign : bool) (s : list ascii) : option Decimal :=
  let '(ip, rest) := take_digits s in
  let '(fp, rest) :=
    match rest with
    | "."%char :: rest' => take_digits rest'
    | _ => (nil, rest)
    end in
  match (ip ++ fp)%list with
  | nil => None
  | ds =>
      match parse_exponent rest with
      | Some x => Some (Finite sign (digits_value ds) (x - Z.of_nat (length fp)))
      | None => None
      end
  end.

Definition parse_special (sign : bool) (s : list ascii) : option Decimal :=
  let t := lower s in
  if String.eqb t "inf" || String.eqb t "infinity" then Some (Infinity sign)
  else if String.prefix "nan" t then
    match take_digits (skipn 3 s) with
    | (ds, nil) => Some (NaN sign false (digits_value ds))
    | _ => None
    end
  else if String.prefix "snan" t then
    match take_digits (skipn 4 s) with
    | (ds, nil) => Some (NaN sign true (digits_value ds))
    | _ => None
    end
  else None.

(** [Decimal(s)]: [None] stands for [decimal.InvalidOperation]. *)
Definition of_str (s : string) : option Decimal :=
  let '(sign, body) := take_sign (drop_underscores (strip (list_ascii_of_string s))) in
  match parse_number sign body with
  | Some d => Some d
  | None => parse_special sign body
  end.

(** *** A decimal as text *)

(** The digits of the coefficient placed around the point at [dotplace]
    digits from their start. *)
Definition place_point (ds : string) (dotplace : Z) : string :=
  let n := PyStr.len ds in
  if dotplace <=? 0 then
    "0." +:+ PyStr.repeat "0" (Z.to_nat (- dotplace)) +:+ ds
  else if n <=? dotplace then
    ds +:+ PyStr.repeat "0" (Z.to_nat (dotplace - n))
  else
    substring 0 (Z.to_nat dotplace) ds +:+ "." +:+
    substring (Z.to_nat dotplace) (Z.to_nat (n - dotplace)) ds.

Definition special_text (d : Decimal) : string :=
  match d with
  | Infinity s => (if s then "-" else "") +:+ "Infinity"
  | NaN s g p =>
      (if s then "-" else "") +:+ (if g then "sNaN" else "NaN") +:+
      (if p =? 0 then "" else PyStr.of_nonneg p)
  | Finite _ _ _ => ""
  end.

(** [str(d)]: plain notation when the exponent is not positive and the
    number has more than [-6] digits left of the point; scientific
    notation otherwise. *)
Definition str (d : Decimal) : string :=
  match d with
  | Finite s c e =>
      let ds := PyStr.of_nonneg c in
      let leftdigits := e + PyStr.len ds in
      let dotplace := if (e <=? 0) && (-6 <? leftdigits) then leftdigits else 1 in
      let x := leftdigits - dotplace in
      (if s then "-" else "") +:+ place_point ds dotplace +:+
      (if x =? 0 then ""
       else "E" +:+ (if x <? 0 then "-" else "+") +:+ PyStr.of_nonneg (Z.abs x))
  | _ => special_text d
  end.

(** [format(d, "f")]: plain notation whatever the exponent; a positive
    exponent is first brought to 0, which leaves a zero as ["0"]. *)
Definition format_f (d : Decimal) : string :=
  match d with
  | Finite s c e =>
      let ds := PyStr.of_nonneg c in
      let e := if (c =? 0) && (0 <? e) then 0 else e in
      (if s then "-" else "") +:+ place_point ds (e + PyStr.len ds)
  | _ => special_text d
  end.

(** [float(d)]: the nearest double; [None] stands for the ValueError of
    a signalling NaN. *)
Definition to_float (d : Decimal) : option PyFloat.float :=
  match d with
  | Finite s c e => Some (PyFloat.of_decimal s c e)
  | Infinity s => Some (S754_infinity s)
  | NaN _ false _ => Some S754_nan
  | NaN _ true _ => None
  end.

End PyDecimal.

Abbreviation Decimal := PyDecimal.Decimal.

(** [Decimal(v)] for a value read from the client. *)
Definition Decimal_new (v : PyObject) : result Decimal :=
  match v with
  | VInt n => Ok (PyDecimal.of_int n)
  | VFloat x => Ok (PyDecimal.of_float x)
  | VStr s => of_option InvalidOperation (PyDecimal.of_str s)
  | VNone | VDict _ => Raise TypeError
  end.

(** A [Decimal] passed where a C [double] is expected. *)
Definition Decimal_as_double (d : Decimal) : result PyFloat.float :=
  of_option ValueError (PyDecimal.to_float d).

(** ** Objects of the trading model

    [Symbol], [Venue], [Currency], [Quantity], [Price], [Money] and
    [Instrument] are classes of nautilus_trader.model, declared outside
    this file of the sources.  An object is represented by the arguments
    its constructor received, under the constructor's keyword names;
    whatever those constructors validate is outside this model. *)

Module Venue.
Record t := make { value : string }.
End Venue.

Module Symbol.
(** [Symbol(code, venue)] *)
Record t := make { code : string; venue : Venue.t }.
End Symbol.

Inductive CurrencyType := FIAT | CRYPTO.

Module Currency.
(** [Currency(code=, precision=, currency_type=)] *)
Record t := make { code : string; precision : Z; currency_type : CurrencyType }.
End Currency.

Module Quantity.
(** [Quantity(value)] and [Quantity(value, precision=p)]; the value is
    raw data or, when a quantity is wrapped again, a [Quantity]. *)
Inductive t :=
| of_value (value : PyObject) (precision : option PyObject)
| of_quantity (value : t) (precision : option PyObject).

(** The [precision] argument the constructor received. *)
Definition precision (q : t) : option PyObject :=
  match q with
  | of_value _ p => p
  | of_quantity _ p => p
  end.
End Quantity.

Module Price.
(** [Price(value, precision=p)] *)
Record t := make { value : PyObject; precision : PyObject }.
End Price.

Module Money.
(** [Money(value, currency=c)] *)
Record t := make { value : PyObject; currency : Currency.t }.
End Money.

Inductive AssetClass := AssetClass_CRYPTO.

Module Instrument.
(** The keyword arguments of [Instrument(...)].  [asset_type] is a C
    enum, an integer; [timestamp] is the reading of the clock. *)
Record t := make {
  symbol : Symbol.t;
  asset_class : AssetClass;
  asset_type : Z;
  base_currency : option Currency.t;
  quote_currency : Currency.t;
  settlement_currency : Currency.t;
  is_inverse : bool;
  price_precision : PyObject;
  size_precision : PyObject;
  tick_size : Decimal;
  multiplier : Decimal;
  leverage : Decimal;
  lot_size : Quantity.t;
  max_quantity : option Quantity.t;
  min_quantity : option Quantity.t;
  max_notional : option Money.t;
  min_notional : option Money.t;
  max_price : option Price.t;
  min_price : option Price.t;
  margin_init : Decimal;
  margin_maint : Decimal;
  maker_fee : Decimal;
  taker_fee : Decimal;
  financing : list (string * PyObject);
  timestamp : Z;
  info : PyObject
}.
End Instrument.

(** What the provider calls in modules that are not part of these
    sources: the table of well-known currencies behind
    [Currency.from_str_c] and [Currency.is_fiat_c] (the argument [None]
    stands for Python's [None], which a [str] parameter of a [cdef]
    function accepts), and the parser of asset types with its
    [AssetType.UNDEFINED] member. *)
Class Externals := {
  Currency_from_str_c : option string -> option Currency.t;
  Currency_is_fiat_c : string -> bool;
  AssetType_UNDEFINED : Z;
  AssetTypeParser_from_str : string -> result Z
}.

(** The CCXT exchange client, as far as the provider reads it. *)
Module Exchange.
Record t := make {
  name : string;
  precisionMode : Z;
  markets : list (string * PyObject);
  currencies : list (string * PyObject)
}.
End Exchange.

(** ccxt's precision modes. *)
Definition DECIMAL_PLACES : Z := 2.
Definition SIGNIFICANT_DIGITS : Z := 3.
Definition TICK_SIZE : Z := 4.

(** ** The provider *)

Definition loc := positive.
Abbreviation heap := (gmap loc (gmap string Instrument.t)).

(** The attributes of a [CCXTInstrumentProvider].  [_instruments] is a
    reference to a dictionary object of the heap; [_currencies] is never
    handed out and is kept by value. *)
Record CCXTInstrumentProvider := {
  venue : Venue.t;
  count : Z;
  _client : Exchange.t;
  _currencies : gmap string Currency.t;
  _instruments : loc
}.

Definition set_count (n : Z) (self : CCXTInstrumentProvider) : CCXTInstrumentProvider :=
  {| venue := venue self; count := n; _client := _client self;
     _currencies := _currencies self; _instruments := _instruments self |}.

Definition set_client (c : Exchange.t) (self : CCXTInstrumentProvider) : CCXTInstrumentProvider :=
  {| venue := venue self; count := count self; _client := c;
     _currencies := _currencies self; _instruments := _instruments self |}.

Definition set_currencies (m : gmap string Currency.t) (self : CCXTInstrumentProvider)
  : CCXTInstrumentProvider :=
  {| venue := venue self; count := count self; _client := _client self;
     _currencies := m; _instruments := _instruments self |}.

(** [len(str(tick_size).partition('.')[2].rstrip('0'))] *)
Definition _tick_size_to_precision (tick_size : PyFloat.float) : Z :=
  let '(_, _, after) := PyStr.partition "." (PyFloat.str tick_size) in
  PyStr.len (PyStr.rstrip "0" after).

(** [int(value)] returned as a C [int]. *)
Definition int_of_double (x : PyFloat.float) : result Z :=
  match PyFloat.trunc x with
  | Some n => if (- 2 ^ 31 <=? n) && (n <? 2 ^ 31) then Ok n else Raise OverflowError
  | None => match x with S754_nan => Raise ValueError | _ => Raise OverflowError end
  end.

(** [_get_precision]: a mode that is neither 2 nor 4 reaches the end of
    the function, and a [cdef int] function that ends without [return]
    returns 0. *)
Definition _get_precision (value : PyFloat.float) (mode : Z) : result Z :=
  if mode =? 2 then int_of_double value
  else if mode =? 4 then Ok (_tick_size_to_precision value)
  else Ok 0.

(** [Currency.is_fiat_c(code)] decides between the two currency types. *)
Definition _parse_currency_type `{Externals} (code : string) : CurrencyType :=
  if Currency_is_fiat_c code then FIAT else CRYPTO.

(** *** [_parse_instrument], step by step *)

Definition one : PyFloat.float := S754_finite false (2 ^ 52) (-52).

(** How [1.0 / 10 ** x] ends for a float [x]: the power overflows above
    [1024 * log10 2], is the float zero below [-1075 * log10 2], and is
    an ordinary float otherwise. *)
Inductive power_outcome := PowerOverflow | PowerZero | PowerFinite.

Definition float_power_outcome (x : PyFloat.float) : power_outcome :=
  match x with
  | S754_infinity true => PowerZero
  | S754_finite s m e =>
      let v := PyFloat.value_of m e in
      if s then
        if Qle_bool v (3236072453387797849 # 10000000000000000) then PowerFinite else PowerZero
      else
        if Qle_bool v (3082547155599167439 # 10000000000000000) then PowerFinite else PowerOverflow
  | _ => PowerFinite
  end.

(** The text [f"{1.0 / 10 ** price_precision:.{price_precision}f}"].
    - An [int] [p >= 0]: [10 ** p] is an exact [int], converted to a float
      for the division (OverflowError when it is too large), and the
      quotient is printed with [p] digits after the point.
    - An [int] [p < 0]: [10 ** p] is a float, 0.0 from [p = -324] down
      (ZeroDivisionError); otherwise the format specification, which
      would read [.-1f], is refused (ValueError).
    - A float: the power may overflow or be zero; otherwise the format
      specification, which would read [.2.0f], is refused.
    - Anything else cannot be an exponent (TypeError). *)
Definition decimal_places_tick_text (price_precision : PyObject) : result string :=
  match price_precision with
  | VInt p =>
      if 0 <=? p then
        d ← of_option OverflowError (PyFloat.of_int (10 ^ p));
        q ← of_option ZeroDivisionError (PyFloat.truediv one d);
        Ok (PyFloat.format_f q p)
      else if p <=? -324 then Raise ZeroDivisionError
      else Raise ValueError
  | VFloat x =>
      match float_power_outcome x with
      | PowerOverflow => Raise OverflowError
      | PowerZero => Raise ZeroDivisionError
      | PowerFinite => Raise ValueError
      end
  | _ => Raise TypeError
  end.

Definition unsupported_message (name : string) : string :=
  "The " +:+ name +:+ " exchange is using " +:+
  "SIGNIFICANT_DIGITS precision which is not " +:+
  "currently supported in this version.".

(** Precisions: [(price_precision, size_precision, tick_size)]. *)
Definition parse_precisions (self : CCXTInstrumentProvider) (values : PyObject)
  : result (PyObject * PyObject * Decimal) :=
  precisions ← PyDict.getitem values "precision" ≫= PyDict.typed;
  if Exchange.precisionMode (_client self) =? 2 then
    price_precision ← PyDict.get precisions "price";
    size_precision ← PyDict.get_default precisions "amount" (VInt 8);
    text ← decimal_places_tick_text price_precision;
    tick_size ← Decimal_new (VStr text);
    Ok (price_precision, size_precision, tick_size)
  else if Exchange.precisionMode (_client self) =? 4 then
    raw ← PyDict.get precisions "price";
    tick_size ← Decimal_new raw;
    x ← Decimal_as_double tick_size;
    let price_precision := _tick_size_to_precision x in
    size_precision ← PyDict.get precisions "amount";
    let size_precision := if is_None size_precision then VInt 0 else size_precision in
    y ← as_double size_precision;
    Ok (VInt price_precision, VInt (_tick_size_to_precision y), tick_size)
  else
    Raise (RuntimeError (unsupported_message (Exchange.name (_client self)))).

(** Asset type: [values.get("type")], upper-cased and parsed. *)
Definition parse_asset_type `{Externals} (values : PyObject) : result Z :=
  asset_type_str ← PyDict.get values "type";
  match asset_type_str with
  | VNone => Ok AssetType_UNDEFINED
  | VStr s => AssetTypeParser_from_str (PyStr.upper s)
  | _ => Raise (AttributeError "upper")
  end.

(** A currency code that the table of well-known currencies does not
    hold is looked up with [self._currencies[code]]. *)
Definition resolve_currency `{Externals} (self : CCXTInstrumentProvider) (code : PyObject)
  : result Currency.t :=
  match code with
  | VStr s =>
      match Currency_from_str_c (Some s) with
      | Some c => Ok c
      | None => of_option (KeyError code) (_currencies self !! s)
      end
  | VNone =>
      match Currency_from_str_c None with
      | Some c => Ok c
      | None => Raise (KeyError code)
      end
  | _ => Raise TypeError
  end.

(** Base currency: only looked up when [values.get("base")] is not
    [None]. *)
Definition parse_base_currency `{Externals} (self : CCXTInstrumentProvider) (values : PyObject)
  : result (option Currency.t) :=
  base_currency ← PyDict.get values "base";
  if is_None base_currency then Ok None
  else
    code ← PyDict.getitem values "base";
    Some <$> resolve_currency self code.

(** Quote currency: [values["quote"]] is required. *)
Definition parse_quote_currency `{Externals} (self : CCXTInstrumentProvider) (values : PyObject)
  : result Currency.t :=
  code ← PyDict.getitem values "quote";
  resolve_currency self code.

(** [values["limits"].get(block).get(bound)] *)
Definition limit (values : PyObject) (block bound : string) : result PyObject :=
  limits ← PyDict.getitem values "limits";
  b ← PyDict.get limits block;
  PyDict.get b bound.

(** [Quantity(bound, precision=size_precision)] when the bound is there. *)
Definition parse_quantity (values : PyObject) (bound : string) (size_precision : PyObject)
  : result (option Quantity.t) :=
  q ← limit values "amount" bound;
  Ok (if is_None q then None else Some (Quantity.of_value q (Some size_precision))).

(** Lot size: [info.lotSize], else the minimum quantity wrapped again at
    [size_precision], else 1. *)
Definition parse_lot_size (values : PyObject) (min_quantity : option Quantity.t)
    (size_precision : PyObject) : result Quantity.t :=
  info ← PyDict.getitem values "info";
  lot_size ← PyDict.get info "lotSize";
  if negb (is_None lot_size) then Ok (Quantity.of_value lot_size None)
  else
    match min_quantity with
    | Some q => Ok (Quantity.of_quantity q (Some size_precision))
    | None => Ok (Quantity.of_value (VInt 1) None)
    end.

(** [Money(bound, currency=quote_currency)] from [limits.cost]. *)
Definition parse_notional (values : PyObject) (bound : string) (quote_currency : Currency.t)
  : result (option Money.t) :=
  n ← limit values "cost" bound;
  Ok (if is_None n then None else Some (Money.make n quote_currency)).

(** [Price(bound, precision=price_precision)], read from [limits.cost]
    as well. *)
Definition parse_price (values : PyObject) (bound : string) (price_precision : PyObject)
  : result (option Price.t) :=
  p ← limit values "cost" bound;
  Ok (if is_None p then None else Some (Price.make p price_precision)).

(** A fee: [Decimal()] when absent, else [Decimal(fee)]. *)
Definition parse_fee (values : PyObject) (key : string) : result Decimal :=
  fee ← PyDict.get values key;
  if is_None fee then Ok PyDecimal.zero else Decimal_new fee.

(** [_parse_instrument(symbol, values)]; [utcnow] is what
    [datetime.utcnow()] returns during the call. *)
Definition _parse_instrument `{Externals} (self : CCXTInstrumentProvider)
    (symbol : Symbol.t) (values : PyObject) (utcnow : Z) : result Instrument.t :=
  '(price_precision, size_precision, tick_size) ← parse_precisions self values;
  asset_type ← parse_asset_type values;
  base_currency ← parse_base_currency self values;
  quote_currency ← parse_quote_currency self values;
  max_quantity ← parse_quantity values "max" size_precision;
  min_quantity ← parse_quantity values "min" size_precision;
  lot_size ← parse_lot_size values min_quantity size_precision;
  max_notional ← parse_notional values "max" quote_currency;
  min_notional ← parse_notional values "min" quote_currency;
  max_price ← parse_price values "max" price_precision;
  min_price ← parse_price values "min" price_precision;
  maker_fee ← parse_fee values "maker";
  taker_fee ← parse_fee values "taker";
  Ok {|
    Instrument.symbol := symbol;
    Instrument.asset_class := AssetClass_CRYPTO;
    Instrument.asset_type := asset_type;
    Instrument.base_currency := base_currency;
    Instrument.quote_currency := quote_currency;
    Instrument.settlement_currency := quote_currency;
    Instrument.is_inverse := false;
    Instrument.price_precision := price_precision;
    Instrument.size_precision := size_precision;
    Instrument.tick_size := tick_size;
    Instrument.multiplier := PyDecimal.of_int 1;
    Instrument.leverage := PyDecimal.of_int 1;
    Instrument.lot_size := lot_size;
    Instrument.max_quantity := max_quantity;
    Instrument.min_quantity := min_quantity;
    Instrument.max_notional := max_notional;
    Instrument.min_notional := min_notional;
    Instrument.max_price := max_price;
    Instrument.min_price := min_price;
    Instrument.margin_init := PyDecimal.zero;
    Instrument.margin_maint := PyDecimal.zero;
    Instrument.maker_fee := maker_fee;
    Instrument.taker_fee := taker_fee;
    Instrument.financing := nil;
    Instrument.timestamp := utcnow;
    Instrument.info := values
  |}.

(** *** The provider's state

    A provider and the dictionary objects that exist: the one behind
    [self._instruments] and those that [get_all] has handed out. *)
Record World := {
  objects : heap;
  provider : CCXTInstrumentProvider
}.

(** The contents of a dictionary object. *)
Definition contents (h : heap) (l : loc) : gmap string Instrument.t :=
  default ∅ (h !! l).

(** The contents of [self._instruments]. *)
Definition instruments (w : World) : gmap string Instrument.t :=
  contents (objects w) (_instruments (provider w)).

(** [self._instruments[code] = instrument] *)
Definition setitem_instruments (code : string) (instrument : Instrument.t) (w : World) : World :=
  {| objects := <[_instruments (provider w) := <[code := instrument]> (instruments w)]> (objects w);
     provider := provider w |}.

Definition with_provider (f : CCXTInstrumentProvider -> CCXTInstrumentProvider) (w : World) : World :=
  {| objects := objects w; provider := f (provider w) |}.

(** One turn of the loop of [_load_instruments]: the entry is assigned to
    [cdef dict v], parsed, and stored under [symbol.code]. *)
Definition load_instrument `{Externals} (utcnow : Z) (k : string) (v : PyObject) (w : World)
  : result Instrument.t :=
  v ← PyDict.typed v;
  let symbol := Symbol.make k (venue (provider w)) in
  _parse_instrument (provider w) symbol v utcnow.

(** The loop of [_load_instruments] over [markets.items()]; [clock i] is
    the time read while the [i]-th entry of the load is parsed.  An
    exception leaves the loop with the world as the turns before it made
    it. *)
Fixpoint _load_instruments_loop `{Externals} (clock : nat -> Z) (i : nat)
    (items : list (string * PyObject)) (w : World) : result unit * World :=
  match items with
  | nil => (Ok tt, w)
  | (k, v) :: rest =>
      match load_instrument (clock i) k v w with
      | Raise e => (Raise e, w)
      | Ok instrument =>
          _load_instruments_loop clock (S i) rest (setitem_instruments k instrument w)
      end
  end.

(** [_load_instruments]: the loop, then [self.count = len(self._instruments)]. *)
Definition _load_instruments `{Externals} (clock : nat -> Z) (w : World) : result unit * World :=
  match _load_instruments_loop clock 0 (Exchange.markets (_client (provider w))) w with
  | (Ok _, w') => (Ok tt, with_provider (set_count (Z.of_nat (size (instruments w')))) w')
  | (Raise e, w') => (Raise e, w')
  end.

(** One turn of the loop of [_load_currencies]. *)
Definition load_currency `{Externals} (precision_mode : Z) (code : string) (values : PyObject)
  : result Currency.t :=
  values ← PyDict.typed values;
  let currency_type := _parse_currency_type code in
  raw ← PyDict.getitem values "precision";
  x ← as_double raw;
  precision ← _get_precision x precision_mode;
  Ok (Currency.make code precision currency_type).

Fixpoint _load_currencies_loop `{Externals} (precision_mode : Z)
    (items : list (string * PyObject)) (cs : gmap string Currency.t)
  : result unit * gmap string Currency.t :=
  match items with
  | nil => (Ok tt, cs)
  | (code, values) :: rest =>
      match load_currency precision_mode code values with
      | Raise e => (Raise e, cs)
      | Ok currency => _load_currencies_loop precision_mode rest (<[code := currency]> cs)
      end
  end.

(** [_load_currencies] *)
Definition _load_currencies `{Externals} (w : World) : result unit * World :=
  let client := _client (provider w) in
  let '(r, cs) := _load_currencies_loop (Exchange.precisionMode client)
                    (Exchange.currencies client) (_currencies (provider w)) in
  (r, with_provider (set_currencies cs) w).

(** [load_all] (and [load_all_async], which runs the same three steps).
    [fetched] is what [self._client.load_markets(reload=True)] leaves
    behind: the refreshed client, or the exception it raised. *)
Definition load_all `{Externals} (fetched : result Exchange.t) (clock : nat -> Z) (w : World)
  : result unit * World :=
  match fetched with
  | Raise e => (Raise e, w)
  | Ok client =>
      match _load_currencies (with_provider (set_client client) w) with
      | (Raise e, w') => (Raise e, w')
      | (Ok _, w') => _load_instruments clock w'
      end
  end.

(** [__init__(client)] with [load_all=False]: two empty dictionaries, the
    one for instruments a new object. *)
Definition init (client : Exchange.t) (h : heap) : World :=
  let l := fresh (dom h) in
  {| objects := <[l := ∅]> h;
     provider := {| venue := Venue.make (PyStr.upper (Exchange.name client));
                    count := 0;
                    _client := client;
                    _currencies := ∅;
                    _instruments := l |} |}.

(** [__init__(client, load_all)]: with [load_all=True] the first load
    runs inside the constructor. *)
Definition init_load_all `{Externals} (client : Exchange.t) (load_all_flag : bool)
    (fetched : result Exchange.t) (clock : nat -> Z) (h : heap) : result unit * World :=
  if load_all_flag then load_all fetched clock (init client h)
  else (Ok tt, init client h).

(** [get_all()]: [self._instruments.copy()] is a new dictionary object
    with the same entries; the caller receives its reference. *)
Definition get_all (w : World) : loc * World :=
  let l := fresh (dom (objects w)) in
  (l, {| objects := <[l := instruments w]> (objects w); provider := provider w |}).

(** [get(symbol)] *)
Definition get (symbol : Symbol.t) (w : World) : option Instrument.t :=
  instruments w !! Symbol.code symbol.

(** [currency(code)] *)
Definition currency (code : string) (w : World) : option Currency.t :=
  _currencies (provider w) !! code.

(** [get_c(symbol_code)] *)
Definition get_c (symbol_code : string) (w : World) : option Instrument.t :=
  instruments w !! symbol_code.

(** What a caller can do to a dictionary it holds a reference to:
    [d[k] = v], [del d[k]] / [d.pop(k)], [d.clear()], and in general any
    rewriting of its entries. *)
Inductive mutation :=
| SetItem (k : string) (v : Instrument.t)
| DelItem (k : string)
| Clear
| Rewrite (f : gmap string Instrument.t -> gmap string Instrument.t).

Definition mutate_dict (op : mutation) (d : gmap string Instrument.t) : gmap string Instrument.t :=
  match op with
  | SetItem k v => <[k := v]> d
  | DelItem k => delete k d
  | Clear => ∅
  | Rewrite f => f d
  end.

(** The mutation applied to the object at [l]. *)
Definition mutate (l : loc) (op : mutation) (w : World) : World :=
  {| objects := <[l := mutate_dict op (contents (objects w) l)]> (objects w);
     provider := provider w |}.

(** ** Statements of the specification, in its own words *)

(** The text of a float in fixed-point form, whatever its size: the
    digits that [repr] shows, never in scientific notation. *)
Definition fixed_point_text (x : PyFloat.float) : string :=
  match x with
  | S754_finite s m e =>
      let '(ds, decpt) := PyFloat.shortest_digits m e in
      PyFloat.sign_text s +:+ PyFloat.fixed_notation ds decpt
  | _ => PyFloat.str x
  end.

(** The count of fractional digits of [x] in fixed-point form, trailing
    zeros apart. *)
Definition fractional_digits (x : PyFloat.float) : Z :=
  let '(_, _, after) := PyStr.partition "." (fixed_point_text x) in
  PyStr.len (PyStr.rstrip "0" after).

(** ["0." + "0" * (p - 1) + "1"] *)
Definition exact_tick_text (p : Z) : string :=
  "0." +:+ PyStr.repeat "0" (Z.to_nat (p - 1)) +:+ "1".

(** The build gets as far as reading the limits: precisions, asset type
    and both currencies are there. *)
Definition reaches_limits `{Externals} (self : CCXTInstrumentProvider) (values : PyObject) : Prop :=
  is_Ok (parse_precisions self values) /\
  is_Ok (parse_asset_type values) /\
  is_Ok (parse_base_currency self values) /\
  is_Ok (parse_quote_currency self values).

(** The build gets as far as reading the info block. *)
Definition reaches_info `{Externals} (self : CCXTInstrumentProvider) (values : PyObject) : Prop :=
  reaches_limits self values /\
  is_Ok (limit values "amount" "max") /\
  is_Ok (limit values "amount" "min").

(** The build gets as far as reading the cost limits. *)
Definition reaches_cost `{Externals} (self : CCXTInstrumentProvider) (values : PyObject) : Prop :=
  reaches_info self values /\
  is_Ok (PyDict.getitem values "info" ≫= fun info => PyDict.get info "lotSize").

(** A run of loads, each with what the client fetched and the clock of
    that load: the world after the last one when every load returned. *)
Fixpoint run_loads `{Externals} (loads : list (result Exchange.t * (nat -> Z))) (w : World)
  : option World :=
  match loads with
  | nil => Some w
  | (fetched, clock) :: rest =>
      match load_all fetched clock w with
      | (Ok _, w') => run_loads rest w'
      | (Raise _, _) => None
      end
  end.

(** The provider's own dictionary is an object of the heap. *)
Definition allocated (w : World) : Prop :=
  is_Some (objects w !! _instruments (provider w)).

(** A caller's mutations of the object at [l], one after the other. *)
Definition mutate_all (l : loc) (ops : list mutation) (w : World) : World :=
  fold_left (fun w op => mutate l op w) ops w.

(** What a caller does with the provider: ask for all instruments, or
    mutate the dictionary that its [n]-th call of [get_all] returned. *)
Inductive caller_action :=
| CallGetAll
| Mutate (n : nat) (op : mutation).

(** The caller's actions one after the other; [held] lists the
    references that [get_all] has returned so far. *)
Fixpoint run_caller (actions : list caller_action) (held : list loc) (w : World)
  : list loc * World :=
  match actions with
  | nil => (held, w)
  | CallGetAll :: rest =>
      let '(l, w') := get_all w in run_caller rest (held ++ l :: nil)%list w'
  | Mutate n op :: rest =>
      match held !! n with
      | Some l => run_caller rest held (mutate l op w)
      | None => run_caller rest held w
      end
  end.

(** A run of loads of which any may raise: the world that each leaves
    behind is the world of the next. *)
Definition after_loads `{Externals} (loads : list (result Exchange.t * (nat -> Z))) (w : World)
  : World :=
  fold_left (fun w load => (load_all load.1 load.2 w).2) loads w.

(** ** A venue to compute with *)

Module Fixture.

Definition BTC : Currency.t := Currency.make "BTC" 8 CRYPTO.
Definition USD : Currency.t := Currency.make "USD" 2 FIAT.

(** A table of well-known currencies with two entries, and an asset
    type parser that knows SPOT. *)
#[export] Instance externals : Externals := {|
  Currency_from_str_c := fun code =>
    match code with
    | Some c => if String.eqb c "BTC" then Some BTC
                else if String.eqb c "USD" then Some USD else None
    | None => None
    end;
  Currency_is_fiat_c := fun code => String.eqb code "USD";
  AssetType_UNDEFINED := 0;
  AssetTypeParser_from_str := fun s => Ok (if String.eqb s "SPOT" then 1 else 0)
|}.

Definition client (mode : Z) (markets currencies : list (string * PyObject)) : Exchange.t :=
  Exchange.make "Binance" mode markets currencies.

(** The starting world: an empty heap, a new provider. *)
Definition world (mode : Z) : World := init (client mode nil nil) ∅.

Definition USDT : Currency.t := Currency.make "USDT" 8 CRYPTO.

(** The same provider with USDT in its currency cache. *)
Definition world_with_usdt (mode : Z) : World :=
  with_provider (set_currencies {[ "USDT" := USDT ]}) (world mode).

(** A market as the exchange reports it. *)
Definition market (price amount : PyObject) (base quote : string)
    (amount_limits info : list (string * PyObject)) : PyObject :=
  VDict (("precision", VDict (("price", price) :: ("amount", amount) :: nil)) ::
         ("limits", VDict (("amount", VDict amount_limits) ::
                           ("cost", VDict nil) :: nil)) ::
         ("base", VStr base) ::
         ("quote", VStr quote) ::
         ("info", VDict info) :: nil).

(** BTC/USDT with two price decimals and a minimum amount of 1. *)
Definition btc_usdt : PyObject :=
  market (VInt 2) (VInt 0) "BTC" "USDT" (("min", VInt 1) :: nil) nil.

(** The market of the specification's scenario: no [info] block. *)
Definition scenario_market : PyObject :=
  VDict (("precision", VDict (("price", VInt 2) :: ("amount", VInt 0) :: nil)) ::
         ("limits", VDict (("amount", VDict (("min", VInt 1) :: nil)) ::
                           ("cost", VDict nil) :: nil)) ::
         ("base", VStr "BTC") ::
         ("quote", VStr "USDT") :: nil).

Definition symbol (code : string) : Symbol.t :=
  Symbol.make code (Venue.make "BINANCE").

Definition clock (start : Z) (i : nat) : Z := start + Z.of_nat i.

(** The double written [1e-05]. *)
Definition tick_1e_05 : PyFloat.float := PyFloat.of_decimal false 1 (-5).
(** The double written [0.0001]. *)
Definition tick_0_0001 : PyFloat.float := PyFloat.of_decimal false 1 (-4).
(** The double written [0.01]. *)
Definition tick_0_01 : PyFloat.float := PyFloat.of_decimal false 1 (-2).

(** The currencies the exchange reports: USDT with 8 decimals. *)
Definition currencies : list (string * PyObject) :=
  ("USDT", VDict (("precision", VInt 8) :: nil)) :: nil.

(** A first fetch: one market, BTC/USDT with two price decimals. *)
Definition first_fetch : Exchange.t :=
  client DECIMAL_PLACES (("BTC/USDT", btc_usdt) :: nil) currencies.

(** The provider after loading the first fetch at time 100. *)
Definition loaded : World := (load_all (Ok first_fetch) (clock 100) (world DECIMAL_PLACES)).2.

(** A second fetch: BTC/USDT now has three price decimals, and the
    entry of ETH/USDT has no [precision] block. *)
Definition second_fetch : Exchange.t :=
  client DECIMAL_PLACES
    (("BTC/USDT", market (VInt 3) (VInt 0) "BTC" "USDT" (("min", VInt 1) :: nil) nil) ::
     ("ETH/USDT", VDict nil) :: nil)
    currencies.

(** The provider after the reload at time 200 raised. *)
Definition reloaded : World := (load_all (Ok second_fetch) (clock 200) loaded).2.

(** A market whose base code FOO nothing resolves. *)
Definition foo_usdt : PyObject :=
  market (VInt 2) (VInt 0) "FOO" "USDT" (("min", VInt 1) :: nil) nil.

(** A market with 309 price decimals. *)
Definition fine_grained : PyObject :=
  market (VInt 309) (VInt 0) "BTC" "USDT" (("min", VInt 1) :: nil) nil.

(** A market with an explicit lot size. *)
Definition with_lot_size : PyObject :=
  market (VInt 2) (VInt 3) "BTC" "USDT" (("min", VInt 1) :: nil) (("lotSize", VInt 10) :: nil).

(** A third fetch: only ETH/USDT, well formed. *)
Definition third_fetch : Exchange.t :=
  client DECIMAL_PLACES
    (("ETH/USDT", market (VInt 2) (VInt 0) "BTC" "USDT" nil nil) :: nil)
    currencies.

(** The world in which [_load_instruments] runs during the reload:
    the second fetch is in, the currencies are loaded. *)
Definition before_instruments : World :=
  (_load_currencies (with_provider (set_client second_fetch) loaded)).2.

(** [_parse_instrument] for the provider of [w]. *)
Definition build (w : World) (code : string) (values : PyObject) (utcnow : Z)
  : result Instrument.t :=
  _parse_instrument (provider w) (symbol code) values utcnow.

(** A market under TICK_SIZE mode with the price tick 1e-05 and the
    amount tick 0.0001. *)
Definition tick_market : PyObject :=
  market (VFloat tick_1e_05) (VFloat tick_0_0001) "BTC" "USDT" nil nil.

(** A provider whose client reports SIGNIFICANT_DIGITS precisions and
    the currency USDT with 8 digits. *)
Definition significant_digits_world : World :=
  with_provider (set_client (client SIGNIFICANT_DIGITS nil currencies))
                (world SIGNIFICANT_DIGITS).

(** [_load_currencies] for that provider. *)
Definition significant_digits_currencies : result unit * World :=
  _load_currencies significant_digits_world.

(** A market with quantity and cost limits, a type and fees. *)
Definition limited : PyObject :=
  VDict (("precision", VDict (("price", VInt 2) :: ("amount", VInt 3) :: nil)) ::
         ("limits", VDict (("amount", VDict (("min", VInt 1) :: ("max", VInt 1000) :: nil)) ::
                           ("cost", VDict (("min", VInt 10) :: ("max", VInt 100000) :: nil)) ::
                           nil)) ::
         ("type", VStr "spot") ::
         ("base", VStr "BTC") ::
         ("quote", VStr "USDT") ::
         ("maker", VStr "0.001") ::
         ("info", VDict nil) :: nil).

(** The provider of [w] with an entry for BTC of its own in the cache. *)
Definition with_cached_btc (w : World) : CCXTInstrumentProvider :=
  set_currencies {[ "BTC" := Currency.make "BTC" 2 FIAT ]} (provider w).

(** A fetch whose currency USDT has no [precision]. *)
Definition broken_currencies_fetch : Exchange.t :=
  client DECIMAL_PLACES (("BTC/USDT", btc_usdt) :: nil) (("USDT", VDict nil) :: nil).

(** A fetch whose first market entry is a string. *)
Definition text_entry_fetch : Exchange.t :=
  client DECIMAL_PLACES (("BTC/USDT", VStr "spot") :: ("ETH/USDT", btc_usdt) :: nil) currencies.

(** The double written [5e-07]. *)
Definition tick_5e_07 : PyFloat.float := PyFloat.of_decimal false 5 (-7).

End Fixture.

(** ** Checks by computation *)

(** What the DECIMAL_PLACES branch computes for [p] price decimals is the
    exact text, that text denotes [1 * 10^(-p)], and this decimal in
    plain notation is the text again. *)
Definition tick_exact (n : nat) : bool :=
  let p := Z.of_nat n in
  match decimal_places_tick_text (VInt p) with
  | Ok s =>
      String.eqb s (exact_tick_text p) &&
      match PyDecimal.of_str s with
      | Some (PyDecimal.Finite false c e) =>
          (c =? 1) && (e =? - p) &&
          String.eqb (PyDecimal.format_f (PyDecimal.Finite false c e)) (exact_tick_text p)
      | _ => false
      end
  | Raise _ => false
  end.

(* ===================================================================== *)
(** * The logger: nautilus_trader/common/logging.pyx

    A logger formats each message, keeps it in an in-memory list when its
    level reaches the store level, prints it when it reaches the console
    level, and hands it to a file handler when it reaches the file level.
    The console and the file are traces of the lines printed and written;
    the store is a list object of a heap, because [get_log_store] returns
    the list itself.  What the file handler does with a line is an
    argument of [_log].

    Outside the model: the set-up of the file handler, [nautilus_header],
    and the default logger of a [LoggerAdapter] built without one. *)
(* ===================================================================== *)

Module Logging.

(** Private constants: ANSI colour codes. *)
Definition ESC : string := String (ascii_of_nat 27) EmptyString.
Definition _HEADER : string := ESC +:+ "[95m".
Definition _OK_BLUE : string := ESC +:+ "[94m".
Definition _OK_GREEN : string := ESC +:+ "[92m".
Definition _WARN : string := ESC +:+ "[1;33m".
Definition _FAIL : string := ESC +:+ "[01;31m".
Definition _ENDC : string := ESC +:+ "[0m".
Definition _BOLD : string := ESC +:+ "[1m".
Definition _UNDERLINE : string := ESC +:+ "[4m".

(** Public constants. *)
Definition RECV : string := "<--".
Definition SENT : string := "-->".
Definition CMD : string := "[CMD]".
Definition EVT : string := "[EVT]".

(** What the file imports from the rest of the repository: the values of
    the [LogLevel] enum and the text of a level, the ISO 8601 text of a
    time stamp, and the test of [Condition.valid_string]. *)
Class Imports := {
  LogLevel_VERBOSE : Z;
  LogLevel_DEBUG : Z;
  LogLevel_INFO : Z;
  LogLevel_WARNING : Z;
  LogLevel_ERROR : Z;
  LogLevel_CRITICAL : Z;
  log_level_to_string : Z -> string;
  format_iso8601 : Z -> string;
  valid_string : string -> bool
}.

(** The exceptions of this file: the one [Logger.log] raises, a failed
    [Condition] check on the named argument, and whatever else the file
    handler raised. *)
Inductive exn :=
| NotImplementedError (msg : string)
| ConditionFailed (param : string)
| Other (e : string).

Inductive outcome (A : Type) :=
| Done (a : A)
| Raised (e : exn).
Arguments Done {A} a.
Arguments Raised {A} e.

(** [str(n)] for an [int]. *)
Definition str_int (n : Z) : string :=
  if n <? 0 then "-" +:+ PyStr.of_nonneg (- n) else PyStr.of_nonneg n.

(** ** [LogMessage] *)

Record LogMessage := {
  timestamp : Z;
  level : Z;
  text : string;
  thread_id : Z
}.

Definition level_string `{Imports} (self : LogMessage) : string :=
  log_level_to_string (level self).

Definition as_string `{Imports} (self : LogMessage) : string :=
  format_iso8601 (timestamp self) +:+ " [" +:+ str_int (thread_id self) +:+ "][" +:+
  log_level_to_string (level self) +:+ "] " +:+ text self.

(** ** [Logger] and [TestLogger] *)

Inductive LoggerClass := Logger_class | TestLogger_class.

Record Logger := {
  class_ : LoggerClass;
  name : string;
  bypass_logging : bool;
  _log_level_console : Z;
  _log_level_file : Z;
  _log_level_store : Z;
  _console_prints : bool;
  _log_thread : bool;
  _log_to_file : bool;
  _log_file_path : string;
  _log_file : string;
  _log_store : loc
}.

(** The logger, the list objects, and the lines printed and written so
    far. *)
Record World := {
  lists : gmap loc (list string);
  console : list string;
  file : list string;
  logger : Logger
}.

(** The arguments of [__init__]. *)
Record Args := {
  arg_name : option string;
  arg_bypass_logging : bool;
  arg_level_console : Z;
  arg_level_file : Z;
  arg_level_store : Z;
  arg_console_prints : bool;
  arg_log_thread : bool;
  arg_log_to_file : bool;
  arg_log_file_path : string
}.

(** The defaults of [Logger.__init__]. *)
Definition Logger_defaults `{Imports} : Args :=
  {| arg_name := None; arg_bypass_logging := false;
     arg_level_console := LogLevel_INFO; arg_level_file := LogLevel_DEBUG;
     arg_level_store := LogLevel_WARNING;
     arg_console_prints := true; arg_log_thread := false; arg_log_to_file := false;
     arg_log_file_path := "log/" |}.

(** The defaults of [TestLogger.__init__]. *)
Definition TestLogger_defaults `{Imports} : Args :=
  {| arg_name := None; arg_bypass_logging := false;
     arg_level_console := LogLevel_DEBUG; arg_level_file := LogLevel_DEBUG;
     arg_level_store := LogLevel_WARNING;
     arg_console_prints := true; arg_log_thread := false; arg_log_to_file := false;
     arg_log_file_path := "log/" |}.

(** [Logger.__init__], which [TestLogger.__init__] calls with its own
    arguments; [date_now] is the ISO text of the clock's date. *)
Definition init `{Imports} (cls : LoggerClass) (args : Args) (date_now : string)
    (h : gmap loc (list string)) (printed written : list string) : outcome World :=
  match (match arg_name args with
         | Some n => if valid_string n then Done n else Raised (ConditionFailed "name")
         | None => Done "tmp"
         end) with
  | Raised e => Raised e
  | Done n =>
      if valid_string (arg_log_file_path args) then
        let l := fresh (dom h) in
        Done {| lists := <[l := nil]> h;
                console := printed;
                file := written;
                logger := {| class_ := cls;
                             name := n;
                             bypass_logging := arg_bypass_logging args;
                             _log_level_console := arg_level_console args;
                             _log_level_file := arg_level_file args;
                             _log_level_store := arg_level_store args;
                             _console_prints := arg_console_prints args;
                             _log_thread := arg_log_thread args;
                             _log_to_file := arg_log_to_file args;
                             _log_file_path := arg_log_file_path args;
                             _log_file := arg_log_file_path args +:+ n +:+ date_now +:+ ".log";
                             _log_store := l |} |}
      else Raised (ConditionFailed "log_file_path")
  end.

Definition with_logger (f : Logger -> Logger) (w : World) : World :=
  {| lists := lists w; console := console w; file := file w; logger := f (logger w) |}.

Definition set_log_file (s : string) (self : Logger) : Logger :=
  {| class_ := class_ self; name := name self; bypass_logging := bypass_logging self;
     _log_level_console := _log_level_console self; _log_level_file := _log_level_file self;
     _log_level_store := _log_level_store self; _console_prints := _console_prints self;
     _log_thread := _log_thread self; _log_to_file := _log_to_file self;
     _log_file_path := _log_file_path self; _log_file := s;
     _log_store := _log_store self |}.

Definition set_log_store (l : loc) (self : Logger) : Logger :=
  {| class_ := class_ self; name := name self; bypass_logging := bypass_logging self;
     _log_level_console := _log_level_console self; _log_level_file := _log_level_file self;
     _log_level_store := _log_level_store self; _console_prints := _console_prints self;
     _log_thread := _log_thread self; _log_to_file := _log_to_file self;
     _log_file_path := _log_file_path self; _log_file := _log_file self;
     _log_store := l |}.

(** [change_log_file_name(name)] *)
Definition change_log_file_name `{Imports} (new_name : string) (w : World) : outcome World :=
  if valid_string new_name then
    Done (with_logger (set_log_file (_log_file_path (logger w) +:+ new_name +:+ ".log")) w)
  else Raised (ConditionFailed "name").

(** The contents of the list object at [l]. *)
Definition list_at (w : World) (l : loc) : list string := default nil (lists w !! l).

(** The contents of [self._log_store]. *)
Definition store (w : World) : list string := list_at w (_log_store (logger w)).

(** [get_log_store()]: the list itself. *)
Definition get_log_store (w : World) : loc := _log_store (logger w).

(** [clear_log_store()]: [self._log_store = []], a new list. *)
Definition clear_log_store (w : World) : World :=
  let l := fresh (dom (lists w)) in
  {| lists := <[l := nil]> (lists w); console := console w; file := file w;
     logger := set_log_store l (logger w) |}.

(** [_format_output] *)
Definition _format_output `{Imports} (self : Logger) (message : LogMessage) : string :=
  let time := format_iso8601 (timestamp message) in
  let thread := if _log_thread self then "[" +:+ str_int (thread_id message) +:+ "]" else "" in
  let formatted_text :=
    if level message =? LogLevel_WARNING then
      _WARN +:+ "[" +:+ level_string message +:+ "] " +:+ text message +:+ _ENDC
    else if level message =? LogLevel_ERROR then
      _FAIL +:+ "[" +:+ level_string message +:+ "] " +:+ text message +:+ _ENDC
    else if level message =? LogLevel_CRITICAL then
      _FAIL +:+ "[" +:+ level_string message +:+ "] " +:+ text message +:+ _ENDC
    else
      "[" +:+ level_string message +:+ "] " +:+ text message in
  _BOLD +:+ time +:+ _ENDC +:+ " " +:+ thread +:+ formatted_text.

(** [_in_memory_log_store]: [self._log_store.append(text)] *)
Definition _in_memory_log_store (lvl : Z) (s : string) (w : World) : World :=
  if _log_level_store (logger w) <=? lvl then
    {| lists := <[_log_store (logger w) := (store w ++ s :: nil)%list]> (lists w);
       console := console w; file := file w; logger := logger w |}
  else w.

(** [_print_to_console] *)
Definition _print_to_console (lvl : Z) (s : string) (w : World) : World :=
  if _console_prints (logger w) && (_log_level_console (logger w) <=? lvl) then
    {| lists := lists w; console := (console w ++ s :: nil)%list; file := file w;
       logger := logger w |}
  else w.

(** How [self._logger.debug(line)] ended. *)
Inductive written := Written | IOError (ex : string) | Failed (e : string).

(** [_log] *)
Definition _log `{Imports} (handler : written) (message : LogMessage) (w : World)
  : outcome unit * World :=
  let formatted_msg := _format_output (logger w) message in
  let w := _in_memory_log_store (level message) formatted_msg w in
  let w := _print_to_console (level message) formatted_msg w in
  if _log_to_file (logger w) && (_log_level_file (logger w) <=? level message) then
    match handler with
    | Written =>
        (Done tt, {| lists := lists w; console := console w;
                     file := (file w ++ as_string message :: nil)%list; logger := logger w |})
    | IOError ex => (Done tt, _print_to_console LogLevel_ERROR ("IOError: " +:+ ex +:+ ".") w)
    | Failed e => (Raised (Other e), w)
    end
  else (Done tt, w).

(** [log(message)]: [Logger.log] raises, [TestLogger.log] checks the
    message and logs it. *)
Definition log `{Imports} (handler : written) (message : option LogMessage) (w : World)
  : outcome unit * World :=
  match class_ (logger w) with
  | Logger_class =>
      (Raised (NotImplementedError "Method must be implemented in the subclass."), w)
  | TestLogger_class =>
      match message with
      | None => (Raised (ConditionFailed "message"), w)
      | Some m => _log handler m w
      end
  end.

(** ** [LoggerAdapter]: its logger is the logger of the world. *)

Record LoggerAdapter := {
  component_name : string;
  bypassed : bool
}.

(** [LoggerAdapter.__init__(component_name, logger)] *)
Definition adapter_init `{Imports} (name : option string) (w : World) : outcome LoggerAdapter :=
  match name with
  | None => Done {| component_name := ""; bypassed := bypass_logging (logger w) |}
  | Some n =>
      if valid_string n then Done {| component_name := n; bypassed := bypass_logging (logger w) |}
      else Raised (ConditionFailed "component_name")
  end.

Definition _format_message (self : LoggerAdapter) (message : string) : string :=
  component_name self +:+ ": " +:+ message.

(** [_send_to_logger]; [now] is [clock.time_now()] and [ident] the
    identifier of the current thread. *)
Definition _send_to_logger `{Imports} (self : LoggerAdapter) (lvl : Z) (message : string)
    (now ident : Z) (handler : written) (w : World) : outcome unit * World :=
  if bypassed self then (Done tt, w)
  else log handler (Some {| timestamp := now; level := lvl;
                            text := _format_message self message; thread_id := ident |}) w.

(** The body the six level methods share. *)
Definition send_checked `{Imports} (self : LoggerAdapter) (lvl : Z) (message : option string)
    (now ident : Z) (handler : written) (w : World) : outcome unit * World :=
  match message with
  | None => (Raised (ConditionFailed "message"), w)
  | Some m => _send_to_logger self lvl m now ident handler w
  end.

Definition verbose `{Imports} (self : LoggerAdapter) := send_checked self LogLevel_VERBOSE.
Definition debug `{Imports} (self : LoggerAdapter) := send_checked self LogLevel_DEBUG.
Definition info `{Imports} (self : LoggerAdapter) := send_checked self LogLevel_INFO.
Definition warning `{Imports} (self : LoggerAdapter) := send_checked self LogLevel_WARNING.
Definition error `{Imports} (self : LoggerAdapter) := send_checked self LogLevel_ERROR.
Definition critical `{Imports} (self : LoggerAdapter) := send_checked self LogLevel_CRITICAL.

Definition newline : string := String (ascii_of_nat 10) EmptyString.

(** [exception(ex)]: [ex] is given by the name of its type and its text,
    [stack_trace] is what [traceback.format_exception] returned. *)
Definition exception `{Imports} (self : LoggerAdapter) (ex : option (string * string))
    (stack_trace : list string) (now ident : Z) (handler : written) (w : World)
  : outcome unit * World :=
  match ex with
  | None => (Raised (ConditionFailed "ex"), w)
  | Some (type_name, ex_text) =>
      let ex_string := type_name +:+ "(" +:+ ex_text +:+ ")" +:+ newline in
      let stack_trace_lines := fold_left String.append (removelast stack_trace) "" in
      error self (Some (ex_string +:+ stack_trace_lines)) now ident handler w
  end.

(** A run of [log] calls, each with what the file handler did. *)
Definition log_all `{Imports} (entries : list (written * LogMessage)) (w : World) : World :=
  fold_left (fun w entry => (log entry.1 (Some entry.2) w).2) entries w.

(** What a caller does to a list it holds: any rewriting of its items. *)
Definition mutate_list (l : loc) (f : list string -> list string) (w : World) : World :=
  {| lists := <[l := f (list_at w l)]> (lists w); console := console w; file := file w;
     logger := logger w |}.

(** A logger to compute with. *)
Module Sample.

#[export] Instance imports : Imports := {|
  LogLevel_VERBOSE := 1;
  LogLevel_DEBUG := 2;
  LogLevel_INFO := 3;
  LogLevel_WARNING := 4;
  LogLevel_ERROR := 5;
  LogLevel_CRITICAL := 6;
  log_level_to_string := fun l =>
    if l =? 1 then "VRB" else if l =? 2 then "DBG" else if l =? 3 then "INF"
    else if l =? 4 then "WRN" else if l =? 5 then "ERR" else if l =? 6 then "CRT"
    else "UNDEFINED";
  format_iso8601 := fun t => "1970-01-01T00:00:" +:+ str_int t +:+ ".000Z";
  valid_string := fun s => negb (String.eqb s "")
|}.

(** A new [TestLogger] with the default arguments. *)
Definition new_world : World :=
  match init TestLogger_class TestLogger_defaults "1970-01-01" ∅ nil nil with
  | Done w => w
  | Raised _ => {| lists := ∅; console := nil; file := nil;
                   logger := {| class_ := TestLogger_class; name := ""; bypass_logging := false;
                                _log_level_console := 0; _log_level_file := 0;
                                _log_level_store := 0; _console_prints := false;
                                _log_thread := false; _log_to_file := false;
                                _log_file_path := ""; _log_file := ""; _log_store := 1%positive |} |}
  end.

Definition message (lvl : Z) (s : string) : LogMessage :=
  {| timestamp := 10; level := lvl; text := s; thread_id := 0 |}.

(** An info message, a warning and an error. *)
Definition entries : list (written * LogMessage) :=
  (Written, message 3 "started") :: (Written, message 4 "slow") ::
  (Written, message 5 "failed") :: nil.

(** The same logger writing to a file. *)
Definition filing_world : World :=
  with_logger (fun self =>
    {| class_ := class_ self; name := name self; bypass_logging := bypass_logging self;
       _log_level_console := _log_level_console self; _log_level_file := _log_level_file self;
       _log_level_store := _log_level_store self; _console_prints := _console_prints self;
       _log_thread := _log_thread self; _log_to_file := true;
       _log_file_path := _log_file_path self; _log_file := _log_file self;
       _log_store := _log_store self |}) new_world.

Definition adapter : LoggerAdapter := {| component_name := "Trader"; bypassed := false |}.
Definition bypassed_adapter : LoggerAdapter := {| component_name := "Trader"; bypassed := true |}.

End Sample.

End Logging.

(* ===================================================================== *)
(** * Properties *)
(* ===================================================================== *)

(** ** Results and dictionaries *)

Lemma bind_Ok {A B} (m : result A) (f : A -> result B) (b : B) :
  m ≫= f = Ok b -> exists a, m = Ok a /\ f a = Ok b.
Proof. destruct m as [a|e]; simpl; [eauto | discriminate]. Qed.

Lemma bind_Raise_l {A B} (f : A -> result B) (e : exn) : Raise e ≫= f = Raise e.
Proof. reflexivity. Qed.

Lemma bind_Ok_l {A B} (f : A -> result B) (a : A) : Ok a ≫= f = f a.
Proof. reflexivity. Qed.

Lemma is_None_true v : is_None v = true <-> v = VNone.
Proof. destruct v; simpl; split; congruence. Qed.

Lemma is_None_false v : is_None v = false <-> v <> VNone.
Proof. destruct v; simpl; split; congruence. Qed.

(** ** Precision from a tick size *)

Example tick_0_0001_has_4 : _tick_size_to_precision Fixture.tick_0_0001 = 4.
Proof. vm_compute. reflexivity. Qed.

Example tick_0_01_has_2 : _tick_size_to_precision Fixture.tick_0_01 = 2.
Proof. vm_compute. reflexivity. Qed.

Example tick_1e_05_text : PyFloat.str Fixture.tick_1e_05 = "1e-05".
Proof. vm_compute. reflexivity. Qed.

(** Where [repr] uses fixed notation, the provider counts the fractional
    digits of the fixed-point form. *)
Lemma tick_size_to_precision_fixed_range s m e ds decpt :
  PyFloat.shortest_digits m e = (ds, decpt) ->
  -4 < decpt <= 16 ->
  _tick_size_to_precision (S754_finite s m e) = fractional_digits (S754_finite s m e).
Proof.
  intros Hd Hr. unfold _tick_size_to_precision, fractional_digits, fixed_point_text.
  simpl. rewrite Hd. unfold PyFloat.repr_digits.
  replace (decpt <=? -4) with false by (symmetry; apply Z.leb_gt; lia).
  replace (16 <? decpt) with false by (symmetry; apply Z.ltb_ge; lia).
  reflexivity.
Qed.

(** C1. For the positive tick 1e-05 the provider's tick-size rule returns
    0, while the tick written in fixed-point form, 0.00001, has 5
    fractional digits: [str] prints such a double as ["1e-05"], which has
    no point to split at.  A market with that price tick gets the price
    precision 0. *)
Theorem tick_size_to_precision_scientific :
  _tick_size_to_precision Fixture.tick_1e_05 = 0 /\
  fractional_digits Fixture.tick_1e_05 = 5 /\
  _get_precision Fixture.tick_1e_05 TICK_SIZE = Ok 0 /\
  Instrument.price_precision <$>
    Fixture.build (Fixture.world_with_usdt TICK_SIZE) "BTC/USDT" Fixture.tick_market 100
  = Ok (VInt 0).
Proof. repeat split; vm_compute; reflexivity. Qed.

(** ** Unsupported precision mode *)

(** C4. In SIGNIFICANT_DIGITS mode [_get_precision] returns the precision
    0 for every value; it raises nothing, and [_load_currencies] caches
    USDT, reported with 8 digits, with the precision 0. *)
Theorem get_precision_significant_digits :
  (forall x : PyFloat.float, _get_precision x SIGNIFICANT_DIGITS = Ok 0) /\
  Fixture.significant_digits_currencies.1 = Ok tt /\
  currency "USDT" Fixture.significant_digits_currencies.2
  = Some (Currency.make "USDT" 0 CRYPTO).
Proof. split; [intros x; reflexivity|]. split; vm_compute; reflexivity. Qed.

(** So a currency is loaded with precision 0 in that mode. *)
Lemma load_currency_significant_digits `{Externals} code items raw x :
  PyDict.lookup items "precision" = Some raw ->
  as_double raw = Ok x ->
  load_currency SIGNIFICANT_DIGITS code (VDict items)
  = Ok (Currency.make code 0 (_parse_currency_type code)).
Proof.
  intros Hl Hx. unfold load_currency. simpl. rewrite Hl. simpl. rewrite Hx. reflexivity.
Qed.

(** The instrument path does raise in that mode: no instrument is built. *)
Lemma parse_precisions_unsupported self values :
  Exchange.precisionMode (_client self) <> DECIMAL_PLACES ->
  Exchange.precisionMode (_client self) <> TICK_SIZE ->
  raises (parse_precisions self values).
Proof.
  intros H2 H4. unfold parse_precisions, raises.
  destruct (PyDict.getitem values "precision" ≫= PyDict.typed) as [p|e]; simpl; [|eauto].
  destruct (Z.eqb_spec (Exchange.precisionMode (_client self)) 2) as [E2|_]; [contradiction|].
  destruct (Z.eqb_spec (Exchange.precisionMode (_client self)) 4) as [E4|_]; [contradiction|].
  eauto.
Qed.

(** ** An [int] too large for a float *)

Lemma digits2_pos_size m : digits2_pos m = Pos.size m.
Proof. induction m; simpl; congruence. Qed.

Lemma digits2_bounds m :
  2 ^ (Zpos (digits2_pos m) - 1) <= Zpos m < 2 ^ Zpos (digits2_pos m).
Proof.
  rewrite digits2_pos_size.
  assert (H : Zpos (Pos.size m) = Z.log2 (Zpos m) + 1).
  { destruct m; simpl; lia. }
  rewrite H. replace (Z.log2 (Z.pos m) + 1 - 1) with (Z.log2 (Z.pos m)) by lia.
  replace (Z.log2 (Z.pos m) + 1) with (Z.succ (Z.log2 (Z.pos m))) by lia.
  apply Z.log2_spec. lia.
Qed.

Lemma shr_1_m mrs : 0 <= shr_m mrs -> shr_m (shr_1 mrs) = shr_m mrs / 2.
Proof.
  destruct mrs as [m r s]. simpl. intros Hm.
  destruct m as [|[p|p|]|p]; simpl; try reflexivity; try lia.
  - rewrite Pos2Z.inj_xI. apply Z.div_unique with 1; lia.
  - rewrite Pos2Z.inj_xO. apply Z.div_unique with 0; lia.
Qed.

Lemma iter_shr_1_m p : forall mrs,
  0 <= shr_m mrs -> shr_m (SpecFloat.iter_pos shr_1 p mrs) = shr_m mrs / 2 ^ Zpos p.
Proof.
  induction p as [p IH|p IH|]; intros mrs Hm; simpl SpecFloat.iter_pos.
  - assert (H1 : 0 <= shr_m (shr_1 mrs)) by (rewrite shr_1_m by lia; apply Z.div_pos; lia).
    assert (H2 : 0 <= shr_m (SpecFloat.iter_pos shr_1 p (shr_1 mrs)))
      by (rewrite IH by lia; apply Z.div_pos; lia).
    rewrite (IH _ H2), (IH _ H1), shr_1_m by lia.
    rewrite !Z.div_div by lia.
    replace (Z.pos p~1) with (1 + Z.pos p + Z.pos p) by lia.
    rewrite !Z.pow_add_r by lia. f_equal. lia.
  - assert (H2 : 0 <= shr_m (SpecFloat.iter_pos shr_1 p mrs))
      by (rewrite IH by lia; apply Z.div_pos; lia).
    rewrite (IH _ H2), (IH _ Hm).
    rewrite !Z.div_div by lia.
    replace (Z.pos p~0) with (Z.pos p + Z.pos p) by lia.
    rewrite !Z.pow_add_r by lia. reflexivity.
  - rewrite shr_1_m by exact Hm. reflexivity.
Qed.

Lemma shr_m_shr mrs e n :
  0 <= shr_m mrs -> 0 <= n ->
  shr_m (shr mrs e n).1 = shr_m mrs / 2 ^ n /\ (shr mrs e n).2 = e + n.
Proof.
  intros Hm Hn. unfold shr. destruct n as [|p|p]; simpl; try lia.
  - rewrite Z.div_1_r. split; [reflexivity | lia].
  - rewrite iter_shr_1_m by exact Hm. auto.
Qed.

Lemma round_nearest_even_bounds m l :
  m <= round_nearest_even m l <= m + 1.
Proof. destruct l as [|[]]; simpl; try lia. destruct (Z.even m); lia. Qed.

Lemma fexp_large e : -1021 <= e -> fexp PyFloat.prec PyFloat.emax e = e - 53.
Proof. intros He. unfold fexp, emin, PyFloat.prec, PyFloat.emax. lia. Qed.

(** An [int] from [2^1024] on is too large for a float. *)
Lemma of_int_overflow n : 2 ^ 1024 <= n -> PyFloat.of_int n = None.
Proof.
  intros Hn. destruct n as [|m|m]; try (exfalso; lia).
  pose proof (digits2_bounds m) as Hd.
  set (d := Zpos (digits2_pos m)) in *.
  assert (Hd1 : 1025 <= d).
  { destruct (Z_lt_le_dec d 1025) as [Hlt|Hge]; [|exact Hge]. exfalso.
    assert (2 ^ d <= 2 ^ 1024) by (apply Z.pow_le_mono_r; lia). lia. }
  unfold PyFloat.of_int, binary_normalize, binary_round.
  fold d. rewrite fexp_large by lia.
  unfold shl_align.
  destruct (d + 0 - 53 - 0) as [|q|q] eqn:Hq; try lia.
  unfold binary_round_aux, shr_fexp. simpl Zdigits2. fold d.
  rewrite fexp_large by lia. simpl shr_record_of_loc.
  set (mrs0 := {| shr_m := Z.pos m; shr_r := false; shr_s := false |}).
  pose proof (shr_m_shr mrs0 0 (d + 0 - 53 - 0)) as [Hm1 He1]; [simpl; lia | lia |].
  destruct (shr mrs0 0 (d + 0 - 53 - 0)) as [mrs1 e1] eqn:Hs1. simpl in Hm1, He1.
  set (m2 := round_nearest_even (shr_m mrs1) (loc_of_shr_record mrs1)).
  pose proof (round_nearest_even_bounds (shr_m mrs1) (loc_of_shr_record mrs1)) as Hr.
  fold m2 in Hr.
  assert (Hm1b : 2 ^ 52 <= shr_m mrs1 < 2 ^ 53).
  { rewrite Hm1. replace (d + 0 - 53 - 0) with (d - 53) by lia.
    assert (Hp : 0 < 2 ^ (d - 53)) by (apply Z.pow_pos_nonneg; lia).
    split.
    - apply Z.div_le_lower_bound; [exact Hp|].
      rewrite <- Z.pow_add_r by lia. replace (d - 53 + 52) with (d - 1) by lia. lia.
    - apply Z.div_lt_upper_bound; [exact Hp|].
      rewrite <- Z.pow_add_r by lia. replace (d - 53 + 53) with d by lia. lia. }
  assert (Hm2 : 2 ^ 52 <= m2 <= 2 ^ 53) by lia.
  destruct m2 as [|m2p|m2p] eqn:Hm2e; try (exfalso; lia).
  pose proof (digits2_bounds m2p) as Hd2. simpl Zdigits2.
  set (d2 := Zpos (digits2_pos m2p)) in *.
  assert (Hd2b : 53 <= d2 <= 54).
  { split.
    - destruct (Z_lt_le_dec d2 53) as [Hlt|Hge]; [|exact Hge]. exfalso.
      assert (2 ^ d2 <= 2 ^ 52) by (apply Z.pow_le_mono_r; lia). lia.
    - destruct (Z_lt_le_dec 54 d2) as [Hlt|Hge]; [|lia]. exfalso.
      assert (2 ^ 54 <= 2 ^ (d2 - 1)) by (apply Z.pow_le_mono_r; lia).
      assert (2 ^ 53 < 2 ^ 54) by (apply Z.pow_lt_mono_r; lia). lia. }
  rewrite fexp_large by lia.
  set (mrs2 := {| shr_m := Z.pos m2p; shr_r := false; shr_s := false |}).
  pose proof (shr_m_shr mrs2 e1 (d2 + e1 - 53 - e1)) as [Hm3 He3]; [simpl; lia | lia |].
  destruct (shr mrs2 e1 (d2 + e1 - 53 - e1)) as [mrs3 e3] eqn:Hs3. simpl in Hm3, He3.
  assert (Hm3b : 0 < shr_m mrs3).
  { rewrite Hm3. apply Z.div_str_pos. split; [apply Z.pow_pos_nonneg; lia|].
    assert (2 ^ (d2 + e1 - 53 - e1) <= 2 ^ 1) by (apply Z.pow_le_mono_r; lia).
    assert (2 ^ 1 <= 2 ^ 52) by (apply Z.pow_le_mono_r; lia). lia. }
  destruct (shr_m mrs3) as [|m3|m3]; try (exfalso; lia).
  assert (He : (e3 <=? PyFloat.emax - PyFloat.prec) = false).
  { apply Z.leb_gt. unfold PyFloat.emax, PyFloat.prec. lia. }
  rewrite He. reflexivity.
Qed.

(** From 309 decimals on, [10 ** p] is too large. *)
Lemma decimal_places_tick_text_overflow (p : Z) :
  309 <= p -> decimal_places_tick_text (VInt p) = Raise OverflowError.
Proof.
  intros Hp. unfold decimal_places_tick_text.
  replace (0 <=? p) with true by (symmetry; apply Z.leb_le; lia).
  rewrite of_int_overflow; [reflexivity|].
  transitivity (10 ^ 309); [|apply Z.pow_le_mono_r; lia].
  apply Z.leb_le. vm_compute. reflexivity.
Qed.

(** ** Tick size from a count of decimals *)

Lemma tick_exact_upto_308 : forallb tick_exact (seq 1 308) = true.
Proof. vm_compute. reflexivity. Qed.

Lemma tick_exact_in_range (p : Z) : 1 <= p <= 308 -> tick_exact (Z.to_nat p) = true.
Proof.
  intros Hp. pose proof tick_exact_upto_308 as Hall.
  rewrite forallb_forall in Hall. apply Hall. apply in_seq. lia.
Qed.

(** ** The steps of [_parse_instrument] *)

#[global] Arguments decimal_places_tick_text : simpl never.
#[global] Arguments parse_precisions : simpl never.
#[global] Arguments resolve_currency : simpl never.
#[global] Arguments parse_asset_type : simpl never.
#[global] Arguments parse_base_currency : simpl never.
#[global] Arguments parse_quote_currency : simpl never.
#[global] Arguments parse_quantity : simpl never.
#[global] Arguments parse_lot_size : simpl never.
#[global] Arguments parse_notional : simpl never.
#[global] Arguments parse_price : simpl never.
#[global] Arguments parse_fee : simpl never.
#[global] Arguments _tick_size_to_precision : simpl never.
#[global] Arguments PyDecimal.of_str : simpl never.

(** What a built instrument says about the steps that built it. *)
Lemma parse_instrument_Ok `{Externals} self symbol values utcnow i :
  _parse_instrument self symbol values utcnow = Ok i ->
  exists min_quantity,
    parse_precisions self values
      = Ok (Instrument.price_precision i, Instrument.size_precision i, Instrument.tick_size i) /\
    parse_asset_type values = Ok (Instrument.asset_type i) /\
    parse_base_currency self values = Ok (Instrument.base_currency i) /\
    parse_quote_currency self values = Ok (Instrument.quote_currency i) /\
    parse_quantity values "min" (Instrument.size_precision i) = Ok min_quantity /\
    Instrument.min_quantity i = min_quantity /\
    parse_lot_size values min_quantity (Instrument.size_precision i)
      = Ok (Instrument.lot_size i) /\
    Instrument.info i = values /\
    Instrument.timestamp i = utcnow /\
    Instrument.symbol i = symbol.
Proof.
  unfold _parse_instrument. intros Hb.
  apply bind_Ok in Hb as ([[pp sp] tick] & Hprec & Hb).
  apply bind_Ok in Hb as (asset_type & Hat & Hb).
  apply bind_Ok in Hb as (base & Hbase & Hb).
  apply bind_Ok in Hb as (quote & Hquote & Hb).
  apply bind_Ok in Hb as (maxq & Hmaxq & Hb).
  apply bind_Ok in Hb as (minq & Hminq & Hb).
  apply bind_Ok in Hb as (lot & Hlot & Hb).
  apply bind_Ok in Hb as (mxn & _ & Hb).
  apply bind_Ok in Hb as (mnn & _ & Hb).
  apply bind_Ok in Hb as (mxp & _ & Hb).
  apply bind_Ok in Hb as (mnp & _ & Hb).
  apply bind_Ok in Hb as (maker & _ & Hb).
  apply bind_Ok in Hb as (taker & _ & Hb).
  injection Hb as <-. simpl. exists minq. repeat split; assumption.
Qed.

(** The first step that raises decides the exception of the build. *)
Lemma parse_instrument_precisions_raise `{Externals} self symbol values utcnow e :
  parse_precisions self values = Raise e ->
  _parse_instrument self symbol values utcnow = Raise e.
Proof. intros Hp. unfold _parse_instrument. rewrite Hp. reflexivity. Qed.

Lemma parse_instrument_base_raise `{Externals} self symbol values utcnow pp at_ e :
  parse_precisions self values = Ok pp ->
  parse_asset_type values = Ok at_ ->
  parse_base_currency self values = Raise e ->
  _parse_instrument self symbol values utcnow = Raise e.
Proof.
  intros Hp Ha Hb. unfold _parse_instrument. rewrite Hp. destruct pp as [[? ?] ?].
  simpl. rewrite Ha. simpl. rewrite Hb. reflexivity.
Qed.

Lemma parse_instrument_quote_raise `{Externals} self symbol values utcnow pp at_ base e :
  parse_precisions self values = Ok pp ->
  parse_asset_type values = Ok at_ ->
  parse_base_currency self values = Ok base ->
  parse_quote_currency self values = Raise e ->
  _parse_instrument self symbol values utcnow = Raise e.
Proof.
  intros Hp Ha Hb Hq. unfold _parse_instrument. rewrite Hp. destruct pp as [[? ?] ?].
  simpl. rewrite Ha. simpl. rewrite Hb. simpl. rewrite Hq. reflexivity.
Qed.

(** A step that raises makes the build raise, whatever the steps before
    it do. *)
Lemma parse_instrument_raises_if `{Externals} self symbol values utcnow :
  raises (parse_precisions self values) \/
  raises (parse_asset_type values) \/
  raises (parse_base_currency self values) \/
  raises (parse_quote_currency self values) \/
  (forall sp, raises (parse_quantity values "max" sp)) \/
  (forall sp, raises (parse_quantity values "min" sp)) \/
  (forall sp mq, raises (parse_lot_size values mq sp)) \/
  (forall q, raises (parse_notional values "max" q)) ->
  raises (_parse_instrument self symbol values utcnow).
Proof.
  intros Hr. destruct (_parse_instrument self symbol values utcnow) as [i|e] eqn:Hb;
    [|eexists; reflexivity].
  exfalso. unfold _parse_instrument in Hb.
  apply bind_Ok in Hb as ([[pp sp] tick] & Hprec & Hb).
  apply bind_Ok in Hb as (asset_type & Hat & Hb).
  apply bind_Ok in Hb as (base & Hbase & Hb).
  apply bind_Ok in Hb as (quote & Hquote & Hb).
  apply bind_Ok in Hb as (maxq & Hmaxq & Hb).
  apply bind_Ok in Hb as (minq & Hminq & Hb).
  apply bind_Ok in Hb as (lot & Hlot & Hb).
  apply bind_Ok in Hb as (mxn & Hmxn & Hb).
  destruct Hr as [[e He]|[[e He]|[[e He]|[[e He]|[Hr|[Hr|[Hr|Hr]]]]]]]; try congruence.
  - destruct (Hr sp) as [e He]. congruence.
  - destruct (Hr sp) as [e He]. congruence.
  - destruct (Hr sp minq) as [e He]. congruence.
  - destruct (Hr quote) as [e He]. congruence.
Qed.

(** In [str] the tick size is the same text up to 6 decimals, and in
    scientific notation from 7 decimals on. *)
Example tick_str_6_and_7 :
  PyDecimal.str (PyDecimal.Finite false 1 (-6)) = "0.000001" /\
  PyDecimal.str (PyDecimal.Finite false 1 (-7)) = "1E-7".
Proof. split; vm_compute; reflexivity. Qed.

(** C2 (amended). For a count of price decimals [p] from 1 to 308 the
    DECIMAL_PLACES branch computes exactly the text ["0."], [p - 1] zeros
    and ["1"], and the tick size is the decimal [1 * 10^(-p)] that this
    text denotes, which in plain notation is that text again.  From 309
    decimals on the branch raises OverflowError and the build with it.
    So the tick size of every instrument that is built is exact. *)
Theorem decimal_places_tick_exact (p : Z) :
  1 <= p ->
  (p <= 308 ->
   decimal_places_tick_text (VInt p) = Ok (exact_tick_text p) /\
   PyDecimal.of_str (exact_tick_text p) = Some (PyDecimal.Finite false 1 (- p)) /\
   PyDecimal.format_f (PyDecimal.Finite false 1 (- p)) = exact_tick_text p) /\
  (309 <= p -> decimal_places_tick_text (VInt p) = Raise OverflowError) /\
  forall self values ps,
    Exchange.precisionMode (_client self) = DECIMAL_PLACES ->
    PyDict.getitem values "precision" = Ok (VDict ps) ->
    PyDict.lookup ps "price" = Some (VInt p) ->
    (p <= 308 ->
     parse_precisions self values
     = Ok (VInt p, default (VInt 8) (PyDict.lookup ps "amount"),
           PyDecimal.Finite false 1 (- p))) /\
    (309 <= p ->
     forall (E : Externals) symbol utcnow,
       _parse_instrument self symbol values utcnow = Raise OverflowError) /\
    (forall (E : Externals) symbol utcnow i,
       _parse_instrument self symbol values utcnow = Ok i ->
       Instrument.tick_size i = PyDecimal.Finite false 1 (- p) /\
       PyDecimal.format_f (Instrument.tick_size i) = exact_tick_text p).
Proof.
  intros Hp.
  assert (Hrange : p <= 308 ->
    decimal_places_tick_text (VInt p) = Ok (exact_tick_text p) /\
    PyDecimal.of_str (exact_tick_text p) = Some (PyDecimal.Finite false 1 (- p)) /\
    PyDecimal.format_f (PyDecimal.Finite false 1 (- p)) = exact_tick_text p).
  { intros Hle. pose proof (tick_exact_in_range p (conj Hp Hle)) as Hex.
    unfold tick_exact in Hex. rewrite Z2Nat.id in Hex by lia.
    destruct (decimal_places_tick_text (VInt p)) as [s|e] eqn:Htext; [|discriminate].
    apply andb_prop in Hex as [Hs Hd]. apply String.eqb_eq in Hs. subst s.
    destruct (PyDecimal.of_str (exact_tick_text p)) as [[[] c e| |]|] eqn:Hof;
      try discriminate.
    apply andb_prop in Hd as [Hd Hf]. apply String.eqb_eq in Hf.
    apply andb_prop in Hd as [Hc He]. apply Z.eqb_eq in Hc, He. subst c e. auto. }
  split; [exact Hrange|]. split; [apply decimal_places_tick_text_overflow|].
  intros self values ps Hmode Hget Hprice.
  assert (Hsteps : parse_precisions self values
    = '(text, tick_size) ← (text ← decimal_places_tick_text (VInt p);
                             tick_size ← Decimal_new (VStr text); Ok (text, tick_size));
      Ok (VInt p, default (VInt 8) (PyDict.lookup ps "amount"), tick_size)).
  { unfold parse_precisions. rewrite Hget. simpl. rewrite Hmode. simpl.
    unfold PyDict.get, PyDict.get_default. simpl. rewrite Hprice. simpl.
    destruct (decimal_places_tick_text (VInt p)) as [text|e]; simpl; [|reflexivity].
    destruct (PyDecimal.of_str text); reflexivity. }
  assert (Hsmall : p <= 308 -> parse_precisions self values
      = Ok (VInt p, default (VInt 8) (PyDict.lookup ps "amount"),
            PyDecimal.Finite false 1 (- p))).
  { intros Hle. destruct (Hrange Hle) as (Htext & Hof & _).
    rewrite Hsteps, Htext. simpl. rewrite Hof. reflexivity. }
  assert (Hlarge : 309 <= p -> parse_precisions self values = Raise OverflowError).
  { intros Hge. rewrite Hsteps, (decimal_places_tick_text_overflow p Hge). reflexivity. }
  split; [exact Hsmall|]. split.
  - intros Hge E symbol utcnow. apply parse_instrument_precisions_raise, Hlarge, Hge.
  - intros E symbol utcnow i Hb.
    apply parse_instrument_Ok in Hb as (mq & Hprec & _).
    destruct (Z_le_gt_dec p 308) as [Hle|Hgt].
    + rewrite (Hsmall Hle) in Hprec. injection Hprec as _ _ <-.
      split; [reflexivity | apply (Hrange Hle)].
    + rewrite Hlarge in Hprec by lia. discriminate.
Qed.

(** ** Currency resolution *)

Lemma resolve_currency_unresolved `{Externals} self code :
  Currency_from_str_c (Some code) = None ->
  _currencies self !! code = None ->
  resolve_currency self (VStr code) = Raise (KeyError (VStr code)).
Proof. intros Hg Hc. unfold resolve_currency. rewrite Hg, Hc. reflexivity. Qed.

Lemma parse_quote_unresolved `{Externals} self items code :
  PyDict.lookup items "quote" = Some (VStr code) ->
  Currency_from_str_c (Some code) = None ->
  _currencies self !! code = None ->
  parse_quote_currency self (VDict items) = Raise (KeyError (VStr code)).
Proof.
  intros Hq Hg Hc. unfold parse_quote_currency. simpl. rewrite Hq. simpl.
  apply resolve_currency_unresolved; assumption.
Qed.

Lemma parse_base_unresolved `{Externals} self items code :
  PyDict.lookup items "base" = Some (VStr code) ->
  Currency_from_str_c (Some code) = None ->
  _currencies self !! code = None ->
  parse_base_currency self (VDict items) = Raise (KeyError (VStr code)).
Proof.
  intros Hb Hg Hc. unfold parse_base_currency. simpl. rewrite Hb. simpl.
  rewrite resolve_currency_unresolved by assumption. reflexivity.
Qed.

(** The base currency of a built instrument is absent exactly when the
    market has no base code. *)
Lemma parse_base_None `{Externals} self items :
  parse_base_currency self (VDict items) = Ok None <->
  default VNone (PyDict.lookup items "base") = VNone.
Proof.
  unfold parse_base_currency. simpl.
  destruct (PyDict.lookup items "base") as [v|] eqn:Hl; simpl; [|tauto].
  destruct v; simpl; try (split; [discriminate|discriminate]); try tauto.
  all: split; try discriminate.
  all: match goal with
       | |- context [resolve_currency ?s ?c] => destruct (resolve_currency s c); simpl; discriminate
       end.
Qed.

(** C3 (amended). A quote code that neither the table of well-known
    currencies nor the provider's currency cache resolves makes the build
    raise, with KeyError for that code when the steps before the lookup
    succeed.  A base code that is present and resolves by neither path
    makes the build raise in the same way.  The base currency of a built
    instrument is absent exactly when the market has no base code. *)
Theorem unresolved_currency_raises `{Externals} self symbol items utcnow :
  (forall code,
      PyDict.lookup items "quote" = Some (VStr code) ->
      Currency_from_str_c (Some code) = None ->
      _currencies self !! code = None ->
      raises (_parse_instrument self symbol (VDict items) utcnow) /\
      (is_Ok (parse_precisions self (VDict items)) ->
       is_Ok (parse_asset_type (VDict items)) ->
       is_Ok (parse_base_currency self (VDict items)) ->
       _parse_instrument self symbol (VDict items) utcnow = Raise (KeyError (VStr code)))) /\
  (forall code,
      PyDict.lookup items "base" = Some (VStr code) ->
      Currency_from_str_c (Some code) = None ->
      _currencies self !! code = None ->
      raises (_parse_instrument self symbol (VDict items) utcnow) /\
      (is_Ok (parse_precisions self (VDict items)) ->
       is_Ok (parse_asset_type (VDict items)) ->
       _parse_instrument self symbol (VDict items) utcnow = Raise (KeyError (VStr code)))) /\
  (forall i,
      _parse_instrument self symbol (VDict items) utcnow = Ok i ->
      (Instrument.base_currency i = None <->
       default VNone (PyDict.lookup items "base") = VNone)).
Proof.
  split; [|split].
  - intros code Hq Hg Hc.
    pose proof (parse_quote_unresolved self items code Hq Hg Hc) as Hr.
    split.
    + apply parse_instrument_raises_if. do 3 right. left. eexists; exact Hr.
    + intros [pp Hp] [a Ha] [b Hb].
      eapply parse_instrument_quote_raise; eassumption.
  - intros code Hb Hg Hc.
    pose proof (parse_base_unresolved self items code Hb Hg Hc) as Hr.
    split.
    + apply parse_instrument_raises_if. do 2 right. left. eexists; exact Hr.
    + intros [pp Hp] [a Ha].
      eapply parse_instrument_base_raise; eassumption.
  - intros i Hi. apply parse_instrument_Ok in Hi as (mq & _ & _ & Hbase & _).
    rewrite <- parse_base_None. split; intros Hn.
    + rewrite Hbase, Hn. reflexivity.
    + rewrite Hbase in Hn. congruence.
Qed.

(** ** Lot size *)

Lemma parse_quantity_Ok values bound sp q :
  parse_quantity values bound sp = Ok q ->
  exists raw, limit values "amount" bound = Ok raw /\
    q = if is_None raw then None else Some (Quantity.of_value raw (Some sp)).
Proof.
  unfold parse_quantity. intros Hq. apply bind_Ok in Hq as (raw & Hraw & Hq).
  exists raw. split; [assumption | congruence].
Qed.

Lemma parse_lot_size_Ok values mq sp lot_size :
  parse_lot_size values mq sp = Ok lot_size ->
  exists info lot,
    PyDict.getitem values "info" = Ok info /\
    PyDict.get info "lotSize" = Ok lot /\
    lot_size = if negb (is_None lot) then Quantity.of_value lot None
               else match mq with
                    | Some q => Quantity.of_quantity q (Some sp)
                    | None => Quantity.of_value (VInt 1) None
                    end.
Proof.
  unfold parse_lot_size. intros Hl.
  apply bind_Ok in Hl as (info & Hinfo & Hl).
  apply bind_Ok in Hl as (lot & Hlot & Hl).
  exists info, lot. repeat split; try assumption.
  destruct (is_None lot); simpl in *; [destruct mq|]; congruence.
Qed.

(** The three ways a lot size comes about. *)
Lemma lot_size_cases `{Externals} self symbol values utcnow i :
  _parse_instrument self symbol values utcnow = Ok i ->
  exists info lot min_raw,
    PyDict.getitem values "info" = Ok info /\
    PyDict.get info "lotSize" = Ok lot /\
    limit values "amount" "min" = Ok min_raw /\
    let sp := Instrument.size_precision i in
    ((lot <> VNone /\
      Instrument.lot_size i = Quantity.of_value lot None) \/
     (lot = VNone /\ min_raw <> VNone /\
      Instrument.min_quantity i = Some (Quantity.of_value min_raw (Some sp)) /\
      Instrument.lot_size i
        = Quantity.of_quantity (Quantity.of_value min_raw (Some sp)) (Some sp)) \/
     (lot = VNone /\ min_raw = VNone /\
      Instrument.min_quantity i = None /\
      Instrument.lot_size i = Quantity.of_value (VInt 1) None)).
Proof.
  intros Hb.
  apply parse_instrument_Ok in Hb as (mq & _ & _ & _ & _ & Hmin & Hmq & Hlot & _).
  apply parse_quantity_Ok in Hmin as (min_raw & Hraw & Hq).
  apply parse_lot_size_Ok in Hlot as (info & lot & Hinfo & Hget & Hls).
  exists info, lot, min_raw. repeat split; try assumption.
  rewrite Hmq, Hls, Hq. clear.
  destruct (is_None lot) eqn:Hl; simpl.
  - apply is_None_true in Hl. right.
    destruct (is_None min_raw) eqn:Hm.
    + apply is_None_true in Hm. right. auto.
    + apply is_None_false in Hm. left. auto.
  - apply is_None_false in Hl. left. auto.
Qed.

(** C7. The lot size of a built instrument follows the fallback order:
    [info.lotSize] when it is there (not [None]); otherwise
    [limits.amount.min], when there, as the minimum quantity wrapped
    again at [size_precision]; otherwise the quantity 1.  The three cases
    exclude each other. *)
Theorem lot_size_fallback_order `{Externals} self symbol values utcnow i :
  _parse_instrument self symbol values utcnow = Ok i ->
  exists info lot min_raw,
    PyDict.getitem values "info" = Ok info /\
    PyDict.get info "lotSize" = Ok lot /\
    limit values "amount" "min" = Ok min_raw /\
    let sp := Instrument.size_precision i in
    ((lot <> VNone /\
      Instrument.lot_size i = Quantity.of_value lot None) \/
     (lot = VNone /\ min_raw <> VNone /\
      Instrument.min_quantity i = Some (Quantity.of_value min_raw (Some sp)) /\
      Instrument.lot_size i
        = Quantity.of_quantity (Quantity.of_value min_raw (Some sp)) (Some sp)) \/
     (lot = VNone /\ min_raw = VNone /\
      Instrument.min_quantity i = None /\
      Instrument.lot_size i = Quantity.of_value (VInt 1) None)).
Proof. apply lot_size_cases. Qed.

(** C10. An explicit [info.lotSize] becomes the lot size as
    [Quantity(lotSize)], with no precision argument, whatever the size
    precision of the instrument is; the fallback to the minimum quantity
    passes [size_precision].  Two builds that read the same [lotSize]
    give the same lot size. *)
Theorem explicit_lot_size_without_precision `{Externals} :
  (forall self symbol values utcnow i info lot,
      _parse_instrument self symbol values utcnow = Ok i ->
      PyDict.getitem values "info" = Ok info ->
      PyDict.get info "lotSize" = Ok lot ->
      lot <> VNone ->
      Instrument.lot_size i = Quantity.of_value lot None /\
      Quantity.precision (Instrument.lot_size i) = None) /\
  (forall self symbol values utcnow i info min_raw,
      _parse_instrument self symbol values utcnow = Ok i ->
      PyDict.getitem values "info" = Ok info ->
      PyDict.get info "lotSize" = Ok VNone ->
      limit values "amount" "min" = Ok min_raw ->
      min_raw <> VNone ->
      Quantity.precision (Instrument.lot_size i) = Some (Instrument.size_precision i)) /\
  (forall self1 self2 symbol1 symbol2 values1 values2 utcnow1 utcnow2 i1 i2 info1 info2 lot,
      _parse_instrument self1 symbol1 values1 utcnow1 = Ok i1 ->
      _parse_instrument self2 symbol2 values2 utcnow2 = Ok i2 ->
      PyDict.getitem values1 "info" = Ok info1 ->
      PyDict.getitem values2 "info" = Ok info2 ->
      PyDict.get info1 "lotSize" = Ok lot ->
      PyDict.get info2 "lotSize" = Ok lot ->
      lot <> VNone ->
      Instrument.lot_size i1 = Instrument.lot_size i2).
Proof.
  assert (Hexplicit : forall self symbol values utcnow i info lot,
      _parse_instrument self symbol values utcnow = Ok i ->
      PyDict.getitem values "info" = Ok info ->
      PyDict.get info "lotSize" = Ok lot ->
      lot <> VNone ->
      Instrument.lot_size i = Quantity.of_value lot None).
  { intros self symbol values utcnow i info lot Hb Hinfo Hlot Hne.
    apply lot_size_cases in Hb as (info' & lot' & mr & Hinfo' & Hlot' & _ & Hcases).
    assert (info' = info) by congruence. subst info'.
    assert (lot' = lot) by congruence. subst lot'.
    destruct Hcases as [[_ Hl]|[[Hn _]|[Hn _]]]; [exact Hl | contradiction | contradiction]. }
  split; [|split].
  - intros self symbol values utcnow i info lot Hb Hinfo Hlot Hne.
    pose proof (Hexplicit _ _ _ _ _ _ _ Hb Hinfo Hlot Hne) as Hl.
    split; [exact Hl | rewrite Hl; reflexivity].
  - intros self symbol values utcnow i info min_raw Hb Hinfo Hlot Hmin Hne.
    apply lot_size_cases in Hb as (info' & lot' & mr & Hinfo' & Hlot' & Hmin' & Hcases).
    assert (info' = info) by congruence. subst info'.
    assert (lot' = VNone) by congruence. subst lot'.
    assert (mr = min_raw) by congruence. subst mr.
    destruct Hcases as [[Hn _]|[(_ & _ & _ & Hl)|(_ & Hn & _)]];
      [contradiction | rewrite Hl; reflexivity | contradiction].
  - intros self1 self2 symbol1 symbol2 values1 values2 utcnow1 utcnow2 i1 i2 info1 info2 lot
           Hb1 Hb2 Hi1 Hi2 Hl1 Hl2 Hne.
    rewrite (Hexplicit _ _ _ _ _ _ _ Hb1 Hi1 Hl1 Hne).
    rewrite (Hexplicit _ _ _ _ _ _ _ Hb2 Hi2 Hl2 Hne). reflexivity.
Qed.

(** ** Markets with a block missing *)

Lemma parse_precisions_missing self items :
  PyDict.lookup items "precision" = None ->
  parse_precisions self (VDict items) = Raise (KeyError (VStr "precision")).
Proof. intros Hl. unfold parse_precisions. simpl. rewrite Hl. reflexivity. Qed.

Lemma limit_missing_limits items block bound :
  PyDict.lookup items "limits" = None ->
  limit (VDict items) block bound = Raise (KeyError (VStr "limits")).
Proof. intros Hl. unfold limit. simpl. rewrite Hl. reflexivity. Qed.

Lemma limit_missing_block items ls block bound :
  PyDict.lookup items "limits" = Some (VDict ls) ->
  PyDict.lookup ls block = None ->
  limit (VDict items) block bound = Raise (AttributeError "get").
Proof. intros Hl Hb. unfold limit. simpl. rewrite Hl. simpl. rewrite Hb. reflexivity. Qed.

Lemma parse_quantity_raise values bound sp e :
  limit values "amount" bound = Raise e -> parse_quantity values bound sp = Raise e.
Proof. intros Hl. unfold parse_quantity. rewrite Hl. reflexivity. Qed.

Lemma parse_quantity_is_Ok values bound sp :
  is_Ok (limit values "amount" bound) -> is_Ok (parse_quantity values bound sp).
Proof. intros [raw Hl]. unfold parse_quantity. rewrite Hl. simpl. eexists; reflexivity. Qed.

Lemma parse_notional_raise values bound q e :
  limit values "cost" bound = Raise e -> parse_notional values bound q = Raise e.
Proof. intros Hl. unfold parse_notional. rewrite Hl. reflexivity. Qed.

Lemma parse_lot_size_missing items mq sp :
  PyDict.lookup items "info" = None ->
  parse_lot_size (VDict items) mq sp = Raise (KeyError (VStr "info")).
Proof. intros Hl. unfold parse_lot_size. simpl. rewrite Hl. reflexivity. Qed.

Lemma parse_lot_size_is_Ok values mq sp :
  is_Ok (PyDict.getitem values "info" ≫= fun info => PyDict.get info "lotSize") ->
  is_Ok (parse_lot_size values mq sp).
Proof.
  intros [lot Hl]. apply bind_Ok in Hl as (info & Hinfo & Hlot).
  unfold parse_lot_size. rewrite Hinfo. simpl. rewrite Hlot. simpl.
  destruct (negb (is_None lot)); [|destruct mq]; eexists; reflexivity.
Qed.

(** The build raises what the first quantity bound raises. *)
Lemma parse_instrument_limits_raise `{Externals} self symbol values utcnow e :
  reaches_limits self values ->
  limit values "amount" "max" = Raise e ->
  _parse_instrument self symbol values utcnow = Raise e.
Proof.
  intros ([[[pp sp] tick] Hp] & [a Ha] & [b Hb] & [q Hq]) Hl.
  unfold _parse_instrument. rewrite Hp. simpl. rewrite Ha. simpl. rewrite Hb. simpl.
  rewrite Hq. simpl. rewrite (parse_quantity_raise _ _ _ _ Hl). reflexivity.
Qed.

(** The build raises what the lot size step raises. *)
Lemma parse_instrument_info_raise `{Externals} self symbol values utcnow e :
  reaches_info self values ->
  (forall mq sp, parse_lot_size values mq sp = Raise e) ->
  _parse_instrument self symbol values utcnow = Raise e.
Proof.
  intros (([[[pp sp] tick] Hp] & [a Ha] & [b Hb] & [q Hq]) & Hmax & Hmin) Hl.
  destruct (parse_quantity_is_Ok values "max" sp Hmax) as [mx Hmx].
  destruct (parse_quantity_is_Ok values "min" sp Hmin) as [mn Hmn].
  unfold _parse_instrument. rewrite Hp. simpl. rewrite Ha. simpl. rewrite Hb. simpl.
  rewrite Hq. simpl. rewrite Hmx. simpl. rewrite Hmn. simpl. rewrite Hl. reflexivity.
Qed.

(** The build raises what the first notional bound raises. *)
Lemma parse_instrument_cost_raise `{Externals} self symbol values utcnow e :
  reaches_cost self values ->
  limit values "cost" "max" = Raise e ->
  _parse_instrument self symbol values utcnow = Raise e.
Proof.
  intros ((([[[pp sp] tick] Hp] & [a Ha] & [b Hb] & [q Hq]) & Hmax & Hmin) & Hinfo) Hl.
  destruct (parse_quantity_is_Ok values "max" sp Hmax) as [mx Hmx].
  destruct (parse_quantity_is_Ok values "min" sp Hmin) as [mn Hmn].
  destruct (parse_lot_size_is_Ok values mn sp Hinfo) as [lot Hlot].
  unfold _parse_instrument. rewrite Hp. simpl. rewrite Ha. simpl. rewrite Hb. simpl.
  rewrite Hq. simpl. rewrite Hmx. simpl. rewrite Hmn. simpl. rewrite Hlot. simpl.
  rewrite (parse_notional_raise _ _ _ _ Hl). reflexivity.
Qed.

Lemma exn_name_builtin (e : exn) : exn_name e <> "MalformedMarketDefinition".
Proof. destruct e; discriminate. Qed.

(** C8 (amended). A market in which a required block is absent makes the
    build raise one of Python's own lookup errors: KeyError for the key
    when [precision], [limits] or [info] is absent, AttributeError (None
    has no [get]) when [limits.amount] or [limits.cost] is absent, each
    provided the steps before that lookup succeed; whatever the build
    raises, it is never an error named MalformedMarketDefinition. *)
Theorem missing_block_raises_lookup_error `{Externals} self symbol items utcnow :
  (PyDict.lookup items "precision" = None ->
   _parse_instrument self symbol (VDict items) utcnow = Raise (KeyError (VStr "precision"))) /\
  (PyDict.lookup items "limits" = None ->
   raises (_parse_instrument self symbol (VDict items) utcnow) /\
   (reaches_limits self (VDict items) ->
    _parse_instrument self symbol (VDict items) utcnow = Raise (KeyError (VStr "limits")))) /\
  (forall ls,
   PyDict.lookup items "limits" = Some (VDict ls) ->
   PyDict.lookup ls "amount" = None ->
   raises (_parse_instrument self symbol (VDict items) utcnow) /\
   (reaches_limits self (VDict items) ->
    _parse_instrument self symbol (VDict items) utcnow = Raise (AttributeError "get"))) /\
  (PyDict.lookup items "info" = None ->
   raises (_parse_instrument self symbol (VDict items) utcnow) /\
   (reaches_info self (VDict items) ->
    _parse_instrument self symbol (VDict items) utcnow = Raise (KeyError (VStr "info")))) /\
  (forall ls,
   PyDict.lookup items "limits" = Some (VDict ls) ->
   PyDict.lookup ls "cost" = None ->
   raises (_parse_instrument self symbol (VDict items) utcnow) /\
   (reaches_cost self (VDict items) ->
    _parse_instrument self symbol (VDict items) utcnow = Raise (AttributeError "get"))) /\
  (forall e,
   _parse_instrument self symbol (VDict items) utcnow = Raise e ->
   exn_name e <> "MalformedMarketDefinition").
Proof.
  split; [|split; [|split; [|split; [|split]]]].
  - intros Hl. apply parse_instrument_precisions_raise, parse_precisions_missing, Hl.
  - intros Hl. split.
    + apply parse_instrument_raises_if. do 4 right. left.
      intros sp. eexists. apply parse_quantity_raise, limit_missing_limits, Hl.
    + intros Hr. apply parse_instrument_limits_raise; [exact Hr|].
      apply limit_missing_limits, Hl.
  - intros ls Hl Ha. split.
    + apply parse_instrument_raises_if. do 4 right. left.
      intros sp. eexists. eapply parse_quantity_raise, limit_missing_block; eassumption.
    + intros Hr. apply parse_instrument_limits_raise; [exact Hr|].
      eapply limit_missing_block; eassumption.
  - intros Hl. split.
    + apply parse_instrument_raises_if. do 6 right. left.
      intros sp mq. eexists. apply parse_lot_size_missing, Hl.
    + intros Hr. apply parse_instrument_info_raise; [exact Hr|].
      intros mq sp. apply parse_lot_size_missing, Hl.
  - intros ls Hl Hc. split.
    + apply parse_instrument_raises_if. do 7 right.
      intros q. eexists. eapply parse_notional_raise, limit_missing_block; eassumption.
    + intros Hr. apply parse_instrument_cost_raise; [exact Hr|].
      eapply limit_missing_block; eassumption.
  - intros e _. apply exn_name_builtin.
Qed.

(** ** Loading *)

Lemma instruments_setitem code instrument w :
  instruments (setitem_instruments code instrument w) = <[code := instrument]> (instruments w).
Proof.
  unfold instruments at 1, contents, setitem_instruments. simpl.
  rewrite lookup_insert_eq. reflexivity.
Qed.

(** A turn of the loop reads the provider, not the heap. *)
Lemma load_instrument_provider `{Externals} utcnow k v w w' :
  provider w' = provider w ->
  load_instrument utcnow k v w' = load_instrument utcnow k v w.
Proof. intros Hp. unfold load_instrument. rewrite Hp. reflexivity. Qed.

(** An instrument that a turn of the loop built carries the raw entry and
    the time of its parsing. *)
Lemma load_instrument_Ok `{Externals} utcnow k v w ins :
  load_instrument utcnow k v w = Ok ins ->
  Instrument.info ins = v /\ Instrument.timestamp ins = utcnow /\
  Instrument.symbol ins = Symbol.make k (venue (provider w)).
Proof.
  unfold load_instrument. intros Hl. apply bind_Ok in Hl as (v' & Hv & Hl).
  assert (v' = v) by (destruct v; simpl in Hv; congruence). subst v'.
  apply parse_instrument_Ok in Hl as (mq & _ & _ & _ & _ & _ & _ & _ & Hinfo & Ht & Hs).
  auto.
Qed.

(** Whatever the outcome of the loop, it leaves the provider's attributes
    alone, leaves the entries of other keys alone, and removes no key. *)
Lemma load_instruments_loop_frame `{Externals} items clock i0 w r w' :
  _load_instruments_loop clock i0 items w = (r, w') ->
  provider w' = provider w /\
  (forall c, c ∉ items.*1 -> instruments w' !! c = instruments w !! c) /\
  (forall c, is_Some (instruments w !! c) -> is_Some (instruments w' !! c)).
Proof.
  revert i0 w. induction items as [|[k v] items IH]; intros i0 w Hl; simpl in Hl.
  - injection Hl as <- <-. auto.
  - destruct (load_instrument (clock i0) k v w) as [ins|e].
    + apply IH in Hl as (Hp & Hother & Hkeep). split; [exact Hp|]. split.
      * intros c Hc. rewrite fmap_cons in Hc. apply not_elem_of_cons in Hc as [Hne Hc].
        rewrite Hother by exact Hc.
        rewrite instruments_setitem, lookup_insert_ne by (simpl in Hne; congruence).
        reflexivity.
      * intros c Hc. apply Hkeep. rewrite instruments_setitem.
        destruct (decide (k = c)) as [->|Hne];
          [rewrite lookup_insert_eq; eauto | rewrite lookup_insert_ne by exact Hne; exact Hc].
    + injection Hl as <- <-. auto.
Qed.

(** A loop that returns has stored, for every entry, the instrument built
    from it. *)
Lemma load_instruments_loop_Ok `{Externals} items clock i0 w u w' :
  _load_instruments_loop clock i0 items w = (Ok u, w') ->
  NoDup items.*1 ->
  forall j k v, items !! j = Some (k, v) ->
  exists ins, load_instrument (clock (i0 + j)%nat) k v w = Ok ins /\
              instruments w' !! k = Some ins.
Proof.
  revert i0 w. induction items as [|[k0 v0] items IH]; intros i0 w Hl Hnd j k v Hj.
  - discriminate.
  - simpl in Hl, Hnd. apply NoDup_cons in Hnd as [Hk0 Hnd].
    destruct (load_instrument (clock i0) k0 v0 w) as [ins0|e] eqn:H0; [|discriminate].
    destruct j as [|j]; simpl in Hj.
    + injection Hj as <- <-. exists ins0. rewrite Nat.add_0_r. split; [exact H0|].
      apply load_instruments_loop_frame in Hl as (_ & Hother & _).
      rewrite Hother by exact Hk0. rewrite instruments_setitem. apply lookup_insert_eq.
    + destruct (IH _ _ Hl Hnd j k v Hj) as (ins & Hins & Hget).
      exists ins. split; [|exact Hget].
      rewrite <- Hins. replace (i0 + S j)%nat with (S i0 + j)%nat by lia.
      symmetry. apply load_instrument_provider. reflexivity.
Qed.

(** A loop whose entries before the [k]-th are built and whose [k]-th
    entry raises ends in that exception, with those entries stored and
    every other entry as it was. *)
Lemma load_instruments_loop_Raise `{Externals} pre clock i0 w k v post e :
  NoDup pre.*1 ->
  (forall j kj vj, pre !! j = Some (kj, vj) ->
     is_Ok (load_instrument (clock (i0 + j)%nat) kj vj w)) ->
  load_instrument (clock (i0 + length pre)%nat) k v w = Raise e ->
  exists w', _load_instruments_loop clock i0 (pre ++ (k, v) :: post) w = (Raise e, w') /\
    provider w' = provider w /\
    (forall j kj vj ins, pre !! j = Some (kj, vj) ->
      load_instrument (clock (i0 + j)%nat) kj vj w = Ok ins ->
      instruments w' !! kj = Some ins) /\
    (forall c, c ∉ pre.*1 -> instruments w' !! c = instruments w !! c).
Proof.
  revert i0 w. induction pre as [|[k0 v0] pre IH]; intros i0 w Hnd Hpre Hk.
  - simpl in *. rewrite Nat.add_0_r in Hk. rewrite Hk. eexists. split; [reflexivity|].
    split; [reflexivity|]. split; [|reflexivity].
    intros j kj vj ins Hj. discriminate.
  - simpl in Hnd. apply NoDup_cons in Hnd as [Hk0 Hnd].
    destruct (Hpre 0%nat k0 v0 eq_refl) as [ins0 H0]. rewrite Nat.add_0_r in H0.
    set (w1 := setitem_instruments k0 ins0 w).
    destruct (IH (S i0) w1 Hnd) as (w' & Hloop & Hprov & Hstored & Hother).
    + intros j kj vj Hj. rewrite (load_instrument_provider _ _ _ w w1) by reflexivity.
      replace (S i0 + j)%nat with (i0 + S j)%nat by lia. apply (Hpre (S j)). exact Hj.
    + rewrite (load_instrument_provider _ _ _ w w1) by reflexivity.
      replace (S i0 + length pre)%nat with (i0 + length ((k0, v0) :: pre))%nat
        by (simpl; lia). exact Hk.
    + exists w'. split; [simpl; rewrite H0; exact Hloop|].
      split; [rewrite Hprov; reflexivity|]. split.
      * intros j kj vj ins Hj Hins. destruct j as [|j]; simpl in Hj.
        -- injection Hj as <- <-. rewrite Nat.add_0_r in Hins.
           assert (ins = ins0) by congruence. subst ins.
           rewrite Hother by exact Hk0. subst w1.
           rewrite instruments_setitem. apply lookup_insert_eq.
        -- apply (Hstored j kj vj ins Hj).
           rewrite (load_instrument_provider _ _ _ w w1) by reflexivity.
           replace (S i0 + j)%nat with (i0 + S j)%nat by lia. exact Hins.
      * intros c Hc. rewrite fmap_cons in Hc. apply not_elem_of_cons in Hc as [Hne Hc].
        rewrite Hother by exact Hc. subst w1.
        rewrite instruments_setitem, lookup_insert_ne by (simpl in Hne; congruence).
        reflexivity.
Qed.

Lemma instruments_with_provider f w :
  _instruments (f (provider w)) = _instruments (provider w) ->
  instruments (with_provider f w) = instruments w.
Proof. intros Hf. unfold instruments, with_provider. simpl. rewrite Hf. reflexivity. Qed.

(** The loop of [_load_currencies] removes no key, whatever its outcome. *)
Lemma load_currencies_loop_keeps `{Externals} mode items cs r cs' :
  _load_currencies_loop mode items cs = (r, cs') ->
  forall c, is_Some (cs !! c) -> is_Some (cs' !! c).
Proof.
  revert cs. induction items as [|[code values] items IH]; intros cs Hl c Hc; simpl in Hl.
  - injection Hl as <- <-. exact Hc.
  - destruct (load_currency mode code values) as [cur|e].
    + apply (IH _ Hl). destruct (decide (code = c)) as [->|Hne];
        [rewrite lookup_insert_eq; eauto | rewrite lookup_insert_ne by exact Hne; exact Hc].
    + injection Hl as <- <-. exact Hc.
Qed.

Lemma load_currencies_frame `{Externals} w r w' :
  _load_currencies w = (r, w') ->
  objects w' = objects w /\
  _instruments (provider w') = _instruments (provider w) /\
  _client (provider w') = _client (provider w) /\
  (forall c, is_Some (_currencies (provider w) !! c) ->
             is_Some (_currencies (provider w') !! c)).
Proof.
  unfold _load_currencies. intros Hl.
  destruct (_load_currencies_loop _ _ _) as [r0 cs] eqn:Hloop.
  injection Hl as <- <-. simpl. repeat split; try reflexivity.
  intros c Hc. eapply load_currencies_loop_keeps; eassumption.
Qed.

(** [_load_instruments], whatever its outcome: the currencies, the client
    and the reference stay; other entries stay; no key goes. *)
Lemma load_instruments_frame `{Externals} clock w r w' :
  _load_instruments clock w = (r, w') ->
  _currencies (provider w') = _currencies (provider w) /\
  _instruments (provider w') = _instruments (provider w) /\
  (forall c, c ∉ (Exchange.markets (_client (provider w))).*1 ->
             instruments w' !! c = instruments w !! c) /\
  (forall c, is_Some (instruments w !! c) -> is_Some (instruments w' !! c)).
Proof.
  unfold _load_instruments. intros Hl.
  destruct (_load_instruments_loop _ _ _ _) as [r0 w0] eqn:Hloop.
  apply load_instruments_loop_frame in Hloop as (Hp & Hother & Hkeep).
  destruct r0 as [u|e]; injection Hl as <- <-.
  - rewrite instruments_with_provider by reflexivity. simpl. rewrite Hp. auto.
  - rewrite Hp. auto.
Qed.

(** One load, whatever its outcome, removes no key of either dictionary. *)
Lemma load_all_keeps `{Externals} fetched clock w r w' :
  load_all fetched clock w = (r, w') ->
  (forall c, is_Some (instruments w !! c) -> is_Some (instruments w' !! c)) /\
  (forall c, is_Some (_currencies (provider w) !! c) ->
             is_Some (_currencies (provider w') !! c)).
Proof.
  unfold load_all. intros Hl. destruct fetched as [client|e].
  - destruct (_load_currencies _) as [r1 w1] eqn:Hcur.
    apply load_currencies_frame in Hcur as (Hobj & Hloc & _ & Hkeep).
    assert (Hins1 : instruments w1 = instruments w).
    { unfold instruments. rewrite Hobj, Hloc. reflexivity. }
    destruct r1 as [u|e].
    + apply load_instruments_frame in Hl as (Hc & _ & _ & Hk). split.
      * intros c Hc'. apply Hk. rewrite Hins1. exact Hc'.
      * intros c Hc'. rewrite Hc. apply Hkeep. exact Hc'.
    + injection Hl as <- <-. split.
      * intros c Hc'. rewrite Hins1. exact Hc'.
      * intros c Hc'. apply Hkeep. exact Hc'.
  - injection Hl as <- <-. auto.
Qed.

(** A load that returns has stored the instrument built from every
    market entry, and has left the entries of other codes as they were. *)
Lemma load_all_Ok `{Externals} client clock w u w' :
  load_all (Ok client) clock w = (Ok u, w') ->
  (NoDup (Exchange.markets client).*1 ->
   forall j k v, Exchange.markets client !! j = Some (k, v) ->
     exists ins, instruments w' !! k = Some ins /\
                 Instrument.info ins = v /\ Instrument.timestamp ins = clock j) /\
  (forall c, c ∉ (Exchange.markets client).*1 -> instruments w' !! c = instruments w !! c).
Proof.
  unfold load_all. intros Hl.
  destruct (_load_currencies _) as [r1 w1] eqn:Hcur.
  apply load_currencies_frame in Hcur as (Hobj & Hloc & Hclient & _).
  simpl in Hobj, Hloc, Hclient.
  assert (Hins1 : instruments w1 = instruments w).
  { unfold instruments. rewrite Hobj, Hloc. reflexivity. }
  destruct r1 as [u1|e]; [|discriminate]. split.
  - intros Hnd j k v Hj. unfold _load_instruments in Hl.
    destruct (_load_instruments_loop _ _ _ _) as [r0 w0] eqn:Hloop.
    destruct r0 as [u0|e]; [|discriminate]. injection Hl as _ <-.
    rewrite Hclient in Hloop.
    destruct (load_instruments_loop_Ok _ _ _ _ _ _ Hloop Hnd j k v Hj) as (ins & Hins & Hget).
    exists ins. rewrite instruments_with_provider by reflexivity.
    split; [exact Hget|]. apply load_instrument_Ok in Hins as (Hi & Ht & _). auto.
  - intros c Hc. apply load_instruments_frame in Hl as (_ & _ & Hother & _).
    rewrite Hclient in Hother. rewrite Hother by exact Hc. rewrite Hins1. reflexivity.
Qed.

(** C6. Over every sequence of loads that all return, the key sets of the
    instrument dictionary and of the currency dictionary never shrink.
    A load whose market set has an already cached code stores the newly
    built instrument under it; a cached code that the market set omits
    keeps its entry, which [get] still returns. *)
Theorem reload_never_evicts `{Externals} :
  (forall loads w w',
      run_loads loads w = Some w' ->
      dom (instruments w) ⊆ dom (instruments w') /\
      dom (_currencies (provider w)) ⊆ dom (_currencies (provider w'))) /\
  (forall client clock w u w' j k v,
      load_all (Ok client) clock w = (Ok u, w') ->
      NoDup (Exchange.markets client).*1 ->
      Exchange.markets client !! j = Some (k, v) ->
      exists ins, forall symbol, Symbol.code symbol = k ->
        get symbol w' = Some ins /\
        Instrument.info ins = v /\ Instrument.timestamp ins = clock j) /\
  (forall client clock w u w' symbol,
      load_all (Ok client) clock w = (Ok u, w') ->
      Symbol.code symbol ∉ (Exchange.markets client).*1 ->
      get symbol w' = get symbol w).
Proof.
  split; [|split].
  - intros loads. induction loads as [|[fetched clock] loads IH]; intros w w' Hr; simpl in Hr.
    + injection Hr as <-. split; reflexivity.
    + destruct (load_all fetched clock w) as [r w1] eqn:Hl.
      destruct r as [u|e]; [|discriminate].
      apply load_all_keeps in Hl as (Hi & Hc). apply IH in Hr as (Hi' & Hc').
      split.
      * etransitivity; [|exact Hi']. intros c Hin.
        apply elem_of_dom. apply Hi. apply elem_of_dom. exact Hin.
      * etransitivity; [|exact Hc']. intros c Hin.
        apply elem_of_dom. apply Hc. apply elem_of_dom. exact Hin.
  - intros client clock w u w' j k v Hl Hnd Hj.
    apply load_all_Ok in Hl as (Hstored & _).
    destruct (Hstored Hnd j k v Hj) as (ins & Hget & Hinfo & Ht).
    exists ins. intros symbol <-. unfold get. auto.
  - intros client clock w u w' symbol Hl Hc.
    apply load_all_Ok in Hl as (_ & Hother). unfold get. apply Hother, Hc.
Qed.

(** [load_all] ends as [_load_instruments] does once the markets are
    fetched and the currencies loaded. *)
Lemma load_all_instruments_step `{Externals} client clock w u w1 :
  _load_currencies (with_provider (set_client client) w) = (Ok u, w1) ->
  load_all (Ok client) clock w = _load_instruments clock w1.
Proof. intros Hc. unfold load_all. rewrite Hc. reflexivity. Qed.

(** C5 (amended). When the entries before the [k]-th are built and the
    [k]-th raises, [_load_instruments] raises that exception; the
    provider's attributes are as before (the count too); every instrument
    built from an earlier entry is stored under its code; every code
    cached before the load is still cached; the entry of every code that
    is not among the earlier entries is unchanged; and [load_all], having
    fetched the markets and loaded the currencies, raises the same. *)
Theorem failed_load_keeps_upserts `{Externals} clock w pre k v post e :
  Exchange.markets (_client (provider w)) = (pre ++ (k, v) :: post)%list ->
  NoDup pre.*1 ->
  (forall j kj vj, pre !! j = Some (kj, vj) -> is_Ok (load_instrument (clock j) kj vj w)) ->
  load_instrument (clock (length pre)) k v w = Raise e ->
  exists w',
    _load_instruments clock w = (Raise e, w') /\
    provider w' = provider w /\
    (forall j kj vj ins, pre !! j = Some (kj, vj) ->
       load_instrument (clock j) kj vj w = Ok ins -> get_c kj w' = Some ins) /\
    (forall c, is_Some (get_c c w) -> is_Some (get_c c w')) /\
    (forall c, (c ∉ pre.*1) -> get_c c w' = get_c c w) /\
    (forall client w0 u,
       _load_currencies (with_provider (set_client client) w0) = (Ok u, w) ->
       load_all (Ok client) clock w0 = (Raise e, w')).
Proof.
  intros Hm Hnd Hpre Hk.
  destruct (load_instruments_loop_Raise pre clock 0%nat w k v post e Hnd Hpre Hk)
    as (w' & Hloop & Hprov & Hstored & Hother).
  assert (Hload : _load_instruments clock w = (Raise e, w')).
  { unfold _load_instruments. rewrite Hm, Hloop. reflexivity. }
  exists w'.
  split; [exact Hload|]. split; [exact Hprov|]. split; [exact Hstored|].
  split; [|split].
  - intros c Hc. apply load_instruments_loop_frame in Hloop as (_ & _ & Hkeep).
    apply Hkeep, Hc.
  - exact Hother.
  - intros client w0 u Hcur. rewrite (load_all_instruments_step _ _ _ _ _ Hcur). exact Hload.
Qed.

(** ** The copy that [get_all] returns *)

#[global] Arguments get_all : simpl never.
#[global] Arguments mutate : simpl never.

Lemma get_all_fresh w l w1 :
  get_all w = (l, w1) ->
  (l ∉ dom (objects w)) /\
  objects w1 = <[l := instruments w]> (objects w) /\
  provider w1 = provider w.
Proof.
  unfold get_all. intros Hg. injection Hg as <- <-. simpl.
  split; [apply is_fresh | (split; reflexivity)].
Qed.

(** A new provider's dictionary is an object of the heap, and loading
    keeps it one. *)
Lemma allocated_init client h : allocated (init client h).
Proof. unfold allocated, init. simpl. rewrite lookup_insert_eq. eauto. Qed.

Lemma allocated_setitem code instrument w :
  allocated w -> allocated (setitem_instruments code instrument w).
Proof.
  intros _. unfold allocated, setitem_instruments. simpl. rewrite lookup_insert_eq. eauto.
Qed.

Lemma allocated_load_instruments_loop `{Externals} items clock i0 w r w' :
  _load_instruments_loop clock i0 items w = (r, w') -> allocated w -> allocated w'.
Proof.
  revert i0 w. induction items as [|[k v] items IH]; intros i0 w Hl Ha; simpl in Hl.
  - injection Hl as <- <-. exact Ha.
  - destruct (load_instrument (clock i0) k v w) as [ins|e].
    + eapply IH; [exact Hl|]. apply allocated_setitem, Ha.
    + injection Hl as <- <-. exact Ha.
Qed.

Lemma allocated_load_all `{Externals} fetched clock w r w' :
  load_all fetched clock w = (r, w') -> allocated w -> allocated w'.
Proof.
  unfold load_all. intros Hl Ha. destruct fetched as [client|e].
  - destruct (_load_currencies _) as [r1 w1] eqn:Hcur.
    apply load_currencies_frame in Hcur as (Hobj & Hloc & _ & _).
    assert (Ha1 : allocated w1) by (unfold allocated in *; rewrite Hobj, Hloc; exact Ha).
    destruct r1 as [u|e].
    + unfold _load_instruments in Hl.
      destruct (_load_instruments_loop _ _ _ _) as [r0 w0] eqn:Hloop.
      apply allocated_load_instruments_loop in Hloop; [|exact Ha1].
      destruct r0; injection Hl as <- <-; exact Hloop.
    + injection Hl as <- <-. exact Ha1.
  - injection Hl as <- <-. exact Ha.
Qed.

Lemma allocated_ne w l :
  allocated w -> l ∉ dom (objects w) -> l <> _instruments (provider w).
Proof.
  intros Ha Hl ->. apply Hl. apply elem_of_dom. exact Ha.
Qed.

(** A write to another object does not reach the provider's dictionary. *)
Lemma instruments_mutate l op w :
  l <> _instruments (provider w) ->
  instruments (mutate l op w) = instruments w.
Proof.
  intros Hne. unfold instruments, contents, mutate. simpl.
  rewrite lookup_insert_ne by exact Hne. reflexivity.
Qed.

Lemma instruments_mutate_all l ops w :
  l <> _instruments (provider w) ->
  instruments (mutate_all l ops w) = instruments w /\
  provider (mutate_all l ops w) = provider w.
Proof.
  revert w. induction ops as [|op ops IH]; intros w Hne; simpl; [auto|].
  destruct (IH (mutate l op w) Hne) as [Hi Hp]. unfold mutate_all in *.
  rewrite Hi, Hp. split; [apply instruments_mutate, Hne | reflexivity].
Qed.

Lemma instruments_get_all w l w1 :
  allocated w -> get_all w = (l, w1) ->
  instruments w1 = instruments w /\ contents (objects w1) l = instruments w /\
  allocated w1 /\ l ∈ dom (objects w1) /\ dom (objects w) ⊆ dom (objects w1).
Proof.
  intros Ha Hg. pose proof (get_all_fresh _ _ _ Hg) as (Hf & Hobj & Hp).
  pose proof (allocated_ne _ _ Ha Hf) as Hne.
  unfold instruments, contents, allocated in *. rewrite Hobj, Hp.
  rewrite lookup_insert_ne by exact Hne. rewrite lookup_insert_eq.
  repeat split; try reflexivity.
  - exact Ha.
  - rewrite dom_insert_L. set_solver.
  - rewrite dom_insert_L. set_solver.
Qed.

Lemma run_caller_get_all rest held w :
  run_caller (CallGetAll :: rest) held w
  = run_caller rest (held ++ (get_all w).1 :: nil) (get_all w).2.
Proof. reflexivity. Qed.

(** Whatever a caller does with the dictionaries it was handed, the
    provider's dictionary keeps its entries. *)
Lemma run_caller_invariant actions held w held' w' :
  allocated w ->
  (forall l, l ∈ held -> l ∈ dom (objects w) /\ l <> _instruments (provider w)) ->
  run_caller actions held w = (held', w') ->
  instruments w' = instruments w /\ provider w' = provider w /\ allocated w'.
Proof.
  revert held w. induction actions as [|[|n op] actions IH]; intros held w Ha Hheld Hr.
  - injection Hr as <- <-. auto.
  - rewrite run_caller_get_all in Hr. destruct (get_all w) as [l w1] eqn:Hg. simpl in Hr.
    pose proof (get_all_fresh _ _ _ Hg) as (Hf & Hobj & Hp).
    pose proof (instruments_get_all _ _ _ Ha Hg) as (Hi & _ & Ha1 & Hl1 & Hsub).
    apply IH in Hr as (Hi' & Hp' & Ha'); [|exact Ha1|].
    + rewrite Hi', Hi, Hp', Hp. auto.
    + intros l' Hl'. rewrite Hp. apply elem_of_app in Hl' as [Hl'|Hl'].
      * destruct (Hheld l' Hl') as [Hd Hne]. split; [apply Hsub, Hd | exact Hne].
      * apply list_elem_of_singleton in Hl'. subst l'.
        split; [exact Hl1 | apply allocated_ne; assumption].
  - simpl in Hr. destruct (held !! n) as [l|] eqn:Hn.
    + assert (Hl : l ∈ held) by (eapply list_elem_of_lookup_2; exact Hn).
      destruct (Hheld l Hl) as [Hd Hne].
      apply IH in Hr as (Hi' & Hp' & Ha').
      * rewrite Hi', Hp'. rewrite instruments_mutate by exact Hne. auto.
      * unfold allocated, mutate in *. simpl. rewrite lookup_insert_ne by exact Hne. exact Ha.
      * intros l' Hl'. destruct (Hheld l' Hl') as [Hd' Hne']. simpl. split; [|exact Hne'].
        rewrite dom_insert_L. apply elem_of_union_r. exact Hd'.
    + apply IH in Hr; assumption.
Qed.

(** C9. [get_all] returns a new dictionary with the entries of the
    provider's own; whatever the caller then does to it (adding, removing
    or replacing entries, any number of times), the provider's dictionary
    has the entries it had, so every later [get] and [get_all] gives what
    it gave before.  The same holds for any mix of [get_all] calls and
    mutations of the dictionaries they returned. *)
Theorem get_all_returns_a_copy w :
  allocated w ->
  (forall l w1 ops,
      get_all w = (l, w1) ->
      contents (objects w1) l = instruments w /\
      let w2 := mutate_all l ops w1 in
      (forall symbol, get symbol w2 = get symbol w) /\
      contents (objects (get_all w2).2) (get_all w2).1 = instruments w) /\
  (forall actions held w',
      run_caller actions nil w = (held, w') ->
      (forall symbol, get symbol w' = get symbol w) /\
      contents (objects (get_all w').2) (get_all w').1 = instruments w).
Proof.
  intros Ha. split.
  - intros l w1 ops Hg.
    pose proof (get_all_fresh _ _ _ Hg) as (Hf & Hobj & Hp).
    pose proof (instruments_get_all _ _ _ Ha Hg) as (Hi & Hc & Ha1 & Hl1 & _).
    split; [exact Hc|]. simpl.
    assert (Hne : l <> _instruments (provider w1))
      by (rewrite Hp; apply allocated_ne; assumption).
    destruct (instruments_mutate_all l ops w1 Hne) as [Hi2 Hp2].
    split.
    + intros symbol. unfold get. rewrite Hi2, Hi. reflexivity.
    + unfold get_all. simpl. unfold contents at 1. rewrite lookup_insert_eq. simpl.
      rewrite Hi2, Hi. reflexivity.
  - intros actions held w' Hr.
    apply run_caller_invariant in Hr as (Hi & Hp & Ha'); [|exact Ha|].
    + split.
      * intros symbol. unfold get. rewrite Hi. reflexivity.
      * unfold get_all. simpl. unfold contents at 1. rewrite lookup_insert_eq. simpl.
        exact Hi.
    + intros l Hl. apply elem_of_nil in Hl. contradiction.
Qed.

(** ** More about built instruments *)

(** Every step behind a built instrument. *)
Lemma parse_instrument_steps `{Externals} self symbol values utcnow i :
  _parse_instrument self symbol values utcnow = Ok i ->
  parse_precisions self values
    = Ok (Instrument.price_precision i, Instrument.size_precision i, Instrument.tick_size i) /\
  parse_asset_type values = Ok (Instrument.asset_type i) /\
  parse_base_currency self values = Ok (Instrument.base_currency i) /\
  parse_quote_currency self values = Ok (Instrument.quote_currency i) /\
  parse_quantity values "max" (Instrument.size_precision i) = Ok (Instrument.max_quantity i) /\
  parse_quantity values "min" (Instrument.size_precision i) = Ok (Instrument.min_quantity i) /\
  parse_notional values "max" (Instrument.quote_currency i) = Ok (Instrument.max_notional i) /\
  parse_notional values "min" (Instrument.quote_currency i) = Ok (Instrument.min_notional i) /\
  parse_price values "max" (Instrument.price_precision i) = Ok (Instrument.max_price i) /\
  parse_price values "min" (Instrument.price_precision i) = Ok (Instrument.min_price i) /\
  parse_fee values "maker" = Ok (Instrument.maker_fee i) /\
  parse_fee values "taker" = Ok (Instrument.taker_fee i) /\
  Instrument.settlement_currency i = Instrument.quote_currency i /\
  Instrument.asset_class i = AssetClass_CRYPTO /\
  Instrument.is_inverse i = false /\
  Instrument.multiplier i = PyDecimal.of_int 1 /\
  Instrument.leverage i = PyDecimal.of_int 1 /\
  Instrument.margin_init i = PyDecimal.zero /\
  Instrument.margin_maint i = PyDecimal.zero /\
  Instrument.financing i = nil.
Proof.
  unfold _parse_instrument. intros Hb.
  apply bind_Ok in Hb as ([[pp sp] tick] & Hprec & Hb).
  apply bind_Ok in Hb as (asset_type & Hat & Hb).
  apply bind_Ok in Hb as (base & Hbase & Hb).
  apply bind_Ok in Hb as (quote & Hquote & Hb).
  apply bind_Ok in Hb as (maxq & Hmaxq & Hb).
  apply bind_Ok in Hb as (minq & Hminq & Hb).
  apply bind_Ok in Hb as (lot & Hlot & Hb).
  apply bind_Ok in Hb as (mxn & Hmxn & Hb).
  apply bind_Ok in Hb as (mnn & Hmnn & Hb).
  apply bind_Ok in Hb as (mxp & Hmxp & Hb).
  apply bind_Ok in Hb as (mnp & Hmnp & Hb).
  apply bind_Ok in Hb as (maker & Hmk & Hb).
  apply bind_Ok in Hb as (taker & Htk & Hb).
  injection Hb as <-. simpl. repeat split; assumption.
Qed.

Lemma parse_notional_Ok values bound q n :
  parse_notional values bound q = Ok n ->
  exists raw, limit values "cost" bound = Ok raw /\
    n = if is_None raw then None else Some (Money.make raw q).
Proof.
  unfold parse_notional. intros Hq. apply bind_Ok in Hq as (raw & Hraw & Hq).
  exists raw. split; [assumption | congruence].
Qed.

Lemma parse_price_Ok values bound pp p :
  parse_price values bound pp = Ok p ->
  exists raw, limit values "cost" bound = Ok raw /\
    p = if is_None raw then None else Some (Price.make raw pp).
Proof.
  unfold parse_price. intros Hq. apply bind_Ok in Hq as (raw & Hraw & Hq).
  exists raw. split; [assumption | congruence].
Qed.

(** X1. The price bounds of a built instrument are read from [limits.cost],
    the block the notional bounds are read from: each price bound is
    there exactly when the notional bound is, and wraps the same number. *)
Theorem price_bounds_are_cost_limits `{Externals} self symbol values utcnow i :
  _parse_instrument self symbol values utcnow = Ok i ->
  exists cost_max cost_min,
    limit values "cost" "max" = Ok cost_max /\
    limit values "cost" "min" = Ok cost_min /\
    Instrument.max_notional i
      = (if is_None cost_max then None
         else Some (Money.make cost_max (Instrument.quote_currency i))) /\
    Instrument.max_price i
      = (if is_None cost_max then None
         else Some (Price.make cost_max (Instrument.price_precision i))) /\
    Instrument.min_notional i
      = (if is_None cost_min then None
         else Some (Money.make cost_min (Instrument.quote_currency i))) /\
    Instrument.min_price i
      = (if is_None cost_min then None
         else Some (Price.make cost_min (Instrument.price_precision i))).
Proof.
  intros Hb.
  apply parse_instrument_steps in Hb
    as (_ & _ & _ & _ & _ & _ & Hmxn & Hmnn & Hmxp & Hmnp & _).
  apply parse_notional_Ok in Hmxn as (mx & Hmx & Hxn).
  apply parse_notional_Ok in Hmnn as (mn & Hmn & Hnn).
  apply parse_price_Ok in Hmxp as (mx' & Hmx' & Hxp).
  apply parse_price_Ok in Hmnp as (mn' & Hmn' & Hnp).
  assert (mx' = mx) by congruence. assert (mn' = mn) by congruence. subst mx' mn'.
  exists mx, mn. auto 10.
Qed.

(** X2. The quantity bounds of a built instrument are [limits.amount.max] and
    [limits.amount.min], each wrapped at the size precision when it is
    there and absent otherwise. *)
Theorem quantity_bounds_are_amount_limits `{Externals} self symbol values utcnow i :
  _parse_instrument self symbol values utcnow = Ok i ->
  exists amount_max amount_min,
    limit values "amount" "max" = Ok amount_max /\
    limit values "amount" "min" = Ok amount_min /\
    Instrument.max_quantity i
      = (if is_None amount_max then None
         else Some (Quantity.of_value amount_max (Some (Instrument.size_precision i)))) /\
    Instrument.min_quantity i
      = (if is_None amount_min then None
         else Some (Quantity.of_value amount_min (Some (Instrument.size_precision i)))).
Proof.
  intros Hb.
  apply parse_instrument_steps in Hb as (_ & _ & _ & _ & Hmax & Hmin & _).
  apply parse_quantity_Ok in Hmax as (mx & Hmx & Hxq).
  apply parse_quantity_Ok in Hmin as (mn & Hmn & Hnq).
  exists mx, mn. auto.
Qed.

(** X3. What a built instrument holds whatever the market says: the asset
    class CRYPTO, the quote currency as settlement currency, no
    inversion, multiplier and leverage 1, no margins, no financing; and
    it keeps the raw market, the symbol and the time of parsing. *)
Theorem built_instrument_fixed_fields `{Externals} self symbol values utcnow i :
  _parse_instrument self symbol values utcnow = Ok i ->
  Instrument.asset_class i = AssetClass_CRYPTO /\
  Instrument.settlement_currency i = Instrument.quote_currency i /\
  Instrument.is_inverse i = false /\
  Instrument.multiplier i = PyDecimal.Finite false 1 0 /\
  Instrument.leverage i = PyDecimal.Finite false 1 0 /\
  Instrument.margin_init i = PyDecimal.Finite false 0 0 /\
  Instrument.margin_maint i = PyDecimal.Finite false 0 0 /\
  Instrument.financing i = nil /\
  Instrument.info i = values /\
  Instrument.symbol i = symbol /\
  Instrument.timestamp i = utcnow.
Proof.
  intros Hb. pose proof (parse_instrument_Ok _ _ _ _ _ Hb)
    as (mq & _ & _ & _ & _ & _ & _ & _ & Hinfo & Ht & Hs).
  apply parse_instrument_steps in Hb
    as (_ & _ & _ & _ & _ & _ & _ & _ & _ & _ & _ & _ & Hset & Hac & Hinv & Hmul & Hlev &
        Hmi & Hmm & Hfin).
  rewrite Hmul, Hlev, Hmi, Hmm. auto 12.
Qed.

(** ** Precisions of built instruments *)

Lemma tick_size_to_precision_nonneg x : 0 <= _tick_size_to_precision x.
Proof.
  unfold _tick_size_to_precision.
  destruct (PyStr.partition "." (PyFloat.str x)) as [[b m] a]. unfold PyStr.len. lia.
Qed.

Lemma decimal_places_tick_text_Ok v s :
  decimal_places_tick_text v = Ok s -> exists p, v = VInt p /\ 0 <= p <= 308.
Proof.
  unfold decimal_places_tick_text. destruct v as [|p|x|t|d]; try discriminate.
  - intros Hs. exists p. split; [reflexivity|].
    destruct (Z.leb_spec 0 p) as [H0|H0].
    + split; [exact H0|]. destruct (Z_le_gt_dec p 308) as [Hle|Hgt]; [exact Hle|].
      exfalso. fold (decimal_places_tick_text (VInt p)) in Hs.
      unfold decimal_places_tick_text in Hs.
      replace (0 <=? p) with true in Hs by (symmetry; apply Z.leb_le; lia).
      pose proof (decimal_places_tick_text_overflow p ltac:(lia)) as Ho.
      unfold decimal_places_tick_text in Ho.
      replace (0 <=? p) with true in Ho by (symmetry; apply Z.leb_le; lia).
      congruence.
    + exfalso. destruct (p <=? -324); discriminate.
  - destruct (float_power_outcome x); discriminate.
Qed.

Example tick_text_for_0 :
  decimal_places_tick_text (VInt 0) = Ok "1" /\
  PyDecimal.of_str "1" = Some (PyDecimal.Finite false 1 0).
Proof. split; vm_compute; reflexivity. Qed.

(** X5. Under DECIMAL_PLACES an instrument is only built from a price
    precision that is an [int] from 0 to 308; it keeps that count, its
    tick size is the decimal [1 * 10^(-p)], and its size precision is the
    [amount] entry as reported, or 8 when the precision block has no such
    key. *)
Theorem decimal_places_precisions `{Externals} self symbol values utcnow i ps :
  Exchange.precisionMode (_client self) = DECIMAL_PLACES ->
  PyDict.getitem values "precision" = Ok (VDict ps) ->
  _parse_instrument self symbol values utcnow = Ok i ->
  exists p,
    0 <= p <= 308 /\
    PyDict.lookup ps "price" = Some (VInt p) /\
    Instrument.price_precision i = VInt p /\
    Instrument.tick_size i = PyDecimal.Finite false 1 (- p) /\
    Instrument.size_precision i = default (VInt 8) (PyDict.lookup ps "amount").
Proof.
  intros Hmode Hget Hb.
  apply parse_instrument_steps in Hb as (Hprec & _).
  unfold parse_precisions in Hprec. rewrite Hget in Hprec. simpl in Hprec.
  rewrite Hmode in Hprec. simpl in Hprec.
  unfold PyDict.get, PyDict.get_default in Hprec. simpl in Hprec.
  destruct (decimal_places_tick_text (default VNone (PyDict.lookup ps "price")))
    as [text|e] eqn:Htext; [|discriminate].
  simpl in Hprec.
  destruct (decimal_places_tick_text_Ok _ _ Htext) as (p & Hv & Hp).
  exists p. split; [exact Hp|].
  assert (Hl : PyDict.lookup ps "price" = Some (VInt p)).
  { destruct (PyDict.lookup ps "price"); simpl in Hv; congruence. }
  split; [exact Hl|].
  rewrite Hv in Htext.
  assert (Htick : text = (if p =? 0 then "1" else exact_tick_text p) /\
                  PyDecimal.of_str text = Some (PyDecimal.Finite false 1 (- p))).
  { destruct (Z.eqb_spec p 0) as [->|Hne].
    - destruct tick_text_for_0 as [H0 H1]. rewrite H0 in Htext.
      injection Htext as <-. auto.
    - pose proof (tick_exact_in_range p ltac:(lia)) as Hex.
      unfold tick_exact in Hex. rewrite Z2Nat.id in Hex by lia. rewrite Htext in Hex.
      apply andb_prop in Hex as [Hs Hd]. apply String.eqb_eq in Hs. subst text.
      split; [reflexivity|].
      destruct (PyDecimal.of_str (exact_tick_text p)) as [[[] c e| |]|]; try discriminate.
      apply andb_prop in Hd as [Hd _]. apply andb_prop in Hd as [Hc He].
      apply Z.eqb_eq in Hc, He. subst c e. reflexivity. }
  destruct Htick as [_ Hof]. rewrite Hof in Hprec. simpl in Hprec.
  injection Hprec as Hpp Hsp Hts. rewrite <- Hpp, <- Hsp, <- Hts, Hv. auto.
Qed.

Example precision_of_zero : _tick_size_to_precision (S754_zero false) = 0.
Proof. vm_compute. reflexivity. Qed.

(** X6. Under TICK_SIZE both precisions of a built instrument are
    non-negative [int]s, the tick size is [Decimal] of the reported price
    tick, and the size precision is 0 when the precision block has no
    [amount] (or [None]). *)
Theorem tick_size_precisions `{Externals} self symbol values utcnow i ps :
  Exchange.precisionMode (_client self) = TICK_SIZE ->
  PyDict.getitem values "precision" = Ok (VDict ps) ->
  _parse_instrument self symbol values utcnow = Ok i ->
  (exists a b, Instrument.price_precision i = VInt a /\ 0 <= a /\
               Instrument.size_precision i = VInt b /\ 0 <= b) /\
  Decimal_new (default VNone (PyDict.lookup ps "price")) = Ok (Instrument.tick_size i) /\
  (default VNone (PyDict.lookup ps "amount") = VNone ->
   Instrument.size_precision i = VInt 0).
Proof.
  intros Hmode Hget Hb.
  apply parse_instrument_steps in Hb as (Hprec & _).
  unfold parse_precisions in Hprec. rewrite Hget in Hprec. simpl in Hprec.
  rewrite Hmode in Hprec. simpl in Hprec.
  unfold PyDict.get, PyDict.get_default in Hprec. simpl in Hprec.
  destruct (Decimal_new (default VNone (PyDict.lookup ps "price"))) as [tick|e] eqn:Htick;
    [|discriminate].
  simpl in Hprec.
  destruct (Decimal_as_double tick) as [x|e]; [|discriminate]. simpl in Hprec.
  destruct (as_double _) as [y|e] eqn:Hy; [|discriminate]. simpl in Hprec.
  injection Hprec as Hpp Hsp Hts. subst tick.
  split; [|split; [reflexivity|]].
  - exists (_tick_size_to_precision x), (_tick_size_to_precision y).
    rewrite <- Hpp, <- Hsp. auto using tick_size_to_precision_nonneg.
  - intros Hn. rewrite Hn in Hy. simpl in Hy.
    assert (y = S754_zero false) by (vm_compute in Hy; congruence). subst y.
    rewrite <- Hsp, precision_of_zero. reflexivity.
Qed.

(** X7. A precision mode that is neither DECIMAL_PLACES nor TICK_SIZE: no
    instrument is built, and once the precision block is read the build
    raises RuntimeError with the message that names the exchange. *)
Theorem unsupported_mode_raises_RuntimeError `{Externals} self symbol values utcnow :
  Exchange.precisionMode (_client self) <> DECIMAL_PLACES ->
  Exchange.precisionMode (_client self) <> TICK_SIZE ->
  raises (_parse_instrument self symbol values utcnow) /\
  (is_Ok (PyDict.getitem values "precision" ≫= PyDict.typed) ->
   _parse_instrument self symbol values utcnow
   = Raise (RuntimeError ("The " +:+ Exchange.name (_client self) +:+
                          " exchange is using SIGNIFICANT_DIGITS precision which is not " +:+
                          "currently supported in this version."))).
Proof.
  intros H2 H4. split.
  - apply parse_instrument_raises_if. left. apply parse_precisions_unsupported; assumption.
  - intros [p Hp]. apply parse_instrument_precisions_raise.
    unfold parse_precisions. rewrite Hp. simpl.
    destruct (Z.eqb_spec (Exchange.precisionMode (_client self)) 2) as [E2|_];
      [contradiction|].
    destruct (Z.eqb_spec (Exchange.precisionMode (_client self)) 4) as [E4|_];
      [contradiction|].
    reflexivity.
Qed.

(** ** Asset type *)

Lemma upper_char_idempotent c : PyStr.upper_char (PyStr.upper_char c) = PyStr.upper_char c.
Proof. destruct c as [[] [] [] [] [] [] [] []]; reflexivity. Qed.

Lemma upper_idempotent s : PyStr.upper (PyStr.upper s) = PyStr.upper s.
Proof. induction s as [|c s IH]; simpl; [reflexivity|]. rewrite upper_char_idempotent, IH. reflexivity. Qed.

(** X8. The asset type is [AssetType.UNDEFINED] when the market has no
    [type] (or [None]); a [type] string is parsed in upper case, so two
    spellings that differ in the case of ASCII letters give the same
    asset type; a [type] that is not a string makes the build raise
    AttributeError at that step. *)
Theorem asset_type_ignores_case `{Externals} :
  (forall items,
     default VNone (PyDict.lookup items "type") = VNone ->
     parse_asset_type (VDict items) = Ok AssetType_UNDEFINED) /\
  (forall items1 items2 s1 s2,
     PyDict.lookup items1 "type" = Some (VStr s1) ->
     PyDict.lookup items2 "type" = Some (VStr s2) ->
     PyStr.upper s1 = PyStr.upper s2 ->
     parse_asset_type (VDict items1) = parse_asset_type (VDict items2)) /\
  (forall items s,
     PyDict.lookup items "type" = Some (VStr s) ->
     parse_asset_type (VDict items) = AssetTypeParser_from_str (PyStr.upper s) /\
     PyStr.upper (PyStr.upper s) = PyStr.upper s) /\
  (forall items v,
     PyDict.lookup items "type" = Some v ->
     (forall s, v <> VStr s) -> v <> VNone ->
     parse_asset_type (VDict items) = Raise (AttributeError "upper")).
Proof.
  split; [|split; [|split]].
  - intros items Hn. unfold parse_asset_type. simpl. rewrite Hn. reflexivity.
  - intros items1 items2 s1 s2 H1 H2 Hu. unfold parse_asset_type. simpl.
    rewrite H1, H2. simpl. rewrite Hu. reflexivity.
  - intros items s Hl. split; [|apply upper_idempotent].
    unfold parse_asset_type. simpl. rewrite Hl. reflexivity.
  - intros items v Hl Hs Hn. unfold parse_asset_type. simpl. rewrite Hl. simpl.
    destruct v; try reflexivity; [contradiction | exfalso; eapply Hs; reflexivity].
Qed.

(** ** Which currency a code resolves to *)

(** X9. A code that the table of well-known currencies has resolves to the
    table's currency, whatever the provider's cache holds under it; any
    other code resolves to the cached currency.  So are the quote and the
    base currency of a built instrument. *)
Theorem well_known_currency_first `{Externals} self :
  (forall code c, Currency_from_str_c (Some code) = Some c ->
     resolve_currency self (VStr code) = Ok c) /\
  (forall code c, Currency_from_str_c (Some code) = None ->
     _currencies self !! code = Some c ->
     resolve_currency self (VStr code) = Ok c) /\
  (forall symbol items utcnow i code,
     _parse_instrument self symbol (VDict items) utcnow = Ok i ->
     PyDict.lookup items "quote" = Some (VStr code) ->
     resolve_currency self (VStr code) = Ok (Instrument.quote_currency i)) /\
  (forall symbol items utcnow i code,
     _parse_instrument self symbol (VDict items) utcnow = Ok i ->
     PyDict.lookup items "base" = Some (VStr code) ->
     (Some <$> resolve_currency self (VStr code)) = Ok (Instrument.base_currency i)).
Proof.
  repeat split.
  - intros code c Hc. unfold resolve_currency. rewrite Hc. reflexivity.
  - intros code c Hn Hc. unfold resolve_currency. rewrite Hn, Hc. reflexivity.
  - intros symbol items utcnow i code Hb Hq.
    apply parse_instrument_steps in Hb as (_ & _ & _ & Hquote & _).
    unfold parse_quote_currency in Hquote. simpl in Hquote. rewrite Hq in Hquote.
    exact Hquote.
  - intros symbol items utcnow i code Hb Hbs.
    apply parse_instrument_steps in Hb as (_ & _ & Hbase & _).
    unfold parse_base_currency in Hbase. simpl in Hbase. rewrite Hbs in Hbase.
    exact Hbase.
Qed.
(** ** [int] precisions through [double] *)




(** ** The tick-size rule on the text of a float *)

Lemma partition_cons c s :
  Ascii.eqb c "." = false ->
  PyStr.partition "." s = (s, "", "") ->
  PyStr.partition "." (String c s) = (String c s, "", "").
Proof. intros Hc Hs. simpl. rewrite Hc, Hs. reflexivity. Qed.

Lemma partition_app a b :
  PyStr.partition "." a = (a, "", "") ->
  PyStr.partition "." b = (b, "", "") ->
  PyStr.partition "." (a +:+ b) = (a +:+ b, "", "").
Proof.
  revert b. induction a as [|c a IH]; intros b Ha Hb; simpl; [exact Hb|].
  simpl in Ha. destruct (Ascii.eqb c ".") eqn:Hc; [discriminate|].
  destruct (PyStr.partition "." a) as [[x y] z] eqn:Hp.
  injection Ha as -> -> ->. rewrite (IH b eq_refl Hb). reflexivity.
Qed.

Lemma digit_char_no_point n : Ascii.eqb (PyStr.digit_char (n mod 10)) "." = false.
Proof.
  pose proof (Z.mod_pos_bound n 10 ltac:(lia)) as Hb.
  assert (Hall : forallb (fun d => negb (Ascii.eqb (PyStr.digit_char (Z.of_nat d)) "."))
                   (seq 0 10) = true) by reflexivity.
  rewrite forallb_forall in Hall.
  specialize (Hall (Z.to_nat (n mod 10))). rewrite Z2Nat.id in Hall by lia.
  apply negb_true_iff, Hall, in_seq. lia.
Qed.

Lemma digits_acc_no_point fuel : forall n acc,
  PyStr.partition "." acc = (acc, "", "") ->
  PyStr.partition "." (PyStr.digits_acc fuel n acc) = (PyStr.digits_acc fuel n acc, "", "").
Proof.
  induction fuel as [|fuel IH]; intros n acc Hacc; simpl; [exact Hacc|].
  assert (H1 : PyStr.partition "." (String (PyStr.digit_char (n mod 10)) acc)
               = (String (PyStr.digit_char (n mod 10)) acc, "", ""))
    by (apply partition_cons; [apply digit_char_no_point | exact Hacc]).
  destruct (n / 10 =? 0); [exact H1 | apply IH, H1].
Qed.

Lemma of_nonneg_no_point n :
  PyStr.partition "." (PyStr.of_nonneg n) = (PyStr.of_nonneg n, "", "").
Proof. apply digits_acc_no_point. reflexivity. Qed.

Lemma exponent_text_no_point x :
  PyStr.partition "." (PyFloat.exponent_text x) = (PyFloat.exponent_text x, "", "").
Proof.
  unfold PyFloat.exponent_text.
  apply partition_app; [destruct (x <? 0); reflexivity|].
  apply partition_app; [destruct (Z.abs x <? 10); reflexivity|].
  apply of_nonneg_no_point.
Qed.

Lemma tick_size_to_precision_sign s m e :
  _tick_size_to_precision (S754_finite s m e) = _tick_size_to_precision (S754_finite false m e).
Proof.
  destruct s; [|reflexivity]. unfold _tick_size_to_precision. simpl.
  destruct (PyFloat.shortest_digits m e) as [ds decpt].
  set (body := PyFloat.repr_digits ds decpt). unfold PyFloat.sign_text.
  change ("-" +:+ body) with (String "-" body). change ("" +:+ body) with body.
  simpl. destruct (PyStr.partition "." body) as [[b md] a]. reflexivity.
Qed.

(** X10. A float that [str] prints in scientific notation with one significant
    digit ([1e-05], [5e-07], [1e+16], ...) has no point in its text, and
    the tick-size rule gives it the precision 0, whatever its sign;
    [shortest_digits] only produces decimal digits. *)
Theorem tick_precision_scientific_single_digit s m e d decpt :
  PyFloat.shortest_digits m e = (String d "", decpt) ->
  decpt <= -4 \/ 16 < decpt ->
  PyFloat.str (S754_finite false m e) = String d ("e" +:+ PyFloat.exponent_text (decpt - 1)) /\
  _tick_size_to_precision (S754_finite s m e) = 0 /\
  _get_precision (S754_finite s m e) TICK_SIZE = Ok 0.
Proof.
  intros Hd Hr.
  assert (Hsci : (decpt <=? -4) || (16 <? decpt) = true).
  { apply orb_true_iff. destruct Hr; [left; apply Z.leb_le | right; apply Z.ltb_lt]; lia. }
  assert (Hstr : PyFloat.str (S754_finite false m e)
                 = String d ("e" +:+ PyFloat.exponent_text (decpt - 1))).
  { simpl. rewrite Hd. unfold PyFloat.repr_digits. rewrite Hsci. reflexivity. }
  assert (Hdig : Ascii.eqb d "." = false).
  { unfold PyFloat.shortest_digits in Hd.
    destruct (PyFloat.shortest_from _ _ _ _ _) as [d0 k0].
    destruct (PyFloat.strip_zeros _ _ _) as [d1 k1].
    injection Hd as Hds _. unfold PyStr.of_nonneg in Hds.
    pose proof (of_nonneg_no_point d1) as Hp. unfold PyStr.of_nonneg in Hp.
    rewrite Hds in Hp. simpl in Hp. destruct (Ascii.eqb d "."); [discriminate|reflexivity]. }
  assert (Htick : _tick_size_to_precision (S754_finite s m e) = 0).
  { rewrite tick_size_to_precision_sign. unfold _tick_size_to_precision. rewrite Hstr.
    rewrite partition_cons; [reflexivity | exact Hdig |].
    apply (partition_app "e"); [reflexivity | apply exponent_text_no_point]. }
  split; [exact Hstr|]. split; [exact Htick|].
  unfold _get_precision. simpl. rewrite Htick. reflexivity.
Qed.

(** X11. The tick-size rule does not look at the sign of the tick, and gives 0
    for zeros, infinities and NaN. *)
Theorem tick_precision_ignores_sign :
  (forall m e, _tick_size_to_precision (S754_finite true m e)
               = _tick_size_to_precision (S754_finite false m e)) /\
  (forall s, _tick_size_to_precision (S754_zero s) = 0) /\
  (forall s, _tick_size_to_precision (S754_infinity s) = 0) /\
  _tick_size_to_precision S754_nan = 0.
Proof.
  split; [intros m e; apply tick_size_to_precision_sign|].
  repeat split; try (intros []; reflexivity).
Qed.

(** ** Currencies *)






(** ** The count and the loads that fail early *)

Lemma size_instruments_mono w w' :
  (forall c, is_Some (instruments w !! c) -> is_Some (instruments w' !! c)) ->
  (size (instruments w) <= size (instruments w'))%nat.
Proof.
  intros Hk. rewrite <- !size_dom. apply subseteq_size.
  intros c Hc. apply elem_of_dom. apply Hk. apply elem_of_dom. exact Hc.
Qed.

Lemma load_currencies_count `{Externals} w r w' :
  _load_currencies w = (r, w') ->
  count (provider w') = count (provider w) /\ instruments w' = instruments w /\
  venue (provider w') = venue (provider w).
Proof.
  unfold _load_currencies. destruct (_load_currencies_loop _ _ _) as [r0 cs].
  intros Hl. injection Hl as _ <-. auto.
Qed.

Lemma load_instruments_count `{Externals} clock w r w' :
  _load_instruments clock w = (r, w') ->
  match r with
  | Ok _ => count (provider w') = Z.of_nat (size (instruments w'))
  | Raise _ => count (provider w') = count (provider w)
  end.
Proof.
  unfold _load_instruments.
  destruct (_load_instruments_loop _ _ _ _) as [[u|e] w1] eqn:Hloop; intros Hl;
    injection Hl as <- <-.
  - simpl. rewrite instruments_with_provider by reflexivity. reflexivity.
  - apply load_instruments_loop_frame in Hloop as (Hp & _). rewrite Hp. reflexivity.
Qed.

Lemma load_all_count `{Externals} fetched clock w r w' :
  load_all fetched clock w = (r, w') ->
  match r with
  | Ok _ => count (provider w') = Z.of_nat (size (instruments w'))
  | Raise _ => count (provider w') = count (provider w)
  end.
Proof.
  unfold load_all. destruct fetched as [client|e0].
  - destruct (_load_currencies _) as [[u|e] w1] eqn:Hc.
    + intros Hl. pose proof (load_instruments_count _ _ _ _ Hl) as Hn.
      apply load_currencies_count in Hc as (Hcount & _).
      destruct r; [exact Hn|]. rewrite Hn, Hcount. reflexivity.
    + intros Hl. injection Hl as <- <-.
      apply load_currencies_count in Hc as (Hcount & _). exact Hcount.
  - intros Hl. injection Hl as <- <-. reflexivity.
Qed.

(** X15. [count] is the number of cached instruments after every load that
    returns, and is left as it was by a load that raises; so over any run
    of loads on a new provider, failed ones included, the count is never
    negative and never above the number of cached instruments. *)
Theorem count_tracks_cached_instruments `{Externals} :
  (forall fetched clock w u w',
     load_all fetched clock w = (Ok u, w') ->
     count (provider w') = Z.of_nat (size (instruments w'))) /\
  (forall fetched clock w e w',
     load_all fetched clock w = (Raise e, w') ->
     count (provider w') = count (provider w)) /\
  (forall client h loads,
     0 <= count (provider (after_loads loads (init client h)))
       <= Z.of_nat (size (instruments (after_loads loads (init client h))))).
Proof.
  split; [|split].
  - intros fetched clock w u w' Hl. apply (load_all_count _ _ _ _ _ Hl).
  - intros fetched clock w e w' Hl. apply (load_all_count _ _ _ _ _ Hl).
  - intros client h loads.
    assert (Hinv : forall w, 0 <= count (provider w) <= Z.of_nat (size (instruments w)) ->
              0 <= count (provider (after_loads loads w))
                <= Z.of_nat (size (instruments (after_loads loads w)))).
    { induction loads as [|[fetched clock] loads IH]; intros w Hw; [exact Hw|].
      unfold after_loads. simpl. apply IH.
      destruct (load_all fetched clock w) as [r w1] eqn:Hl. simpl.
      pose proof (load_all_count _ _ _ _ _ Hl) as Hc.
      destruct r as [u|e]; [lia|].
      apply load_all_keeps in Hl as (Hk & _).
      pose proof (size_instruments_mono _ _ Hk). lia. }
    apply Hinv. unfold init, instruments, contents. simpl.
    rewrite lookup_insert_eq. simpl. rewrite map_size_empty. lia.
Qed.

(** X16. A load whose fetch raises leaves the provider as it was.  A load
    that fails while the currencies are loaded raises that exception
    before any instrument is parsed: the instrument dictionary and the
    count are as before, while the client is the refreshed one. *)
Theorem load_all_fails_before_instruments `{Externals} clock w e :
  load_all (Raise e) clock w = (Raise e, w) /\
  (forall client w1,
     _load_currencies (with_provider (set_client client) w) = (Raise e, w1) ->
     load_all (Ok client) clock w = (Raise e, w1) /\
     objects w1 = objects w /\
     instruments w1 = instruments w /\
     count (provider w1) = count (provider w) /\
     _client (provider w1) = client).
Proof.
  split; [reflexivity|]. intros client w1 Hc.
  split; [unfold load_all; rewrite Hc; reflexivity|].
  pose proof (load_currencies_frame _ _ _ Hc) as (Hobj & Hins & Hcl & _).
  pose proof (load_currencies_count _ _ _ Hc) as (Hcount & Hi & _).
  simpl in *.
  assert (Hi' : instruments w1 = instruments w).
  { rewrite Hi. apply instruments_with_provider. reflexivity. }
  split; [exact Hobj|]. split; [exact Hi'|]. split; [exact Hcount|exact Hcl].
Qed.
(** X17. A market entry that is not a dictionary raises TypeError: at the
    assignment to [cdef dict v], or for [None] at [values["precision"]].
    When it is the first entry, [_load_instruments] raises TypeError and
    leaves the provider as it was. *)
Theorem market_entry_must_be_a_dictionary `{Externals} k v w :
  (forall items, v <> VDict items) ->
  (forall utcnow, load_instrument utcnow k v w = Raise TypeError) /\
  (forall clock post,
     Exchange.markets (_client (provider w)) = (k, v) :: post ->
     _load_instruments clock w = (Raise TypeError, w)).
Proof.
  intros Hv.
  assert (Hl : forall utcnow, load_instrument utcnow k v w = Raise TypeError).
  { intros utcnow. unfold load_instrument.
    destruct v; try reflexivity. exfalso. eapply Hv. reflexivity. }
  split; [exact Hl|].
  intros clock post Hm. unfold _load_instruments. rewrite Hm. simpl. rewrite Hl. reflexivity.
Qed.

(** ** One dictionary per provider *)

Lemma load_instruments_loop_objects `{Externals} items : forall clock i0 w r w',
  _load_instruments_loop clock i0 items w = (r, w') ->
  forall l, l <> _instruments (provider w) -> objects w' !! l = objects w !! l.
Proof.
  induction items as [|[k v] items IH]; intros clock i0 w r w' Hl l Hne; simpl in Hl.
  - injection Hl as _ <-. reflexivity.
  - destruct (load_instrument (clock i0) k v w) as [ins|e].
    + rewrite (IH _ _ _ _ _ Hl l) by exact Hne.
      unfold setitem_instruments. simpl. apply lookup_insert_ne. congruence.
    + injection Hl as _ <-. reflexivity.
Qed.

Lemma load_all_objects `{Externals} fetched clock w r w' :
  load_all fetched clock w = (r, w') ->
  _instruments (provider w') = _instruments (provider w) /\
  forall l, l <> _instruments (provider w) -> objects w' !! l = objects w !! l.
Proof.
  unfold load_all. destruct fetched as [client|e0].
  - destruct (_load_currencies _) as [rc w1] eqn:Hc.
    apply load_currencies_frame in Hc as (Hobj & Hins & _). simpl in Hobj, Hins.
    assert (Hstep : forall r2 w2, _load_instruments clock w1 = (r2, w2) ->
              _instruments (provider w2) = _instruments (provider w) /\
              forall l, l <> _instruments (provider w) -> objects w2 !! l = objects w !! l).
    { intros r2 w2 Hl. pose proof (load_instruments_frame _ _ _ _ Hl) as (_ & Hi & _).
      split; [congruence|]. intros l Hne.
      unfold _load_instruments in Hl.
      destruct (_load_instruments_loop _ _ _ _) as [[u|e] w3] eqn:Hloop;
        injection Hl as _ <-; simpl;
        rewrite (load_instruments_loop_objects _ _ _ _ _ _ Hloop l) by congruence;
        rewrite Hobj; reflexivity. }
    destruct rc as [u|e]; intros Hl.
    + apply Hstep in Hl. exact Hl.
    + injection Hl as _ <-. split; [exact Hins|]. intros l _. rewrite Hobj. reflexivity.
  - intros Hl. injection Hl as _ <-. auto.
Qed.

(** X18. A new provider has the count 0, the upper-cased client name as its
    venue and nothing cached; its instrument dictionary is a new object,
    and the objects that existed keep their contents.  So no load of a
    provider created later changes what an earlier provider holds. *)
Theorem providers_do_not_share_instruments `{Externals} :
  (forall client h,
     count (provider (init client h)) = 0 /\
     venue (provider (init client h)) = Venue.make (PyStr.upper (Exchange.name client)) /\
     (forall code, get_c code (init client h) = None /\ currency code (init client h) = None) /\
     (_instruments (provider (init client h)) ∉ dom h) /\
     (forall l, l ∈ dom h -> objects (init client h) !! l = h !! l)) /\
  (forall w1 client fetched clock r w2,
     allocated w1 ->
     load_all fetched clock (init client (objects w1)) = (r, w2) ->
     instruments {| objects := objects w2; provider := provider w1 |} = instruments w1).
Proof.
  split.
  - intros client h. unfold init, get_c, currency, instruments, contents. simpl.
    split; [reflexivity|]. split; [reflexivity|].
    split; [|split].
    + intros code. rewrite lookup_insert_eq. simpl. split; apply lookup_empty.
    + apply is_fresh.
    + intros l Hl. apply lookup_insert_ne. intros <-. revert Hl. apply is_fresh.
  - intros w1 client fetched clock r w2 Ha Hl.
    apply load_all_objects in Hl as (_ & Hframe).
    unfold instruments, contents. simpl.
    assert (Hne : _instruments (provider w1) <> fresh (dom (objects w1))).
    { intros Heq. destruct Ha as [m Hm].
      assert (Hin : _instruments (provider w1) ∈ dom (objects w1))
        by (apply elem_of_dom; eexists; exact Hm).
      rewrite Heq in Hin. revert Hin. apply is_fresh. }
    rewrite Hframe by exact Hne. simpl.
    rewrite lookup_insert_ne by congruence. reflexivity.
Qed.

(* ===================================================================== *)
(** * Properties of the logger *)
(* ===================================================================== *)

Section Logger.
Import Logging.
Context `{Imports}.

Lemma in_memory_log_store_frame lvl s w :
  logger (_in_memory_log_store lvl s w) = logger w /\
  console (_in_memory_log_store lvl s w) = console w /\
  file (_in_memory_log_store lvl s w) = file w /\
  store (_in_memory_log_store lvl s w)
  = (store w ++ (if _log_level_store (logger w) <=? lvl then s :: nil else nil))%list /\
  forall l, l <> _log_store (logger w) ->
    list_at (_in_memory_log_store lvl s w) l = list_at w l.
Proof.
  unfold _in_memory_log_store. destruct (_log_level_store (logger w) <=? lvl).
  - repeat split.
    + unfold store, list_at. simpl. rewrite lookup_insert_eq. reflexivity.
    + intros l Hl. unfold list_at. simpl. rewrite lookup_insert_ne by congruence. reflexivity.
  - repeat split. rewrite app_nil_r. reflexivity.
Qed.

Lemma print_to_console_frame lvl s w :
  logger (_print_to_console lvl s w) = logger w /\
  lists (_print_to_console lvl s w) = lists w /\
  file (_print_to_console lvl s w) = file w /\
  console (_print_to_console lvl s w)
  = (console w ++ (if _console_prints (logger w) && (_log_level_console (logger w) <=? lvl)
                   then s :: nil else nil))%list.
Proof.
  unfold _print_to_console.
  destruct (_console_prints (logger w) && (_log_level_console (logger w) <=? lvl)).
  - repeat split.
  - repeat split. rewrite app_nil_r. reflexivity.
Qed.

(** What one [_log] leaves behind, channel by channel. *)
Lemma log_effect handler message w :
  let to_file := _log_to_file (logger w) && (_log_level_file (logger w) <=? level message) in
  let shown lvl := _console_prints (logger w) && (_log_level_console (logger w) <=? lvl) in
  logger (_log handler message w).2 = logger w /\
  store (_log handler message w).2
  = (store w ++ (if _log_level_store (logger w) <=? level message
                 then _format_output (logger w) message :: nil else nil))%list /\
  (forall l, l <> _log_store (logger w) -> list_at (_log handler message w).2 l = list_at w l) /\
  console (_log handler message w).2
  = (console w ++
     (if shown (level message) then _format_output (logger w) message :: nil else nil) ++
     (match handler with
      | IOError ex => if to_file && shown LogLevel_ERROR
                      then ("IOError: " +:+ ex +:+ ".") :: nil else nil
      | _ => nil
      end))%list /\
  file (_log handler message w).2
  = (file w ++ (match handler with
                | Written => if to_file then as_string message :: nil else nil
                | _ => nil
                end))%list /\
  (_log handler message w).1
  = (match handler with
     | Failed e => if to_file then Raised (Other e) else Done tt
     | _ => Done tt
     end).
Proof.
  intros to_file shown. unfold _log.
  set (fm := _format_output (logger w) message).
  set (w1 := _in_memory_log_store (level message) fm w).
  set (w2 := _print_to_console (level message) fm w1).
  destruct (in_memory_log_store_frame (level message) fm w)
    as (Hl1 & Hc1 & Hf1 & Hs1 & Ho1). fold w1 in Hl1, Hc1, Hf1, Hs1, Ho1.
  destruct (print_to_console_frame (level message) fm w1) as (Hl2 & Hli2 & Hf2 & Hc2).
  fold w2 in Hl2, Hli2, Hf2, Hc2.
  assert (Hlog : logger w2 = logger w) by congruence.
  assert (Hstore : store w2 = (store w ++ (if _log_level_store (logger w) <=? level message
                                           then fm :: nil else nil))%list).
  { rewrite <- Hs1. unfold store, list_at. rewrite Hli2, Hlog, Hl1. reflexivity. }
  assert (Hother : forall l, l <> _log_store (logger w) -> list_at w2 l = list_at w l).
  { intros l Hne. rewrite <- (Ho1 l Hne). unfold list_at. rewrite Hli2. reflexivity. }
  assert (Hcons : console w2 = (console w ++ (if shown (level message) then fm :: nil else nil))%list).
  { rewrite Hc2, Hc1, Hl1. reflexivity. }
  assert (Hfile : file w2 = file w) by congruence.
  replace (_log_to_file (logger w2) && (_log_level_file (logger w2) <=? level message))
    with to_file by (unfold to_file; rewrite Hlog; reflexivity).
  destruct to_file; [destruct handler as [|ex|e]|]; simpl.
  - rewrite Hcons, Hfile, !app_nil_r.
    split; [exact Hlog|]. split; [exact Hstore|]. split; [exact Hother|]. repeat split.
  - destruct (print_to_console_frame LogLevel_ERROR ("IOError: " +:+ ex +:+ ".") w2)
      as (Hl3 & Hli3 & Hf3 & Hc3).
    set (w3 := _print_to_console LogLevel_ERROR ("IOError: " +:+ ex +:+ ".") w2) in *.
    split; [congruence|].
    split; [unfold store, list_at; rewrite Hli3, Hl3; exact Hstore|].
    split; [intros l Hne; unfold list_at; rewrite Hli3; apply (Hother l Hne)|].
    split; [|split; [rewrite Hf3, Hfile, app_nil_r; reflexivity | reflexivity]].
    rewrite Hc3, Hcons, Hlog, <- app_assoc. reflexivity.
  - rewrite Hcons, Hfile, !app_nil_r.
    split; [exact Hlog|]. split; [exact Hstore|]. split; [exact Hother|]. repeat split.
  - split; [exact Hlog|]. split; [exact Hstore|]. split; [exact Hother|].
    rewrite Hcons, Hfile. destruct handler; rewrite !app_nil_r; repeat split.
Qed.

Lemma log_all_cons entry entries w :
  log_all (entry :: entries) w = log_all entries (log entry.1 (Some entry.2) w).2.
Proof. reflexivity. Qed.

Lemma log_all_logger entries : forall w,
  class_ (logger w) = TestLogger_class -> logger (log_all entries w) = logger w.
Proof.
  induction entries as [|[h m] entries IH]; intros w Hc; [reflexivity|].
  rewrite log_all_cons. simpl. unfold log. rewrite Hc.
  destruct (log_effect h m w) as (Hl & _). rewrite IH; [exact Hl | rewrite Hl; exact Hc].
Qed.
(** X19. Over any run of [log] calls on a [TestLogger], whatever the
    file handler does, the store is what it was followed by the
    formatted text of exactly the messages whose level reaches the store
    level, in the order they were logged; the logger's settings are not
    changed. *)
Theorem store_holds_filtered_messages entries w :
  class_ (logger w) = TestLogger_class ->
  store (log_all entries w)
  = (store w ++
     map (_format_output (logger w))
         (List.filter (fun m => _log_level_store (logger w) <=? level m) (map snd entries)))%list /\
  logger (log_all entries w) = logger w.
Proof.
  intros Hc. split; [|apply log_all_logger, Hc].
  revert w Hc. induction entries as [|[h m] entries IH]; intros w Hc.
  - simpl. rewrite app_nil_r. reflexivity.
  - rewrite log_all_cons. simpl fst. simpl snd.
    assert (Hlog : log h (Some m) w = _log h m w) by (unfold log; rewrite Hc; reflexivity).
    rewrite Hlog. destruct (log_effect h m w) as (Hl & Hs & _).
    rewrite IH by (rewrite Hl; exact Hc). rewrite Hs, Hl. simpl.
    destruct (_log_level_store (logger w) <=? level m); simpl.
    + rewrite <- app_assoc. reflexivity.
    + rewrite app_nil_r. reflexivity.
Qed.

(** X20. A logger with [console_prints] off prints nothing, not even
    the report of a failed file write.  A logger that prints and does not
    log to a file prints the formatted text of exactly the messages whose
    level reaches the console level, in order. *)
Theorem console_shows_messages_from_console_level entries w :
  class_ (logger w) = TestLogger_class ->
  (_console_prints (logger w) = false -> console (log_all entries w) = console w) /\
  (_console_prints (logger w) = true -> _log_to_file (logger w) = false ->
   console (log_all entries w)
   = (console w ++
      map (_format_output (logger w))
          (List.filter (fun m => _log_level_console (logger w) <=? level m)
                       (map snd entries)))%list).
Proof.
  intros Hc. split.
  - intros Hoff. revert w Hc Hoff. induction entries as [|[h m] entries IH]; intros w Hc Hoff.
    + reflexivity.
    + rewrite log_all_cons. simpl fst. simpl snd.
      assert (Hlog : log h (Some m) w = _log h m w) by (unfold log; rewrite Hc; reflexivity).
      rewrite Hlog. destruct (log_effect h m w) as (Hl & _ & _ & Hcons & _).
      rewrite IH by (rewrite Hl; assumption). rewrite Hcons, Hoff. simpl.
      rewrite andb_false_r. destruct h; rewrite !app_nil_r; reflexivity.
  - intros Hon Hnofile. revert w Hc Hon Hnofile.
    induction entries as [|[h m] entries IH]; intros w Hc Hon Hnofile.
    + simpl. rewrite app_nil_r. reflexivity.
    + rewrite log_all_cons. simpl fst. simpl snd.
      assert (Hlog : log h (Some m) w = _log h m w) by (unfold log; rewrite Hc; reflexivity).
      rewrite Hlog. destruct (log_effect h m w) as (Hl & _ & _ & Hcons & _).
      rewrite IH by (rewrite Hl; assumption). rewrite Hcons, Hl, Hon, Hnofile. simpl.
      destruct (_log_level_console (logger w) <=? level m); destruct h; simpl;
        rewrite ?app_nil_r, <- ?app_assoc; reflexivity.
Qed.

(** X21. An IOError of the file handler is not raised: [_log] returns,
    the message is stored and printed as if the write had succeeded,
    nothing is added to the file, and the console gets the line
    [IOError: <text>.] only if the logger prints and its console level
    does not exceed ERROR.  Any other exception of the handler is raised,
    after the message was stored and printed.  The handler is only used
    when [log_to_file] is set and the level reaches the file level. *)
Theorem file_failure_is_not_raised message w ex :
  (_log (IOError ex) message w).1 = Done tt /\
  store (_log (IOError ex) message w).2 = store (_log Written message w).2 /\
  file (_log (IOError ex) message w).2 = file w /\
  (_console_prints (logger w) && (_log_level_console (logger w) <=? LogLevel_ERROR) = false ->
   console (_log (IOError ex) message w).2 = console (_log Written message w).2) /\
  (_log_to_file (logger w) && (_log_level_file (logger w) <=? level message) = true ->
   _console_prints (logger w) && (_log_level_console (logger w) <=? LogLevel_ERROR) = true ->
   console (_log (IOError ex) message w).2
   = (console (_log Written message w).2 ++ ("IOError: " +:+ ex +:+ ".") :: nil)%list) /\
  (forall e,
     store (_log (Failed e) message w).2 = store (_log Written message w).2 /\
     console (_log (Failed e) message w).2 = console (_log Written message w).2 /\
     (_log_to_file (logger w) && (_log_level_file (logger w) <=? level message) = true ->
      (_log (Failed e) message w).1 = Raised (Other e))) /\
  (_log_to_file (logger w) && (_log_level_file (logger w) <=? level message) = false ->
   forall handler, _log handler message w = _log Written message w /\
                   file (_log handler message w).2 = file w).
Proof.
  destruct (log_effect (IOError ex) message w) as (_ & Hs1 & _ & Hc1 & Hf1 & Hr1).
  destruct (log_effect Written message w) as (_ & Hs2 & _ & Hc2 & Hf2 & _).
  simpl in Hc1, Hf1, Hr1, Hc2, Hf2.
  split; [exact Hr1|]. split; [congruence|].
  split; [rewrite Hf1, app_nil_r; reflexivity|].
  split; [|split; [|split]].
  - intros Hoff. rewrite Hc1, Hc2, Hoff, andb_false_r. reflexivity.
  - intros Hfile Hon. rewrite Hc1, Hc2, Hfile, Hon. simpl.
    rewrite app_nil_r, <- app_assoc. reflexivity.
  - intros e. destruct (log_effect (Failed e) message w) as (_ & Hs3 & _ & Hc3 & _ & Hr3).
    simpl in Hc3, Hr3. split; [congruence|]. split; [congruence|].
    intros Hfile. rewrite Hr3, Hfile. reflexivity.
  - intros Hnofile handler. split.
    + unfold _log. set (w1 := _print_to_console _ _ _).
      assert (Hl : logger w1 = logger w).
      { unfold w1. destruct (print_to_console_frame (level message)
                               (_format_output (logger w) message)
                               (_in_memory_log_store (level message)
                                  (_format_output (logger w) message) w)) as (-> & _).
        apply in_memory_log_store_frame. }
      rewrite Hl, Hnofile. reflexivity.
    + destruct (log_effect handler message w) as (_ & _ & _ & _ & Hf & _).
      simpl in Hf. rewrite Hf, Hnofile. destruct handler; apply app_nil_r.
Qed.

(** X22. A bypassed adapter never reaches its logger: each of its
    methods returns and leaves the logger, the store, the console and the
    file as they were, though a message that is [None] is still refused.
    An adapter that is not bypassed logs, at the level of the method, the
    text [<component name>: <message>] with the clock's time and the
    thread's identifier; over a base [Logger] this raises
    NotImplementedError. *)
Theorem adapter_bypass_and_prefix self now ident handler w :
  (bypassed self = true ->
   forall message ex st,
     verbose self (Some message) now ident handler w = (Done tt, w) /\
     debug self (Some message) now ident handler w = (Done tt, w) /\
     info self (Some message) now ident handler w = (Done tt, w) /\
     warning self (Some message) now ident handler w = (Done tt, w) /\
     error self (Some message) now ident handler w = (Done tt, w) /\
     critical self (Some message) now ident handler w = (Done tt, w) /\
     exception self (Some ex) st now ident handler w = (Done tt, w) /\
     error self None now ident handler w = (Raised (ConditionFailed "message"), w) /\
     exception self None st now ident handler w = (Raised (ConditionFailed "ex"), w)) /\
  (bypassed self = false -> class_ (logger w) = TestLogger_class ->
   forall message,
     let logged lvl := _log handler {| timestamp := now; level := lvl;
                                       text := component_name self +:+ ": " +:+ message;
                                       thread_id := ident |} w in
     verbose self (Some message) now ident handler w = logged LogLevel_VERBOSE /\
     debug self (Some message) now ident handler w = logged LogLevel_DEBUG /\
     info self (Some message) now ident handler w = logged LogLevel_INFO /\
     warning self (Some message) now ident handler w = logged LogLevel_WARNING /\
     error self (Some message) now ident handler w = logged LogLevel_ERROR /\
     critical self (Some message) now ident handler w = logged LogLevel_CRITICAL) /\
  (bypassed self = false -> class_ (logger w) = Logger_class ->
   forall message,
     let refused :=
       (Raised (NotImplementedError "Method must be implemented in the subclass."), w) in
     verbose self (Some message) now ident handler w = refused /\
     debug self (Some message) now ident handler w = refused /\
     info self (Some message) now ident handler w = refused /\
     warning self (Some message) now ident handler w = refused /\
     error self (Some message) now ident handler w = refused /\
     critical self (Some message) now ident handler w = refused).
Proof.
  split; [|split].
  - intros Hb message [type_name ex_text] st.
    unfold verbose, debug, info, warning, error, critical, exception, error,
      send_checked, _send_to_logger.
    rewrite Hb. repeat split.
  - intros Hb Hc message logged.
    unfold verbose, debug, info, warning, error, critical, send_checked, _send_to_logger,
      log, _format_message, logged.
    rewrite Hb, Hc. repeat split.
  - intros Hb Hc message refused.
    unfold verbose, debug, info, warning, error, critical, send_checked, _send_to_logger,
      log, refused.
    rewrite Hb, Hc. repeat split.
Qed.

Lemma log_all_other_lists entries : forall w l,
  class_ (logger w) = TestLogger_class ->
  l <> _log_store (logger w) -> list_at (log_all entries w) l = list_at w l.
Proof.
  induction entries as [|[h m] entries IH]; intros w l Hc Hne; [reflexivity|].
  rewrite log_all_cons. simpl fst. simpl snd.
  assert (Hlog : log h (Some m) w = _log h m w) by (unfold log; rewrite Hc; reflexivity).
  rewrite Hlog. destruct (log_effect h m w) as (Hl & _ & Ho & _).
  rewrite IH by (rewrite Hl; assumption). apply Ho, Hne.
Qed.

(** X23. [get_log_store] hands out the logger's own list, not a copy:
    the list received shows every message stored later, and what the
    caller does to it is done to the store.  [clear_log_store] gives the
    logger a new empty list: a list handed out before keeps its items
    and no longer changes when messages are logged. *)
Theorem get_log_store_is_the_store_itself w :
  class_ (logger w) = TestLogger_class ->
  (forall entries, list_at (log_all entries w) (get_log_store w) = store (log_all entries w)) /\
  (forall f, store (mutate_list (get_log_store w) f w) = f (store w)) /\
  store (clear_log_store w) = nil /\
  (is_Some (lists w !! get_log_store w) ->
   get_log_store (clear_log_store w) <> get_log_store w /\
   forall entries,
     list_at (log_all entries (clear_log_store w)) (get_log_store w) = store w).
Proof.
  intros Hc. split; [|split; [|split]].
  - intros entries. unfold store, get_log_store. rewrite (log_all_logger entries w Hc).
    reflexivity.
  - intros f. unfold store, mutate_list, get_log_store, list_at. simpl.
    rewrite lookup_insert_eq. reflexivity.
  - unfold store, clear_log_store, list_at. simpl. rewrite lookup_insert_eq. reflexivity.
  - intros Ha.
    assert (Hne : fresh (dom (lists w)) <> get_log_store w).
    { intros Heq. assert (Hin : get_log_store w ∈ dom (lists w)) by (apply elem_of_dom, Ha).
      rewrite <- Heq in Hin. revert Hin. apply is_fresh. }
    split; [exact Hne|]. intros entries.
    rewrite log_all_other_lists.
    + unfold list_at, clear_log_store, store, list_at, get_log_store in *. simpl.
      rewrite lookup_insert_ne by exact Hne. reflexivity.
    + exact Hc.
    + simpl. intros Heq. apply Hne. symmetry. exact Heq.
Qed.

End Logger.

(* ===================================================================== *)
(** * The properties at work on a venue *)
(* ===================================================================== *)

#[local] Existing Instance Fixture.externals.

(** C2, counterexample. With 309 price decimals no tick size is
    computed: [10 ** 309] is too large for the float division, and the
    build raises OverflowError. *)
Lemma decimal_places_tick_overflow :
  1 <= 309 /\
  decimal_places_tick_text (VInt 309) = Raise OverflowError /\
  Fixture.build (Fixture.world_with_usdt DECIMAL_PLACES) "BTC/USDT" Fixture.fine_grained 100
  = Raise OverflowError.
Proof. split; [lia|]. split; vm_compute; reflexivity. Qed.

(** C2 at work: two price decimals give the tick size 0.01. *)
Lemma decimal_places_tick_exact_witness :
  decimal_places_tick_text (VInt 2) = Ok "0.01" /\
  exists i,
    Fixture.build (Fixture.world_with_usdt DECIMAL_PLACES) "BTC/USDT" Fixture.btc_usdt 100 = Ok i /\
    Instrument.tick_size i = PyDecimal.Finite false 1 (-2).
Proof.
  destruct (decimal_places_tick_exact 2 ltac:(lia)) as (Hrange & _ & Hbuild).
  destruct (Hrange ltac:(lia)) as (Htext & _ & _).
  split; [exact Htext|].
  destruct (Hbuild (provider (Fixture.world_with_usdt DECIMAL_PLACES)) Fixture.btc_usdt
                   (("price", VInt 2) :: ("amount", VInt 0) :: nil)
                   eq_refl eq_refl eq_refl) as (_ & _ & Hi).
  eexists. split; [vm_compute; reflexivity|].
  apply (Hi Fixture.externals (Fixture.symbol "BTC/USDT") 100). vm_compute. reflexivity.
Defined.

(** C3, counterexample. The base code FOO is in the market, and neither
    the table of well-known currencies nor the currency cache has it: the
    build raises KeyError; no instrument without a base currency comes
    out. *)
Lemma unresolved_base_is_fatal :
  PyDict.getitem Fixture.foo_usdt "base" = Ok (VStr "FOO") /\
  @Currency_from_str_c Fixture.externals (Some "FOO") = None /\
  _currencies (provider (Fixture.world_with_usdt DECIMAL_PLACES)) !! "FOO" = None /\
  Fixture.build (Fixture.world_with_usdt DECIMAL_PLACES) "FOO/USDT" Fixture.foo_usdt 100
  = Raise (KeyError (VStr "FOO")) /\
  exn_name (KeyError (VStr "FOO")) <> "MissingCurrency".
Proof. repeat split; try (vm_compute; reflexivity). discriminate. Qed.

(** C3 at work: the unresolved base code FOO makes the build raise
    KeyError for it. *)
Lemma unresolved_currency_raises_witness :
  Fixture.build (Fixture.world_with_usdt DECIMAL_PLACES) "FOO/USDT" Fixture.foo_usdt 100
  = Raise (KeyError (VStr "FOO")).
Proof.
  refine (let items := match Fixture.foo_usdt with VDict items => items | _ => nil end in
          _).
  destruct (unresolved_currency_raises (H:=Fixture.externals)
              (provider (Fixture.world_with_usdt DECIMAL_PLACES))
              (Fixture.symbol "FOO/USDT") items 100) as (_ & Hbase & _).
  destruct (Hbase "FOO") as [_ Hraise].
  - vm_compute. reflexivity.
  - vm_compute. reflexivity.
  - vm_compute. reflexivity.
  - apply Hraise; eexists; vm_compute; reflexivity.
Defined.

(** C5, counterexample. BTC/USDT is cached with the tick size 0.01.  The
    reload raises at its second entry, after the first entry has replaced
    the cached instrument: the entry is present, but changed (tick size
    0.001). *)
Lemma failed_reload_overwrites_cached_entry :
  (load_all (Ok Fixture.second_fetch) (Fixture.clock 200) Fixture.loaded).1
  = Raise (KeyError (VStr "precision")) /\
  Instrument.tick_size <$> get (Fixture.symbol "BTC/USDT") Fixture.loaded
  = Some (PyDecimal.Finite false 1 (-2)) /\
  Instrument.tick_size <$> get (Fixture.symbol "BTC/USDT") Fixture.reloaded
  = Some (PyDecimal.Finite false 1 (-3)).
Proof. repeat split; vm_compute; reflexivity. Qed.

(** C5 at work: the reload raises at ETH/USDT and BTC/USDT stays cached. *)
Lemma failed_load_keeps_upserts_witness :
  exists w',
    _load_instruments (Fixture.clock 200) Fixture.before_instruments
    = (Raise (KeyError (VStr "precision")), w') /\
    is_Some (get_c "BTC/USDT" w').
Proof.
  destruct (failed_load_keeps_upserts (H:=Fixture.externals)
              (Fixture.clock 200) Fixture.before_instruments
              (("BTC/USDT",
                Fixture.market (VInt 3) (VInt 0) "BTC" "USDT" (("min", VInt 1) :: nil) nil) :: nil)
              "ETH/USDT" (VDict nil) nil (KeyError (VStr "precision")))
    as (w' & Hload & _ & _ & Hkeep & _ & _).
  - vm_compute. reflexivity.
  - apply NoDup_singleton.
  - intros [|j] kj vj Hj; [|discriminate]. injection Hj as <- <-.
    eexists. vm_compute. reflexivity.
  - vm_compute. reflexivity.
  - exists w'. split; [exact Hload|]. apply Hkeep. vm_compute. eexists. reflexivity.
Defined.

(** C6 at work: after a second load that omits BTC/USDT, the instrument
    cached by the first load is still returned. *)
Lemma reload_never_evicts_witness :
  get (Fixture.symbol "BTC/USDT")
      (load_all (Ok Fixture.third_fetch) (Fixture.clock 300) Fixture.loaded).2
  = get (Fixture.symbol "BTC/USDT") Fixture.loaded /\
  dom (instruments (Fixture.world DECIMAL_PLACES))
    ⊆ dom (instruments (load_all (Ok Fixture.third_fetch) (Fixture.clock 300) Fixture.loaded).2).
Proof.
  destruct (reload_never_evicts (H:=Fixture.externals)) as (Hseq & _ & Hstale).
  split.
  - apply (Hstale Fixture.third_fetch (Fixture.clock 300) Fixture.loaded tt).
    + vm_compute. reflexivity.
    + vm_compute. intros Hin. apply list_elem_of_singleton in Hin. discriminate.
  - apply (Hseq ((Ok Fixture.first_fetch, Fixture.clock 100) ::
                 (Ok Fixture.third_fetch, Fixture.clock 300) :: nil)).
    vm_compute. reflexivity.
Defined.

(** C7 at work: without [info.lotSize], the minimum amount 1 becomes the
    lot size, wrapped again at the size precision 0. *)
Lemma lot_size_fallback_order_witness :
  exists i,
    Fixture.build (Fixture.world_with_usdt DECIMAL_PLACES) "BTC/USDT" Fixture.btc_usdt 100 = Ok i /\
    Instrument.lot_size i
    = Quantity.of_quantity (Quantity.of_value (VInt 1) (Some (VInt 0))) (Some (VInt 0)).
Proof.
  eexists. split; [vm_compute; reflexivity|].
  match goal with
  | |- Instrument.lot_size ?i = _ =>
      destruct (lot_size_fallback_order (H:=Fixture.externals)
                  (provider (Fixture.world_with_usdt DECIMAL_PLACES))
                  (Fixture.symbol "BTC/USDT") Fixture.btc_usdt 100 i)
        as (info & lot & min_raw & Hinfo & Hlot & Hmin & Hcases)
  end.
  - vm_compute. reflexivity.
  - vm_compute in Hinfo. injection Hinfo as <-.
    vm_compute in Hlot. injection Hlot as <-.
    vm_compute in Hmin. injection Hmin as <-.
    destruct Hcases as [[Hne _]|[(_ & _ & _ & Hl)|(_ & Hne & _)]].
    + exfalso. apply Hne. reflexivity.
    + exact Hl.
    + discriminate Hne.
Defined.

(** C8, counterexample. The market of the specification's scenario has no
    [info] block, and a market may have no [precision] block: the build
    raises KeyError, Python's lookup failure, in both cases. *)
Lemma missing_block_is_a_KeyError :
  Fixture.build (Fixture.world_with_usdt DECIMAL_PLACES) "BTC/USDT" Fixture.scenario_market 100
  = Raise (KeyError (VStr "info")) /\
  Fixture.build (Fixture.world_with_usdt DECIMAL_PLACES) "ETH/USDT" (VDict nil) 100
  = Raise (KeyError (VStr "precision")) /\
  exn_name (KeyError (VStr "info")) = "KeyError" /\
  exn_name (KeyError (VStr "info")) <> "MalformedMarketDefinition".
Proof. repeat split; try (vm_compute; reflexivity). discriminate. Qed.

(** C8 at work: the scenario's market raises KeyError for [info]. *)
Lemma missing_block_raises_lookup_error_witness :
  Fixture.build (Fixture.world_with_usdt DECIMAL_PLACES) "BTC/USDT" Fixture.scenario_market 100
  = Raise (KeyError (VStr "info")).
Proof.
  refine (let items := match Fixture.scenario_market with VDict items => items | _ => nil end in
          _).
  destruct (missing_block_raises_lookup_error (H:=Fixture.externals)
              (provider (Fixture.world_with_usdt DECIMAL_PLACES))
              (Fixture.symbol "BTC/USDT") items 100) as (_ & _ & _ & Hinfo & _).
  destruct Hinfo as [_ Hraise]; [vm_compute; reflexivity|].
  apply Hraise. repeat split; eexists; vm_compute; reflexivity.
Defined.

(** A write through the provider's own reference would be seen by
    [get]: what protects the provider is that [get_all] hands out another
    object. *)
Example write_through_own_reference :
  is_Some (get (Fixture.symbol "BTC/USDT") Fixture.loaded) /\
  get (Fixture.symbol "BTC/USDT")
      (mutate (_instruments (provider Fixture.loaded)) Clear Fixture.loaded) = None.
Proof. split; vm_compute; [eexists|]; reflexivity. Qed.

(** C9 at work: the caller clears the dictionary it received and then
    deletes BTC/USDT from it; the provider still returns the cached
    instrument. *)
Lemma get_all_returns_a_copy_witness :
  is_Some (get (Fixture.symbol "BTC/USDT") Fixture.loaded) /\
  get (Fixture.symbol "BTC/USDT")
      (mutate_all (get_all Fixture.loaded).1 (Clear :: DelItem "BTC/USDT" :: nil)
                  (get_all Fixture.loaded).2)
  = get (Fixture.symbol "BTC/USDT") Fixture.loaded.
Proof.
  assert (Ha : allocated Fixture.loaded) by (vm_compute; eexists; reflexivity).
  destruct (get_all_returns_a_copy Fixture.loaded Ha) as [Hcopy _].
  destruct (Hcopy (get_all Fixture.loaded).1 (get_all Fixture.loaded).2
                  (Clear :: DelItem "BTC/USDT" :: nil)) as (_ & Hget & _).
  - destruct (get_all Fixture.loaded). reflexivity.
  - split; [vm_compute; eexists; reflexivity | apply Hget].
Defined.

(** C10 at work: with [info.lotSize = 10] and the size precision 3, the
    lot size is [Quantity(10)], without a precision. *)
Lemma explicit_lot_size_without_precision_witness :
  exists i,
    Fixture.build (Fixture.world_with_usdt DECIMAL_PLACES) "BTC/USDT" Fixture.with_lot_size 100
    = Ok i /\
    Instrument.size_precision i = VInt 3 /\
    Instrument.lot_size i = Quantity.of_value (VInt 10) None /\
    Quantity.precision (Instrument.lot_size i) = None.
Proof.
  destruct (explicit_lot_size_without_precision (H:=Fixture.externals)) as (Hexplicit & _ & _).
  eexists. split; [vm_compute; reflexivity|]. split; [reflexivity|].
  eapply (Hexplicit (provider (Fixture.world_with_usdt DECIMAL_PLACES))
                    (Fixture.symbol "BTC/USDT") Fixture.with_lot_size 100).
  - vm_compute. reflexivity.
  - vm_compute. reflexivity.
  - vm_compute. reflexivity.
  - discriminate.
Defined.

(** ** More of the provider at work *)

(** X1 at work: the market's cost limits 10 and 100000 are the notional
    bounds in USDT and, at the price precision 2, the price bounds. *)
Lemma price_bounds_are_cost_limits_witness :
  exists i,
    Fixture.build (Fixture.world_with_usdt DECIMAL_PLACES) "BTC/USDT" Fixture.limited 100 = Ok i /\
    Instrument.max_notional i = Some (Money.make (VInt 100000) Fixture.USDT) /\
    Instrument.max_price i = Some (Price.make (VInt 100000) (VInt 2)) /\
    Instrument.min_notional i = Some (Money.make (VInt 10) Fixture.USDT) /\
    Instrument.min_price i = Some (Price.make (VInt 10) (VInt 2)).
Proof.
  eexists. split; [vm_compute; reflexivity|].
  match goal with
  | |- Instrument.max_notional ?i = _ /\ _ =>
      destruct (price_bounds_are_cost_limits (H:=Fixture.externals)
                  (provider (Fixture.world_with_usdt DECIMAL_PLACES))
                  (Fixture.symbol "BTC/USDT") Fixture.limited 100 i)
        as (cost_max & cost_min & Hmax & Hmin & Hn1 & Hp1 & Hn2 & Hp2)
  end.
  - vm_compute. reflexivity.
  - vm_compute in Hmax. injection Hmax as <-.
    vm_compute in Hmin. injection Hmin as <-.
    rewrite Hn1, Hp1, Hn2, Hp2. repeat split.
Defined.

(** X2 at work: the amount limits 1 and 1000, at the size precision 3. *)
Lemma quantity_bounds_are_amount_limits_witness :
  exists i,
    Fixture.build (Fixture.world_with_usdt DECIMAL_PLACES) "BTC/USDT" Fixture.limited 100 = Ok i /\
    Instrument.max_quantity i = Some (Quantity.of_value (VInt 1000) (Some (VInt 3))) /\
    Instrument.min_quantity i = Some (Quantity.of_value (VInt 1) (Some (VInt 3))).
Proof.
  eexists. split; [vm_compute; reflexivity|].
  match goal with
  | |- Instrument.max_quantity ?i = _ /\ _ =>
      destruct (quantity_bounds_are_amount_limits (H:=Fixture.externals)
                  (provider (Fixture.world_with_usdt DECIMAL_PLACES))
                  (Fixture.symbol "BTC/USDT") Fixture.limited 100 i)
        as (amount_max & amount_min & Hmax & Hmin & Hq1 & Hq2)
  end.
  - vm_compute. reflexivity.
  - vm_compute in Hmax. injection Hmax as <-.
    vm_compute in Hmin. injection Hmin as <-.
    rewrite Hq1, Hq2. split; reflexivity.
Defined.

(** X3 at work on BTC/USDT. *)
Lemma built_instrument_fixed_fields_witness :
  exists i,
    Fixture.build (Fixture.world_with_usdt DECIMAL_PLACES) "BTC/USDT" Fixture.btc_usdt 100 = Ok i /\
    Instrument.settlement_currency i = Instrument.quote_currency i /\
    Instrument.is_inverse i = false /\
    Instrument.info i = Fixture.btc_usdt /\
    Instrument.timestamp i = 100.
Proof.
  eexists. split; [vm_compute; reflexivity|].
  match goal with
  | |- Instrument.settlement_currency ?i = _ /\ _ =>
      destruct (built_instrument_fixed_fields (H:=Fixture.externals)
                  (provider (Fixture.world_with_usdt DECIMAL_PLACES))
                  (Fixture.symbol "BTC/USDT") Fixture.btc_usdt 100 i)
        as (_ & Hs & Hinv & _ & _ & _ & _ & _ & Hinfo & _ & Ht)
  end.
  - vm_compute. reflexivity.
  - auto.
Defined.

(** X5 at work: two price decimals give the tick size [1E-2]; the size
    precision is the reported 0. *)
Lemma decimal_places_precisions_witness :
  exists i,
    Fixture.build (Fixture.world_with_usdt DECIMAL_PLACES) "BTC/USDT" Fixture.btc_usdt 100 = Ok i /\
    Instrument.price_precision i = VInt 2 /\
    Instrument.tick_size i = PyDecimal.Finite false 1 (-2) /\
    Instrument.size_precision i = VInt 0.
Proof.
  eexists. split; [vm_compute; reflexivity|].
  match goal with
  | |- Instrument.price_precision ?i = _ /\ _ =>
      destruct (decimal_places_precisions (H:=Fixture.externals)
                  (provider (Fixture.world_with_usdt DECIMAL_PLACES))
                  (Fixture.symbol "BTC/USDT") Fixture.btc_usdt 100 i
                  (("price", VInt 2) :: ("amount", VInt 0) :: nil))
        as (p & _ & Hl & Hpp & Hts & Hsp)
  end.
  - reflexivity.
  - reflexivity.
  - vm_compute. reflexivity.
  - vm_compute in Hl. injection Hl as <-. rewrite Hpp, Hts, Hsp. repeat split.
Defined.

(** X6 at work: a market with the price tick 1e-05 and the amount tick
    0.0001 under TICK_SIZE. *)
Lemma tick_size_precisions_witness :
  exists i,
    Fixture.build (Fixture.world_with_usdt TICK_SIZE) "BTC/USDT" Fixture.tick_market 100 = Ok i /\
    exists a b, Instrument.price_precision i = VInt a /\ 0 <= a /\
                Instrument.size_precision i = VInt b /\ 0 <= b.
Proof.
  eexists. split; [vm_compute; reflexivity|].
  match goal with
  | |- exists a b, Instrument.price_precision ?i = _ /\ _ =>
      destruct (tick_size_precisions (H:=Fixture.externals)
                  (provider (Fixture.world_with_usdt TICK_SIZE))
                  (Fixture.symbol "BTC/USDT") Fixture.tick_market 100 i
                  (("price", VFloat Fixture.tick_1e_05) ::
                   ("amount", VFloat Fixture.tick_0_0001) :: nil))
        as (Hnonneg & _)
  end.
  - reflexivity.
  - reflexivity.
  - vm_compute. reflexivity.
  - exact Hnonneg.
Defined.

(** X7 at work: a client in SIGNIFICANT_DIGITS mode. *)
Lemma unsupported_mode_raises_RuntimeError_witness :
  Fixture.build Fixture.significant_digits_world "BTC/USDT" Fixture.btc_usdt 100
  = Raise (RuntimeError ("The Binance exchange is using SIGNIFICANT_DIGITS precision " +:+
                         "which is not currently supported in this version.")).
Proof.
  destruct (unsupported_mode_raises_RuntimeError (H:=Fixture.externals)
              (provider Fixture.significant_digits_world)
              (Fixture.symbol "BTC/USDT") Fixture.btc_usdt 100) as [_ Hmsg].
  - vm_compute. discriminate.
  - vm_compute. discriminate.
  - apply Hmsg. eexists. vm_compute. reflexivity.
Defined.

(** X8 at work: [spot] and [Spot] are the same asset type. *)
Lemma asset_type_ignores_case_witness :
  parse_asset_type (VDict (("type", VStr "spot") :: nil))
  = parse_asset_type (VDict (("type", VStr "Spot") :: nil)).
Proof.
  destruct (asset_type_ignores_case (H:=Fixture.externals)) as (_ & Hcase & _).
  apply (Hcase _ _ "spot" "Spot"); reflexivity.
Defined.

(** X9 at work: BTC resolves to the well-known currency though the cache
    has an entry of its own for the code. *)
Lemma well_known_currency_first_witness :
  _currencies (Fixture.with_cached_btc (Fixture.world DECIMAL_PLACES)) !! "BTC"
  = Some (Currency.make "BTC" 2 FIAT) /\
  resolve_currency (Fixture.with_cached_btc (Fixture.world DECIMAL_PLACES)) (VStr "BTC")
  = Ok Fixture.BTC.
Proof.
  split; [vm_compute; reflexivity|].
  destruct (well_known_currency_first (H:=Fixture.externals)
              (Fixture.with_cached_btc (Fixture.world DECIMAL_PLACES))) as (Hknown & _).
  apply Hknown. reflexivity.
Defined.

(** X10 at work: the tick 5e-07, positive or negative, gets the
    precision 0. *)
Lemma tick_precision_scientific_single_digit_witness :
  _tick_size_to_precision Fixture.tick_5e_07 = 0 /\
  PyFloat.str Fixture.tick_5e_07 = "5e-07".
Proof.
  destruct Fixture.tick_5e_07 as [| | |s m e] eqn:Hx; try (vm_compute in Hx; discriminate).
  vm_compute in Hx. injection Hx as <- <- <-.
  match goal with
  | |- _tick_size_to_precision (S754_finite _ ?m ?e) = _ /\ _ =>
      destruct (tick_precision_scientific_single_digit false m e "5" (-6))
        as (Hstr & Htick & _)
  end.
  - vm_compute. reflexivity.
  - left. lia.
  - split; [exact Htick|]. rewrite Hstr. vm_compute. reflexivity.
Defined.




(** X15 at work: after the first load the count is 1; after the reload
    that raised it still is, with one instrument cached. *)
Lemma count_tracks_cached_instruments_witness :
  count (provider Fixture.loaded) = Z.of_nat (size (instruments Fixture.loaded)) /\
  count (provider Fixture.reloaded) = count (provider Fixture.loaded).
Proof.
  destruct (count_tracks_cached_instruments (H:=Fixture.externals)) as (Hok & Hraise & _).
  split.
  - apply (Hok (Ok Fixture.first_fetch) (Fixture.clock 100) (Fixture.world DECIMAL_PLACES) tt).
    vm_compute. reflexivity.
  - apply (Hraise (Ok Fixture.second_fetch) (Fixture.clock 200) Fixture.loaded
                  (KeyError (VStr "precision"))).
    vm_compute. reflexivity.
Defined.

(** X16 at work: a reload whose currency USDT has no precision raises
    KeyError and leaves the instruments of the first load in place. *)
Lemma load_all_fails_before_instruments_witness :
  (load_all (Ok Fixture.broken_currencies_fetch) (Fixture.clock 200) Fixture.loaded).1
  = Raise (KeyError (VStr "precision")) /\
  instruments (load_all (Ok Fixture.broken_currencies_fetch) (Fixture.clock 200)
                        Fixture.loaded).2
  = instruments Fixture.loaded.
Proof.
  destruct (load_all_fails_before_instruments (H:=Fixture.externals)
              (Fixture.clock 200) Fixture.loaded (KeyError (VStr "precision")))
    as [_ Hcur].
  destruct (Hcur Fixture.broken_currencies_fetch
                 (_load_currencies (with_provider (set_client Fixture.broken_currencies_fetch)
                                                  Fixture.loaded)).2)
    as (Hload & _ & Hins & _).
  - vm_compute. reflexivity.
  - rewrite Hload. cbn [fst snd]. split; [reflexivity | exact Hins].
Defined.

(** X17 at work: a fetch whose first market entry is a string. *)
Lemma market_entry_must_be_a_dictionary_witness :
  _load_instruments (Fixture.clock 200)
    (with_provider (set_client Fixture.text_entry_fetch) Fixture.loaded)
  = (Raise TypeError, with_provider (set_client Fixture.text_entry_fetch) Fixture.loaded).
Proof.
  destruct (market_entry_must_be_a_dictionary (H:=Fixture.externals) "BTC/USDT" (VStr "spot")
              (with_provider (set_client Fixture.text_entry_fetch) Fixture.loaded))
    as [_ Hload].
  - intros items. discriminate.
  - apply (Hload (Fixture.clock 200) (("ETH/USDT", Fixture.btc_usdt) :: nil)). reflexivity.
Defined.

(** X18 at work: a second provider, created after the first load and
    loaded with the third fetch, leaves the first provider's BTC/USDT
    where it is. *)
Lemma providers_do_not_share_instruments_witness :
  instruments
    {| objects := objects (load_all (Ok Fixture.third_fetch) (Fixture.clock 300)
                                    (init Fixture.third_fetch (objects Fixture.loaded))).2;
       provider := provider Fixture.loaded |}
  = instruments Fixture.loaded.
Proof.
  destruct (providers_do_not_share_instruments (H:=Fixture.externals)) as [_ Hsep].
  eapply (Hsep Fixture.loaded Fixture.third_fetch (Ok Fixture.third_fetch) (Fixture.clock 300)).
  - vm_compute. eexists. reflexivity.
  - apply surjective_pairing.
Defined.

(** ** The logger at work *)

#[local] Existing Instance Logging.Sample.imports.

(** X19 at work: of an info message, a warning and an error, a default
    [TestLogger] stores the warning and the error. *)
Lemma store_holds_filtered_messages_witness :
  Logging.store (Logging.log_all Logging.Sample.entries Logging.Sample.new_world)
  = map (Logging._format_output (Logging.logger Logging.Sample.new_world))
        (Logging.Sample.message 4 "slow" :: Logging.Sample.message 5 "failed" :: nil).
Proof.
  destruct (store_holds_filtered_messages (H:=Logging.Sample.imports)
              Logging.Sample.entries Logging.Sample.new_world eq_refl) as [Hs _].
  rewrite Hs. vm_compute. reflexivity.
Defined.

(** X20 at work: the same logger prints all three. *)
Lemma console_shows_messages_from_console_level_witness :
  Logging.console (Logging.log_all Logging.Sample.entries Logging.Sample.new_world)
  = map (Logging._format_output (Logging.logger Logging.Sample.new_world))
        (map snd Logging.Sample.entries).
Proof.
  destruct (console_shows_messages_from_console_level (H:=Logging.Sample.imports)
              Logging.Sample.entries Logging.Sample.new_world eq_refl) as [_ Hc].
  rewrite Hc by reflexivity. vm_compute. reflexivity.
Defined.

(** X21 at work: the file write of an error fails; the error is printed,
    followed by the report of the failure. *)
Lemma file_failure_is_not_raised_witness :
  (Logging._log (Logging.IOError "disk full") (Logging.Sample.message 5 "failed")
                Logging.Sample.filing_world).1 = Logging.Done tt /\
  Logging.console (Logging._log (Logging.IOError "disk full") (Logging.Sample.message 5 "failed")
                                Logging.Sample.filing_world).2
  = (Logging._format_output (Logging.logger Logging.Sample.filing_world)
                            (Logging.Sample.message 5 "failed")
     :: "IOError: disk full." :: nil).
Proof.
  destruct (file_failure_is_not_raised (H:=Logging.Sample.imports)
              (Logging.Sample.message 5 "failed") Logging.Sample.filing_world "disk full")
    as (Hdone & _ & _ & _ & Hreport & _).
  split; [exact Hdone|].
  rewrite Hreport by reflexivity. vm_compute. reflexivity.
Defined.

(** X22 at work: an error sent through a bypassed adapter. *)
Lemma adapter_bypass_and_prefix_witness :
  Logging.error Logging.Sample.bypassed_adapter (Some "failed") 10 0 Logging.Written
                Logging.Sample.new_world
  = (Logging.Done tt, Logging.Sample.new_world) /\
  Logging.store (Logging.error Logging.Sample.adapter (Some "failed") 10 0 Logging.Written
                               Logging.Sample.new_world).2
  = (Logging._format_output (Logging.logger Logging.Sample.new_world)
                            (Logging.Sample.message 5 "Trader: failed") :: nil).
Proof.
  split.
  - destruct (adapter_bypass_and_prefix (H:=Logging.Sample.imports)
                Logging.Sample.bypassed_adapter 10 0 Logging.Written Logging.Sample.new_world)
      as (Hb & _).
    destruct (Hb eq_refl "failed" ("", "") nil) as (_ & _ & _ & _ & He & _). exact He.
  - destruct (adapter_bypass_and_prefix (H:=Logging.Sample.imports)
                Logging.Sample.adapter 10 0 Logging.Written Logging.Sample.new_world)
      as (_ & Hlog & _).
    destruct (Hlog eq_refl eq_refl "failed") as (_ & _ & _ & _ & He & _).
    rewrite He. vm_compute. reflexivity.
Defined.

(** X23 at work: the list handed out after three messages still has its
    two items after the store was cleared and the messages logged again. *)
Lemma get_log_store_is_the_store_itself_witness :
  Logging.list_at
    (Logging.log_all Logging.Sample.entries
       (Logging.clear_log_store
          (Logging.log_all Logging.Sample.entries Logging.Sample.new_world)))
    (Logging.get_log_store (Logging.log_all Logging.Sample.entries Logging.Sample.new_world))
  = Logging.store (Logging.log_all Logging.Sample.entries Logging.Sample.new_world) /\
  length (Logging.store (Logging.log_all Logging.Sample.entries Logging.Sample.new_world)) = 2%nat.
Proof.
  destruct (get_log_store_is_the_store_itself (H:=Logging.Sample.imports)
              (Logging.log_all Logging.Sample.entries Logging.Sample.new_world))
    as (_ & _ & _ & Hold).
  - vm_compute. reflexivity.
  - destruct Hold as [_ Hkeep]; [vm_compute; eexists; reflexivity|].
    split; [apply Hkeep | vm_compute; reflexivity].
Defined.
